(** * platform/conf: rendering and mutation of machine user data

    A shallow embedding of [conf.go] (type [UserData], type [Conf], [Render],
    the per-version mutation routines and their dispatchers) and of the
    classification helpers of [ignition/config/v2_2/cloudinit.go].

    Conventions of the embedding:
    - a Go [string] or [[]byte] is a [string] (a sequence of 8-bit characters);
    - a Go pointer slot of [Conf] is an [option]; [nil] is [None];
    - a method with a pointer receiver is a function returning the receiver's
      state after the call;
    - a run-time panic (explicit [panic], or the dereference of a nil pointer)
      is the outcome [Panic]; a returned [error] is an ordinary value;
    - a slice is a [list]; [append] is [++]; a nil slice and an empty slice
      are both [[]];
    - libraries outside the package (the per-version parsers and merge
      functions, JSON encoding, data URLs, gzip, MIME headers) are fields of
      the records [MergeEngine] and [Externals]: every statement below holds
      for all of them unless it names the contract it assumes;
    - process-wide logging ([plog]) is not observable by callers and is left
      out. *)

From stdpp Require Import base option list strings.
From Stdlib Require Import ZArith OctalString.

Local Open Scope string_scope.
Local Open Scope Z_scope.

(** ** Outcomes *)

(** The outcome of a call: normal return, or a run-time panic. *)
Inductive Result (A : Type) : Type :=
| Ok (a : A)
| Panic (msg : string).
Arguments Ok {A} a.
Arguments Panic {A} msg.

Global Instance Result_ret : MRet Result := fun A a => Ok a.

Global Instance Result_bind : MBind Result := fun A B k r =>
  match r with
  | Ok a => k a
  | Panic msg => Panic msg
  end.

(** The message of the Go runtime when a nil pointer is dereferenced. *)
Definition nil_dereference : string :=
  "runtime error: invalid memory address or nil pointer dereference".

(** [p != nil] for a pointer slot. *)
Definition nonnil {A} (p : option A) : bool :=
  match p with
  | Some _ => true
  | None => false
  end.

(** [*p] for a pointer slot. *)
Definition deref {A} (p : option A) : Result A :=
  match p with
  | Some a => Ok a
  | None => Panic nil_dereference
  end.

(** Go [error] values seen by the package.  The two [ErrUnknownVersion]
    sentinels are distinct variables of two distinct libraries
    ([ignerr] for v1..v2.3, [ign3err] for v3.x). *)
Inductive error : Type :=
| ignerr_ErrUnknownVersion
| ign3err_ErrUnknownVersion
| fmt_Errorf (msg : string)
| fmt_Errorf_w (msg : string) (wrapped : error)
| external_error (msg : string).

Global Instance error_eq_dec : EqDecision error.
Proof. solve_decision. Defined.

(** Validation reports of the parsing libraries. *)
Inductive entryKind : Type := EntryError | EntryWarning | EntryInfo | EntryDeprecated.

Global Instance entryKind_eq_dec : EqDecision entryKind.
Proof. solve_decision. Defined.

Record Entry : Type := { Entry_Kind : entryKind; Entry_Message : string }.

Record Report : Type := { Entries : list Entry }.

Definition IsFatal (r : Report) : bool :=
  existsb (fun e => bool_decide (Entry_Kind e = EntryError)) (Entries r).

(** [golang.org/x/crypto/ssh/agent.Key]. *)
Record Key : Type := { Key_Format : string; Key_Blob : string; Key_Comment : string }.

(** [net/url.URL], as far as the package looks at it. *)
Record Url : Type := { Url_Scheme : string; Url_Opaque : string }.

(** ** Document types of the schema versions

    Each module lists the fields of the library's [types] package that
    [conf.go] reads or writes; [Storage.Files] is the field
    [Storage_Files], and so on.  Integer modes are Go [int]s. *)

Module V1types.
Record File : Type :=
  { File_Path : string; File_Contents : string; File_Mode : Z }.
Record FilesystemCreate : Type :=
  { Create_Force : bool; Create_Options : list string }.
Record Filesystem : Type :=
  { Filesystem_Device : string;
    Filesystem_Format : string;
    Filesystem_Create : option FilesystemCreate;
    Filesystem_Files : list File }.
Record SystemdUnitDropIn : Type :=
  { DropIn_Name : string; DropIn_Contents : string }.
Record SystemdUnit : Type :=
  { Unit_Name : string;
    Unit_Enable : bool;
    Unit_Mask : bool;
    Unit_Contents : string;
    Unit_DropIns : list SystemdUnitDropIn }.
Record User : Type :=
  { User_Name : string;
    User_PasswordHash : string;
    User_SSHAuthorizedKeys : list string }.
Record Config : Type :=
  { Version : Z;
    Storage_Filesystems : list Filesystem;
    Systemd_Units : list SystemdUnit;
    Passwd_Users : list User }.

Definition with_Filesystems (fs : list Filesystem) (c : Config) : Config :=
  {| Version := Version c; Storage_Filesystems := fs;
     Systemd_Units := Systemd_Units c; Passwd_Users := Passwd_Users c |}.
Definition with_Units (us : list SystemdUnit) (c : Config) : Config :=
  {| Version := Version c; Storage_Filesystems := Storage_Filesystems c;
     Systemd_Units := us; Passwd_Users := Passwd_Users c |}.
Definition with_Users (us : list User) (c : Config) : Config :=
  {| Version := Version c; Storage_Filesystems := Storage_Filesystems c;
     Systemd_Units := Systemd_Units c; Passwd_Users := us |}.
Definition with_Files (fs : list File) (f : Filesystem) : Filesystem :=
  {| Filesystem_Device := Filesystem_Device f;
     Filesystem_Format := Filesystem_Format f;
     Filesystem_Create := Filesystem_Create f;
     Filesystem_Files := fs |}.
Definition with_DropIns (ds : list SystemdUnitDropIn) (u : SystemdUnit) : SystemdUnit :=
  {| Unit_Name := Unit_Name u; Unit_Enable := Unit_Enable u;
     Unit_Mask := Unit_Mask u; Unit_Contents := Unit_Contents u;
     Unit_DropIns := ds |}.
Definition with_SSHAuthorizedKeys (ks : list string) (u : User) : User :=
  {| User_Name := User_Name u; User_PasswordHash := User_PasswordHash u;
     User_SSHAuthorizedKeys := ks |}.
End V1types.

Module V2types.
Record File : Type :=
  { File_Filesystem : string;
    File_Path : string;
    File_Contents_Source : Url;
    File_Mode : Z }.
Record SystemdUnitDropIn : Type :=
  { DropIn_Name : string; DropIn_Contents : string }.
Record SystemdUnit : Type :=
  { Unit_Name : string;
    Unit_Enable : bool;
    Unit_Mask : bool;
    Unit_Contents : string;
    Unit_DropIns : list SystemdUnitDropIn }.
Record User : Type :=
  { User_Name : string;
    User_PasswordHash : string;
    User_SSHAuthorizedKeys : list string }.
Record Config : Type :=
  { Ignition_Version : string;
    Storage_Files : list File;
    Systemd_Units : list SystemdUnit;
    Passwd_Users : list User }.

Definition with_Files (fs : list File) (c : Config) : Config :=
  {| Ignition_Version := Ignition_Version c; Storage_Files := fs;
     Systemd_Units := Systemd_Units c; Passwd_Users := Passwd_Users c |}.
Definition with_Units (us : list SystemdUnit) (c : Config) : Config :=
  {| Ignition_Version := Ignition_Version c; Storage_Files := Storage_Files c;
     Systemd_Units := us; Passwd_Users := Passwd_Users c |}.
Definition with_Users (us : list User) (c : Config) : Config :=
  {| Ignition_Version := Ignition_Version c; Storage_Files := Storage_Files c;
     Systemd_Units := Systemd_Units c; Passwd_Users := us |}.
Definition with_DropIns (ds : list SystemdUnitDropIn) (u : SystemdUnit) : SystemdUnit :=
  {| Unit_Name := Unit_Name u; Unit_Enable := Unit_Enable u;
     Unit_Mask := Unit_Mask u; Unit_Contents := Unit_Contents u;
     Unit_DropIns := ds |}.
Definition with_SSHAuthorizedKeys (ks : list string) (u : User) : User :=
  {| User_Name := User_Name u; User_PasswordHash := User_PasswordHash u;
     User_SSHAuthorizedKeys := ks |}.
End V2types.

Module V21types.
Record File : Type :=
  { Node_Filesystem : string;
    Node_Path : string;
    File_Contents_Source : string;
    File_Mode : Z }.
Record Dropin : Type :=
  { Dropin_Name : string; Dropin_Contents : string }.
Record Unit : Type :=
  { Unit_Name : string;
    Unit_Contents : string;
    Unit_Enabled : option bool;
    Unit_Mask : bool;
    Unit_Dropins : list Dropin }.
Record PasswdUser : Type :=
  { User_Name : string;
    User_PasswordHash : option string;
    User_SSHAuthorizedKeys : list string }.
Record Config : Type :=
  { Ignition_Version : string;
    Storage_Files : list File;
    Systemd_Units : list Unit;
    Passwd_Users : list PasswdUser }.

Definition with_Files (fs : list File) (c : Config) : Config :=
  {| Ignition_Version := Ignition_Version c; Storage_Files := fs;
     Systemd_Units := Systemd_Units c; Passwd_Users := Passwd_Users c |}.
Definition with_Units (us : list Unit) (c : Config) : Config :=
  {| Ignition_Version := Ignition_Version c; Storage_Files := Storage_Files c;
     Systemd_Units := us; Passwd_Users := Passwd_Users c |}.
Definition with_Users (us : list PasswdUser) (c : Config) : Config :=
  {| Ignition_Version := Ignition_Version c; Storage_Files := Storage_Files c;
     Systemd_Units := Systemd_Units c; Passwd_Users := us |}.
Definition with_Dropins (ds : list Dropin) (u : Unit) : Unit :=
  {| Unit_Name := Unit_Name u; Unit_Contents := Unit_Contents u;
     Unit_Enabled := Unit_Enabled u; Unit_Mask := Unit_Mask u;
     Unit_Dropins := ds |}.
Definition with_SSHAuthorizedKeys (ks : list string) (u : PasswdUser) : PasswdUser :=
  {| User_Name := User_Name u; User_PasswordHash := User_PasswordHash u;
     User_SSHAuthorizedKeys := ks |}.
End V21types.

(** v2.2; the package of v2.3 declares the same shapes for these fields. *)
Module V22types.
Record File : Type :=
  { Node_Filesystem : string;
    Node_Path : string;
    File_Contents_Source : string;
    File_Mode : option Z }.
Record SystemdDropin : Type :=
  { Dropin_Name : string; Dropin_Contents : string }.
Record Unit : Type :=
  { Unit_Name : string;
    Unit_Contents : string;
    Unit_Enabled : option bool;
    Unit_Mask : bool;
    Unit_Dropins : list SystemdDropin }.
Record PasswdUser : Type :=
  { User_Name : string;
    User_PasswordHash : option string;
    User_SSHAuthorizedKeys : list string }.
Record Config : Type :=
  { Ignition_Version : string;
    Storage_Files : list File;
    Systemd_Units : list Unit;
    Passwd_Users : list PasswdUser }.

Definition with_Files (fs : list File) (c : Config) : Config :=
  {| Ignition_Version := Ignition_Version c; Storage_Files := fs;
     Systemd_Units := Systemd_Units c; Passwd_Users := Passwd_Users c |}.
Definition with_Units (us : list Unit) (c : Config) : Config :=
  {| Ignition_Version := Ignition_Version c; Storage_Files := Storage_Files c;
     Systemd_Units := us; Passwd_Users := Passwd_Users c |}.
Definition with_Users (us : list PasswdUser) (c : Config) : Config :=
  {| Ignition_Version := Ignition_Version c; Storage_Files := Storage_Files c;
     Systemd_Units := Systemd_Units c; Passwd_Users := us |}.
Definition with_Dropins (ds : list SystemdDropin) (u : Unit) : Unit :=
  {| Unit_Name := Unit_Name u; Unit_Contents := Unit_Contents u;
     Unit_Enabled := Unit_Enabled u; Unit_Mask := Unit_Mask u;
     Unit_Dropins := ds |}.
Definition with_SSHAuthorizedKeys (ks : list string) (u : PasswdUser) : PasswdUser :=
  {| User_Name := User_Name u; User_PasswordHash := User_PasswordHash u;
     User_SSHAuthorizedKeys := ks |}.
End V22types.

Module V23types := V22types.

(** v3.0; the packages of v3.1, v3.2 and v3.3 declare the same shapes for
    these fields. *)
Module V3types.
Record File : Type :=
  { Node_Path : string;
    File_Contents_Source : option string;
    File_Mode : option Z }.
Record Dropin : Type :=
  { Dropin_Name : string; Dropin_Contents : option string }.
Record Unit : Type :=
  { Unit_Name : string;
    Unit_Contents : option string;
    Unit_Enabled : option bool;
    Unit_Mask : option bool;
    Unit_Dropins : list Dropin }.
Record PasswdUser : Type :=
  { User_Name : string;
    User_PasswordHash : option string;
    User_SSHAuthorizedKeys : list string;
    User_Groups : list string }.
Record Config : Type :=
  { Ignition_Version : string;
    Storage_Files : list File;
    Systemd_Units : list Unit;
    Passwd_Users : list PasswdUser }.
End V3types.

Module V31types := V3types.
Module V32types := V3types.
Module V33types := V3types.

(** [coreos-cloudinit/config]. *)
Module cci.
Record File : Type :=
  { File_Encoding : string;
    File_Content : string;
    File_Owner : string;
    File_Path : string;
    File_RawFilePermissions : string }.
Record UnitDropIn : Type :=
  { DropIn_Name : string; DropIn_Content : string }.
Record Unit : Type :=
  { Unit_Name : string;
    Unit_Mask : bool;
    Unit_Enable : bool;
    Unit_Runtime : bool;
    Unit_Content : string;
    Unit_Command : string;
    Unit_DropIns : list UnitDropIn }.
Record CloudConfig : Type :=
  { SSHAuthorizedKeys : list string;
    CoreOS_Units : list Unit;
    WriteFiles : list File;
    Hostname : string }.

Definition with_WriteFiles (fs : list File) (c : CloudConfig) : CloudConfig :=
  {| SSHAuthorizedKeys := SSHAuthorizedKeys c; CoreOS_Units := CoreOS_Units c;
     WriteFiles := fs; Hostname := Hostname c |}.
Definition with_Units (us : list Unit) (c : CloudConfig) : CloudConfig :=
  {| SSHAuthorizedKeys := SSHAuthorizedKeys c; CoreOS_Units := us;
     WriteFiles := WriteFiles c; Hostname := Hostname c |}.
Definition with_SSHAuthorizedKeys (ks : list string) (c : CloudConfig) : CloudConfig :=
  {| SSHAuthorizedKeys := ks; CoreOS_Units := CoreOS_Units c;
     WriteFiles := WriteFiles c; Hostname := Hostname c |}.
Definition with_DropIns (ds : list UnitDropIn) (u : Unit) : Unit :=
  {| Unit_Name := Unit_Name u; Unit_Mask := Unit_Mask u;
     Unit_Enable := Unit_Enable u; Unit_Runtime := Unit_Runtime u;
     Unit_Content := Unit_Content u; Unit_Command := Unit_Command u;
     Unit_DropIns := ds |}.
End cci.

(** ** UserData and Conf *)

Inductive kind : Type :=
| kindEmpty
| kindCloudConfig
| kindIgnition
| kindContainerLinuxConfig
| kindScript
| kindButane
| kindMultipartMime.

Global Instance kind_eq_dec : EqDecision kind.
Proof. solve_decision. Defined.

(** [UserData]: the fields [kind], [data], [extraKeys] and [User]. *)
Record UserData : Type :=
  { ud_kind : kind;
    ud_data : string;
    ud_extraKeys : list Key;
    ud_User : string }.

(** [Conf]: nine Ignition slots, the cloud-config slot, the script text, the
    multipart text and the user name. *)
Record Conf : Type :=
  { ignitionV1 : option V1types.Config;
    ignitionV2 : option V2types.Config;
    ignitionV21 : option V21types.Config;
    ignitionV22 : option V22types.Config;
    ignitionV23 : option V23types.Config;
    ignitionV3 : option V3types.Config;
    ignitionV31 : option V31types.Config;
    ignitionV32 : option V32types.Config;
    ignitionV33 : option V33types.Config;
    cloudconfig : option cci.CloudConfig;
    script : string;
    multipartMime : string;
    user : string }.

(** [&Conf{user: u}]: every other field has its zero value. *)
Definition newConf (u : string) : Conf :=
  {| ignitionV1 := None; ignitionV2 := None; ignitionV21 := None;
     ignitionV22 := None; ignitionV23 := None; ignitionV3 := None;
     ignitionV31 := None; ignitionV32 := None; ignitionV33 := None;
     cloudconfig := None; script := ""; multipartMime := ""; user := u |}.

Definition set_ignitionV1 (x : option V1types.Config) (c : Conf) : Conf :=
  {| ignitionV1 := x; ignitionV2 := ignitionV2 c; ignitionV21 := ignitionV21 c;
     ignitionV22 := ignitionV22 c; ignitionV23 := ignitionV23 c;
     ignitionV3 := ignitionV3 c; ignitionV31 := ignitionV31 c;
     ignitionV32 := ignitionV32 c; ignitionV33 := ignitionV33 c;
     cloudconfig := cloudconfig c; script := script c;
     multipartMime := multipartMime c; user := user c |}.
Definition set_ignitionV2 (x : option V2types.Config) (c : Conf) : Conf :=
  {| ignitionV1 := ignitionV1 c; ignitionV2 := x; ignitionV21 := ignitionV21 c;
     ignitionV22 := ignitionV22 c; ignitionV23 := ignitionV23 c;
     ignitionV3 := ignitionV3 c; ignitionV31 := ignitionV31 c;
     ignitionV32 := ignitionV32 c; ignitionV33 := ignitionV33 c;
     cloudconfig := cloudconfig c; script := script c;
     multipartMime := multipartMime c; user := user c |}.
Definition set_ignitionV21 (x : option V21types.Config) (c : Conf) : Conf :=
  {| ignitionV1 := ignitionV1 c; ignitionV2 := ignitionV2 c; ignitionV21 := x;
     ignitionV22 := ignitionV22 c; ignitionV23 := ignitionV23 c;
     ignitionV3 := ignitionV3 c; ignitionV31 := ignitionV31 c;
     ignitionV32 := ignitionV32 c; ignitionV33 := ignitionV33 c;
     cloudconfig := cloudconfig c; script := script c;
     multipartMime := multipartMime c; user := user c |}.
Definition set_ignitionV22 (x : option V22types.Config) (c : Conf) : Conf :=
  {| ignitionV1 := ignitionV1 c; ignitionV2 := ignitionV2 c;
     ignitionV21 := ignitionV21 c; ignitionV22 := x;
     ignitionV23 := ignitionV23 c;
     ignitionV3 := ignitionV3 c; ignitionV31 := ignitionV31 c;
     ignitionV32 := ignitionV32 c; ignitionV33 := ignitionV33 c;
     cloudconfig := cloudconfig c; script := script c;
     multipartMime := multipartMime c; user := user c |}.
Definition set_ignitionV23 (x : option V23types.Config) (c : Conf) : Conf :=
  {| ignitionV1 := ignitionV1 c; ignitionV2 := ignitionV2 c;
     ignitionV21 := ignitionV21 c; ignitionV22 := ignitionV22 c;
     ignitionV23 := x;
     ignitionV3 := ignitionV3 c; ignitionV31 := ignitionV31 c;
     ignitionV32 := ignitionV32 c; ignitionV33 := ignitionV33 c;
     cloudconfig := cloudconfig c; script := script c;
     multipartMime := multipartMime c; user := user c |}.
Definition set_ignitionV3 (x : option V3types.Config) (c : Conf) : Conf :=
  {| ignitionV1 := ignitionV1 c; ignitionV2 := ignitionV2 c;
     ignitionV21 := ignitionV21 c; ignitionV22 := ignitionV22 c;
     ignitionV23 := ignitionV23 c;
     ignitionV3 := x; ignitionV31 := ignitionV31 c;
     ignitionV32 := ignitionV32 c; ignitionV33 := ignitionV33 c;
     cloudconfig := cloudconfig c; script := script c;
     multipartMime := multipartMime c; user := user c |}.
Definition set_ignitionV31 (x : option V31types.Config) (c : Conf) : Conf :=
  {| ignitionV1 := ignitionV1 c; ignitionV2 := ignitionV2 c;
     ignitionV21 := ignitionV21 c; ignitionV22 := ignitionV22 c;
     ignitionV23 := ignitionV23 c;
     ignitionV3 := ignitionV3 c; ignitionV31 := x;
     ignitionV32 := ignitionV32 c; ignitionV33 := ignitionV33 c;
     cloudconfig := cloudconfig c; script := script c;
     multipartMime := multipartMime c; user := user c |}.
Definition set_ignitionV32 (x : option V32types.Config) (c : Conf) : Conf :=
  {| ignitionV1 := ignitionV1 c; ignitionV2 := ignitionV2 c;
     ignitionV21 := ignitionV21 c; ignitionV22 := ignitionV22 c;
     ignitionV23 := ignitionV23 c;
     ignitionV3 := ignitionV3 c; ignitionV31 := ignitionV31 c;
     ignitionV32 := x; ignitionV33 := ignitionV33 c;
     cloudconfig := cloudconfig c; script := script c;
     multipartMime := multipartMime c; user := user c |}.
Definition set_ignitionV33 (x : option V33types.Config) (c : Conf) : Conf :=
  {| ignitionV1 := ignitionV1 c; ignitionV2 := ignitionV2 c;
     ignitionV21 := ignitionV21 c; ignitionV22 := ignitionV22 c;
     ignitionV23 := ignitionV23 c;
     ignitionV3 := ignitionV3 c; ignitionV31 := ignitionV31 c;
     ignitionV32 := ignitionV32 c; ignitionV33 := x;
     cloudconfig := cloudconfig c; script := script c;
     multipartMime := multipartMime c; user := user c |}.
Definition set_cloudconfig (x : option cci.CloudConfig) (c : Conf) : Conf :=
  {| ignitionV1 := ignitionV1 c; ignitionV2 := ignitionV2 c;
     ignitionV21 := ignitionV21 c; ignitionV22 := ignitionV22 c;
     ignitionV23 := ignitionV23 c;
     ignitionV3 := ignitionV3 c; ignitionV31 := ignitionV31 c;
     ignitionV32 := ignitionV32 c; ignitionV33 := ignitionV33 c;
     cloudconfig := x; script := script c;
     multipartMime := multipartMime c; user := user c |}.
Definition set_script (x : string) (c : Conf) : Conf :=
  {| ignitionV1 := ignitionV1 c; ignitionV2 := ignitionV2 c;
     ignitionV21 := ignitionV21 c; ignitionV22 := ignitionV22 c;
     ignitionV23 := ignitionV23 c;
     ignitionV3 := ignitionV3 c; ignitionV31 := ignitionV31 c;
     ignitionV32 := ignitionV32 c; ignitionV33 := ignitionV33 c;
     cloudconfig := cloudconfig c; script := x;
     multipartMime := multipartMime c; user := user c |}.
Definition set_multipartMime (x : string) (c : Conf) : Conf :=
  {| ignitionV1 := ignitionV1 c; ignitionV2 := ignitionV2 c;
     ignitionV21 := ignitionV21 c; ignitionV22 := ignitionV22 c;
     ignitionV23 := ignitionV23 c;
     ignitionV3 := ignitionV3 c; ignitionV31 := ignitionV31 c;
     ignitionV32 := ignitionV32 c; ignitionV33 := ignitionV33 c;
     cloudconfig := cloudconfig c; script := script c;
     multipartMime := x; user := user c |}.

(** ** Services of other libraries *)

(** The per-version [Merge] functions of the Ignition v3 libraries. *)
Record MergeEngine : Type :=
  { v3_Merge : V3types.Config -> V3types.Config -> V3types.Config;
    v31_Merge : V31types.Config -> V31types.Config -> V31types.Config;
    v32_Merge : V32types.Config -> V32types.Config -> V32types.Config;
    v33_Merge : V33types.Config -> V33types.Config -> V33types.Config }.

(** Everything else [conf.go] calls outside the package.  A [Parse]
    returns Go's triple (config, report, err). *)
Record Externals : Type :=
  { v1_Parse : string -> V1types.Config * Report * option error;
    v2_Parse : string -> V2types.Config * Report * option error;
    v21_Parse : string -> V21types.Config * Report * option error;
    v22_Parse : string -> V22types.Config * Report * option error;
    v23_Parse : string -> V23types.Config * Report * option error;
    v3_Parse : string -> V3types.Config * Report * option error;
    v31_Parse : string -> V31types.Config * Report * option error;
    v32_Parse : string -> V32types.Config * Report * option error;
    v33_Parse : string -> V33types.Config * Report * option error;
    json_Marshal_V1 : V1types.Config -> string;
    json_Marshal_V2 : V2types.Config -> string;
    json_Marshal_V21 : V21types.Config -> string;
    json_Marshal_V22 : V22types.Config -> string;
    json_Marshal_V23 : V23types.Config -> string;
    json_Marshal_V3 : V3types.Config -> string;
    json_Marshal_V31 : V31types.Config -> string;
    json_Marshal_V32 : V32types.Config -> string;
    json_Marshal_V33 : V33types.Config -> string;
    cci_String : cci.CloudConfig -> string;
    cci_NewCloudConfig : string -> option cci.CloudConfig * option error;
    ct_Config : Type;
    ct_AST : Type;
    ct_Parse : string -> ct_Config * ct_AST * Report;
    ct_Convert : ct_Config -> string -> ct_AST -> V23types.Config * Report;
    butane_TranslateBytes : string -> string * Report * option error;
    dataurl_EncodeBytes : string -> string;
    url_Parse : string -> Url + error;
    strings_Replace : string -> string -> string -> string;
    strconv_Quote : string -> string;
    Key_String : Key -> string;
    Report_String : Report -> string }.

(** ** Constructors and helpers of UserData *)

Definition Empty : UserData :=
  {| ud_kind := kindEmpty; ud_data := ""; ud_extraKeys := []; ud_User := "" |}.
Definition MultipartMimeConfig (data : string) : UserData :=
  {| ud_kind := kindMultipartMime; ud_data := data; ud_extraKeys := []; ud_User := "" |}.
Definition ContainerLinuxConfig (data : string) : UserData :=
  {| ud_kind := kindContainerLinuxConfig; ud_data := data; ud_extraKeys := []; ud_User := "" |}.
Definition Ignition (data : string) : UserData :=
  {| ud_kind := kindIgnition; ud_data := data; ud_extraKeys := []; ud_User := "" |}.
Definition CloudConfig (data : string) : UserData :=
  {| ud_kind := kindCloudConfig; ud_data := data; ud_extraKeys := []; ud_User := "" |}.
Definition Butane (data : string) : UserData :=
  {| ud_kind := kindButane; ud_data := data; ud_extraKeys := []; ud_User := "" |}.
Definition Script (data : string) : UserData :=
  {| ud_kind := kindScript; ud_data := data; ud_extraKeys := []; ud_User := "" |}.

Definition IsIgnitionCompatible (u : UserData) : bool :=
  bool_decide (ud_kind u = kindIgnition)
  || bool_decide (ud_kind u = kindContainerLinuxConfig)
  || bool_decide (ud_kind u = kindButane).

(** [os.FileMode(mode)]: conversion of an [int] to [uint32]. *)
Definition os_FileMode (mode : Z) : Z := mode mod 2 ^ 32.

(** [fmt.Sprintf("%#o", mode)]. *)
Definition Sprintf_sharp_o (mode : Z) : string :=
  match mode with
  | Z0 => "0"
  | Zpos p => "0" ++ OctalString.Raw.of_pos p ""
  | Zneg p => "-0" ++ OctalString.Raw.of_pos p ""
  end.

(** [strings.Join(elems, sep)]. *)
Fixpoint strings_Join (elems : list string) (sep : string) : string :=
  match elems with
  | [] => ""
  | [e] => e
  | e :: rest => e ++ sep ++ strings_Join rest sep
  end.

(** The one-character string of a line feed. *)
Definition LF : string := String (Ascii.ascii_of_nat 10) EmptyString.

Definition ROOT : string := "/dev/disk/by-partlabel/ROOT".

Section Conf.
Variable M : MergeEngine.
Variable E : Externals.

(** Performs a string substitution and returns a new UserData. *)
Definition Subst (u : UserData) (old new : string) : UserData :=
  {| ud_kind := ud_kind u;
     ud_data := strings_Replace E (ud_data u) old new;
     ud_extraKeys := ud_extraKeys u;
     ud_User := ud_User u |}.

(** Adds an SSH key and returns a new UserData. *)
Definition AddKey (u : UserData) (key : Key) : UserData :=
  {| ud_kind := ud_kind u;
     ud_data := ud_data u;
     ud_extraKeys := ud_extraKeys u ++ [key];
     ud_User := ud_User u |}.

Definition AddSSHKeys (userdata : UserData) (keys : list Key) : UserData :=
  fold_left AddKey keys userdata.

Definition keysToStrings (keys : list Key) : list string :=
  map (Key_String E) keys.

(** *** Serialisation *)

Definition String (c : Conf) : string :=
  match ignitionV1 c with Some x => json_Marshal_V1 E x | None =>
  match ignitionV2 c with Some x => json_Marshal_V2 E x | None =>
  match ignitionV21 c with Some x => json_Marshal_V21 E x | None =>
  match ignitionV22 c with Some x => json_Marshal_V22 E x | None =>
  match ignitionV23 c with Some x => json_Marshal_V23 E x | None =>
  match ignitionV3 c with Some x => json_Marshal_V3 E x | None =>
  match ignitionV31 c with Some x => json_Marshal_V31 E x | None =>
  match ignitionV32 c with Some x => json_Marshal_V32 E x | None =>
  match ignitionV33 c with Some x => json_Marshal_V33 E x | None =>
  match cloudconfig c with Some x => cci_String E x | None =>
  if bool_decide (script c <> "") then script c
  else if bool_decide (multipartMime c <> "") then multipartMime c
  else ""
  end end end end end end end end end end.

Definition Bytes (c : Conf) : string := String c.

(** *** Merging *)

Definition MergeV3 (c : Conf) (newConfig : V3types.Config) : Result Conf :=
  old ← deref (ignitionV3 c);
  Ok (set_ignitionV3 (Some (v3_Merge M old newConfig)) c).

Definition MergeV31 (c : Conf) (newConfig : V31types.Config) : Result Conf :=
  old ← deref (ignitionV31 c);
  Ok (set_ignitionV31 (Some (v31_Merge M old newConfig)) c).

Definition MergeV32 (c : Conf) (newConfig : V32types.Config) : Result Conf :=
  old ← deref (ignitionV32 c);
  Ok (set_ignitionV32 (Some (v32_Merge M old newConfig)) c).

Definition MergeV33 (c : Conf) (newConfig : V33types.Config) : Result Conf :=
  old ← deref (ignitionV33 c);
  Ok (set_ignitionV33 (Some (v33_Merge M old newConfig)) c).

(** *** AddFile *)

Definition addFileV2 (c : Conf) (path filesystem contents : string) (mode : Z)
  : Result Conf :=
  match url_Parse E (dataurl_EncodeBytes E contents) with
  | inr err => Ok c
  | inl u =>
      cfg ← deref (ignitionV2 c);
      Ok (set_ignitionV2 (Some (V2types.with_Files
            (V2types.Storage_Files cfg ++
               [ {| V2types.File_Filesystem := filesystem;
                    V2types.File_Path := path;
                    V2types.File_Contents_Source := u;
                    V2types.File_Mode := os_FileMode mode |} ]) cfg)) c)
  end.

Definition addFileV21 (c : Conf) (path filesystem contents : string) (mode : Z)
  : Result Conf :=
  cfg ← deref (ignitionV21 c);
  Ok (set_ignitionV21 (Some (V21types.with_Files
        (V21types.Storage_Files cfg ++
           [ {| V21types.Node_Filesystem := filesystem;
                V21types.Node_Path := path;
                V21types.File_Contents_Source := dataurl_EncodeBytes E contents;
                V21types.File_Mode := mode |} ]) cfg)) c).

Definition addFileV22 (c : Conf) (path filesystem contents : string) (mode : Z)
  : Result Conf :=
  cfg ← deref (ignitionV22 c);
  Ok (set_ignitionV22 (Some (V22types.with_Files
        (V22types.Storage_Files cfg ++
           [ {| V22types.Node_Filesystem := filesystem;
                V22types.Node_Path := path;
                V22types.File_Contents_Source := dataurl_EncodeBytes E contents;
                V22types.File_Mode := Some mode |} ]) cfg)) c).

Definition addFileV23 (c : Conf) (path filesystem contents : string) (mode : Z)
  : Result Conf :=
  cfg ← deref (ignitionV23 c);
  Ok (set_ignitionV23 (Some (V23types.with_Files
        (V23types.Storage_Files cfg ++
           [ {| V23types.Node_Filesystem := filesystem;
                V23types.Node_Path := path;
                V23types.File_Contents_Source := dataurl_EncodeBytes E contents;
                V23types.File_Mode := Some mode |} ]) cfg)) c).

(** The overlay built by [addFileV3], [addFileV31], [addFileV32] and
    [addFileV33]; only the version string differs. *)
Definition fileOverlay (version path contents : string) (mode : Z) : V3types.Config :=
  let source := dataurl_EncodeBytes E contents in
  {| V3types.Ignition_Version := version;
     V3types.Storage_Files :=
       [ {| V3types.Node_Path := path;
            V3types.File_Contents_Source := Some source;
            V3types.File_Mode := Some mode |} ];
     V3types.Systemd_Units := [];
     V3types.Passwd_Users := [] |}.

Definition addFileV3 (c : Conf) (path filesystem contents : string) (mode : Z)
  : Result Conf :=
  MergeV3 c (fileOverlay "3.0.0" path contents mode).

Definition addFileV31 (c : Conf) (path filesystem contents : string) (mode : Z)
  : Result Conf :=
  MergeV31 c (fileOverlay "3.1.0" path contents mode).

Definition addFileV32 (c : Conf) (path filesystem contents : string) (mode : Z)
  : Result Conf :=
  MergeV32 c (fileOverlay "3.2.0" path contents mode).

Definition addFileV33 (c : Conf) (path filesystem contents : string) (mode : Z)
  : Result Conf :=
  MergeV33 c (fileOverlay "3.3.0" path contents mode).

Definition addFileV1 (c : Conf) (path filesystem contents : string) (mode : Z)
  : Result Conf :=
  let file := {| V1types.File_Path := path;
                 V1types.File_Contents := contents;
                 V1types.File_Mode := os_FileMode mode |} in
  cfg ← deref (ignitionV1 c);
  match V1types.Storage_Filesystems cfg with
  | [] =>
      Ok (set_ignitionV1 (Some (V1types.with_Filesystems
            [ {| V1types.Filesystem_Device := ROOT;
                 V1types.Filesystem_Format := "ext4";
                 V1types.Filesystem_Create := None;
                 V1types.Filesystem_Files := [file] |} ] cfg)) c)
  | fs0 :: rest =>
      if bool_decide (V1types.Filesystem_Device fs0 <> ROOT)
      then Panic ("test specified an unexpected filesystem with Ignition v1: "
                  ++ strconv_Quote E (V1types.Filesystem_Device fs0))
      else Ok (set_ignitionV1 (Some (V1types.with_Filesystems
                 (V1types.with_Files (V1types.Filesystem_Files fs0 ++ [file]) fs0
                    :: rest) cfg)) c)
  end.

Definition addFileCloudConfig (c : Conf) (path filesystem contents : string)
  (mode : Z) : Result Conf :=
  cc ← deref (cloudconfig c);
  Ok (set_cloudconfig (Some (cci.with_WriteFiles
        (cci.WriteFiles cc ++
           [ {| cci.File_Encoding := "";
                cci.File_Content := contents;
                cci.File_Owner := "root";
                cci.File_Path := path;
                cci.File_RawFilePermissions := Sprintf_sharp_o mode |} ]) cc)) c).

Definition AddFile (c : Conf) (path filesystem contents : string) (mode : Z)
  : Result Conf :=
  if nonnil (ignitionV33 c) then addFileV33 c path filesystem contents mode
  else if nonnil (ignitionV32 c) then addFileV32 c path filesystem contents mode
  else if nonnil (ignitionV31 c) then addFileV31 c path filesystem contents mode
  else if nonnil (ignitionV3 c) then addFileV3 c path filesystem contents mode
  else if nonnil (ignitionV2 c) then addFileV2 c path filesystem contents mode
  else if nonnil (ignitionV21 c) then addFileV21 c path filesystem contents mode
  else if nonnil (ignitionV22 c) then addFileV22 c path filesystem contents mode
  else if nonnil (ignitionV23 c) then addFileV23 c path filesystem contents mode
  else if nonnil (ignitionV1 c) then addFileV1 c path filesystem contents mode
  else if nonnil (cloudconfig c) then addFileCloudConfig c path filesystem contents mode
  else Panic "unimplemented case in AddFile".

(** *** AddSystemdUnit *)

Definition addSystemdUnitV1 (c : Conf) (name contents : string) (enable : bool)
  : Result Conf :=
  cfg ← deref (ignitionV1 c);
  Ok (set_ignitionV1 (Some (V1types.with_Units
        (V1types.Systemd_Units cfg ++
           [ {| V1types.Unit_Name := name;
                V1types.Unit_Enable := enable;
                V1types.Unit_Mask := false;
                V1types.Unit_Contents := contents;
                V1types.Unit_DropIns := [] |} ]) cfg)) c).

Definition addSystemdUnitV2 (c : Conf) (name contents : string) (enable : bool)
  : Result Conf :=
  cfg ← deref (ignitionV2 c);
  Ok (set_ignitionV2 (Some (V2types.with_Units
        (V2types.Systemd_Units cfg ++
           [ {| V2types.Unit_Name := name;
                V2types.Unit_Enable := enable;
                V2types.Unit_Mask := false;
                V2types.Unit_Contents := contents;
                V2types.Unit_DropIns := [] |} ]) cfg)) c).

Definition addSystemdUnitV21 (c : Conf) (name contents : string) (enable : bool)
  : Result Conf :=
  cfg ← deref (ignitionV21 c);
  Ok (set_ignitionV21 (Some (V21types.with_Units
        (V21types.Systemd_Units cfg ++
           [ {| V21types.Unit_Name := name;
                V21types.Unit_Contents := contents;
                V21types.Unit_Enabled := Some enable;
                V21types.Unit_Mask := false;
                V21types.Unit_Dropins := [] |} ]) cfg)) c).

Definition addSystemdUnitV22 (c : Conf) (name contents : string) (enable : bool)
  : Result Conf :=
  cfg ← deref (ignitionV22 c);
  Ok (set_ignitionV22 (Some (V22types.with_Units
        (V22types.Systemd_Units cfg ++
           [ {| V22types.Unit_Name := name;
                V22types.Unit_Contents := contents;
                V22types.Unit_Enabled := Some enable;
                V22types.Unit_Mask := false;
                V22types.Unit_Dropins := [] |} ]) cfg)) c).

Definition addSystemdUnitV23 (c : Conf) (name contents : string) (enable : bool)
  : Result Conf :=
  cfg ← deref (ignitionV23 c);
  Ok (set_ignitionV23 (Some (V23types.with_Units
        (V23types.Systemd_Units cfg ++
           [ {| V23types.Unit_Name := name;
                V23types.Unit_Contents := contents;
                V23types.Unit_Enabled := Some enable;
                V23types.Unit_Mask := false;
                V23types.Unit_Dropins := [] |} ]) cfg)) c).

(** The overlay built by [addSystemdUnitV3] .. [addSystemdUnitV33]. *)
Definition unitOverlay (version name contents : string) (enable : bool)
  : V3types.Config :=
  {| V3types.Ignition_Version := version;
     V3types.Storage_Files := [];
     V3types.Systemd_Units :=
       [ {| V3types.Unit_Name := name;
            V3types.Unit_Contents := Some contents;
            V3types.Unit_Enabled := Some enable;
            V3types.Unit_Mask := None;
            V3types.Unit_Dropins := [] |} ];
     V3types.Passwd_Users := [] |}.

Definition addSystemdUnitV3 (c : Conf) (name contents : string) (enable : bool)
  : Result Conf :=
  MergeV3 c (unitOverlay "3.0.0" name contents enable).

Definition addSystemdUnitV31 (c : Conf) (name contents : string) (enable : bool)
  : Result Conf :=
  MergeV31 c (unitOverlay "3.1.0" name contents enable).

Definition addSystemdUnitV32 (c : Conf) (name contents : string) (enable : bool)
  : Result Conf :=
  MergeV32 c (unitOverlay "3.2.0" name contents enable).

Definition addSystemdUnitV33 (c : Conf) (name contents : string) (enable : bool)
  : Result Conf :=
  MergeV33 c (unitOverlay "3.3.0" name contents enable).

Definition addSystemdUnitCloudConfig (c : Conf) (name contents : string)
  (enable : bool) : Result Conf :=
  cc ← deref (cloudconfig c);
  Ok (set_cloudconfig (Some (cci.with_Units
        (cci.CoreOS_Units cc ++
           [ {| cci.Unit_Name := name;
                cci.Unit_Mask := false;
                cci.Unit_Enable := enable;
                cci.Unit_Runtime := false;
                cci.Unit_Content := contents;
                cci.Unit_Command := "";
                cci.Unit_DropIns := [] |} ]) cc)) c).

Definition AddSystemdUnit (c : Conf) (name contents : string) (enable : bool)
  : Result Conf :=
  if nonnil (ignitionV1 c) then addSystemdUnitV1 c name contents enable
  else if nonnil (ignitionV2 c) then addSystemdUnitV2 c name contents enable
  else if nonnil (ignitionV21 c) then addSystemdUnitV21 c name contents enable
  else if nonnil (ignitionV22 c) then addSystemdUnitV22 c name contents enable
  else if nonnil (ignitionV23 c) then addSystemdUnitV23 c name contents enable
  else if nonnil (ignitionV3 c) then addSystemdUnitV3 c name contents enable
  else if nonnil (ignitionV31 c) then addSystemdUnitV31 c name contents enable
  else if nonnil (ignitionV32 c) then addSystemdUnitV32 c name contents enable
  else if nonnil (ignitionV33 c) then addSystemdUnitV33 c name contents enable
  else if nonnil (cloudconfig c) then addSystemdUnitCloudConfig c name contents enable
  else Ok c.

(** *** AddSystemdUnitDropin

    The [for i, unit := range units] loops return at the first unit
    whose name is [service]: [list_find] gives that index and unit, and
    [units[i] = unit] is the list update at [i]. *)

Definition addSystemdDropinV1 (c : Conf) (service name contents : string)
  : Result Conf :=
  cfg ← deref (ignitionV1 c);
  let units := V1types.Systemd_Units cfg in
  let dropin := {| V1types.DropIn_Name := name;
                   V1types.DropIn_Contents := contents |} in
  match list_find (fun unit => V1types.Unit_Name unit = service) units with
  | Some (i, unit) =>
      let unit' := V1types.with_DropIns (V1types.Unit_DropIns unit ++ [dropin]) unit in
      Ok (set_ignitionV1 (Some (V1types.with_Units (<[i := unit']> units) cfg)) c)
  | None =>
      Ok (set_ignitionV1 (Some (V1types.with_Units
            (units ++ [ {| V1types.Unit_Name := service;
                           V1types.Unit_Enable := false;
                           V1types.Unit_Mask := false;
                           V1types.Unit_Contents := "";
                           V1types.Unit_DropIns := [dropin] |} ]) cfg)) c)
  end.

Definition addSystemdDropinV2 (c : Conf) (service name contents : string)
  : Result Conf :=
  cfg ← deref (ignitionV2 c);
  let units := V2types.Systemd_Units cfg in
  let dropin := {| V2types.DropIn_Name := name;
                   V2types.DropIn_Contents := contents |} in
  match list_find (fun unit => V2types.Unit_Name unit = service) units with
  | Some (i, unit) =>
      let unit' := V2types.with_DropIns (V2types.Unit_DropIns unit ++ [dropin]) unit in
      Ok (set_ignitionV2 (Some (V2types.with_Units (<[i := unit']> units) cfg)) c)
  | None =>
      Ok (set_ignitionV2 (Some (V2types.with_Units
            (units ++ [ {| V2types.Unit_Name := service;
                           V2types.Unit_Enable := false;
                           V2types.Unit_Mask := false;
                           V2types.Unit_Contents := "";
                           V2types.Unit_DropIns := [dropin] |} ]) cfg)) c)
  end.

Definition addSystemdDropinV21 (c : Conf) (service name contents : string)
  : Result Conf :=
  cfg ← deref (ignitionV21 c);
  let units := V21types.Systemd_Units cfg in
  let dropin := {| V21types.Dropin_Name := name;
                   V21types.Dropin_Contents := contents |} in
  match list_find (fun unit => V21types.Unit_Name unit = service) units with
  | Some (i, unit) =>
      let unit' := V21types.with_Dropins (V21types.Unit_Dropins unit ++ [dropin]) unit in
      Ok (set_ignitionV21 (Some (V21types.with_Units (<[i := unit']> units) cfg)) c)
  | None =>
      Ok (set_ignitionV21 (Some (V21types.with_Units
            (units ++ [ {| V21types.Unit_Name := service;
                           V21types.Unit_Contents := "";
                           V21types.Unit_Enabled := None;
                           V21types.Unit_Mask := false;
                           V21types.Unit_Dropins := [dropin] |} ]) cfg)) c)
  end.

Definition addSystemdDropinV22 (c : Conf) (service name contents : string)
  : Result Conf :=
  cfg ← deref (ignitionV22 c);
  let units := V22types.Systemd_Units cfg in
  let dropin := {| V22types.Dropin_Name := name;
                   V22types.Dropin_Contents := contents |} in
  match list_find (fun unit => V22types.Unit_Name unit = service) units with
  | Some (i, unit) =>
      let unit' := V22types.with_Dropins (V22types.Unit_Dropins unit ++ [dropin]) unit in
      Ok (set_ignitionV22 (Some (V22types.with_Units (<[i := unit']> units) cfg)) c)
  | None =>
      Ok (set_ignitionV22 (Some (V22types.with_Units
            (units ++ [ {| V22types.Unit_Name := service;
                           V22types.Unit_Contents := "";
                           V22types.Unit_Enabled := None;
                           V22types.Unit_Mask := false;
                           V22types.Unit_Dropins := [dropin] |} ]) cfg)) c)
  end.

Definition addSystemdDropinV23 (c : Conf) (service name contents : string)
  : Result Conf :=
  cfg ← deref (ignitionV23 c);
  let units := V23types.Systemd_Units cfg in
  let dropin := {| V23types.Dropin_Name := name;
                   V23types.Dropin_Contents := contents |} in
  match list_find (fun unit => V23types.Unit_Name unit = service) units with
  | Some (i, unit) =>
      let unit' := V23types.with_Dropins (V23types.Unit_Dropins unit ++ [dropin]) unit in
      Ok (set_ignitionV23 (Some (V23types.with_Units (<[i := unit']> units) cfg)) c)
  | None =>
      Ok (set_ignitionV23 (Some (V23types.with_Units
            (units ++ [ {| V23types.Unit_Name := service;
                           V23types.Unit_Contents := "";
                           V23types.Unit_Enabled := None;
                           V23types.Unit_Mask := false;
                           V23types.Unit_Dropins := [dropin] |} ]) cfg)) c)
  end.

(** The overlay built by [addSystemdDropinV3] .. [addSystemdDropinV33]. *)
Definition dropinOverlay (version service name contents : string) : V3types.Config :=
  {| V3types.Ignition_Version := version;
     V3types.Storage_Files := [];
     V3types.Systemd_Units :=
       [ {| V3types.Unit_Name := service;
            V3types.Unit_Contents := None;
            V3types.Unit_Enabled := None;
            V3types.Unit_Mask := None;
            V3types.Unit_Dropins :=
              [ {| V3types.Dropin_Name := name;
                   V3types.Dropin_Contents := Some contents |} ] |} ];
     V3types.Passwd_Users := [] |}.

Definition addSystemdDropinV3 (c : Conf) (service name contents : string)
  : Result Conf :=
  MergeV3 c (dropinOverlay "3.0.0" service name contents).

Definition addSystemdDropinV31 (c : Conf) (service name contents : string)
  : Result Conf :=
  MergeV31 c (dropinOverlay "3.1.0" service name contents).

Definition addSystemdDropinV32 (c : Conf) (service name contents : string)
  : Result Conf :=
  MergeV32 c (dropinOverlay "3.2.0" service name contents).

Definition addSystemdDropinV33 (c : Conf) (service name contents : string)
  : Result Conf :=
  MergeV33 c (dropinOverlay "3.3.0" service name contents).

Definition addSystemdDropinCloudConfig (c : Conf) (service name contents : string)
  : Result Conf :=
  cc ← deref (cloudconfig c);
  let units := cci.CoreOS_Units cc in
  let dropin := {| cci.DropIn_Name := name; cci.DropIn_Content := contents |} in
  match list_find (fun unit => cci.Unit_Name unit = service) units with
  | Some (i, unit) =>
      let unit' := cci.with_DropIns (cci.Unit_DropIns unit ++ [dropin]) unit in
      Ok (set_cloudconfig (Some (cci.with_Units (<[i := unit']> units) cc)) c)
  | None =>
      Ok (set_cloudconfig (Some (cci.with_Units
            (units ++ [ {| cci.Unit_Name := service;
                           cci.Unit_Mask := false;
                           cci.Unit_Enable := false;
                           cci.Unit_Runtime := false;
                           cci.Unit_Content := "";
                           cci.Unit_Command := "";
                           cci.Unit_DropIns := [dropin] |} ]) cc)) c)
  end.

(** The branch of [ignitionV31] calls [addSystemdDropinV3], as the source
    does. *)
Definition AddSystemdUnitDropin (c : Conf) (service name contents : string)
  : Result Conf :=
  if nonnil (ignitionV1 c) then addSystemdDropinV1 c service name contents
  else if nonnil (ignitionV2 c) then addSystemdDropinV2 c service name contents
  else if nonnil (ignitionV21 c) then addSystemdDropinV21 c service name contents
  else if nonnil (ignitionV22 c) then addSystemdDropinV22 c service name contents
  else if nonnil (ignitionV23 c) then addSystemdDropinV23 c service name contents
  else if nonnil (ignitionV3 c) then addSystemdDropinV3 c service name contents
  else if nonnil (ignitionV31 c) then addSystemdDropinV3 c service name contents
  else if nonnil (ignitionV32 c) then addSystemdDropinV32 c service name contents
  else if nonnil (ignitionV33 c) then addSystemdDropinV33 c service name contents
  else if nonnil (cloudconfig c) then addSystemdDropinCloudConfig c service name contents
  else Ok c.

(** *** CopyKeys

    [for i := range users] with [user := &users[i]] returns at the first
    user whose name is [c.user], after appending the keys in place. *)

Definition copyKeysIgnitionV1 (c : Conf) (keys : list Key) : Result Conf :=
  let keyStrs := keysToStrings keys in
  cfg ← deref (ignitionV1 c);
  let users := V1types.Passwd_Users cfg in
  match list_find (fun u => V1types.User_Name u = user c) users with
  | Some (i, u) =>
      let u' := V1types.with_SSHAuthorizedKeys
                  (V1types.User_SSHAuthorizedKeys u ++ keyStrs) u in
      Ok (set_ignitionV1 (Some (V1types.with_Users (<[i := u']> users) cfg)) c)
  | None =>
      Ok (set_ignitionV1 (Some (V1types.with_Users
            (users ++ [ {| V1types.User_Name := user c;
                           V1types.User_PasswordHash := "";
                           V1types.User_SSHAuthorizedKeys := keyStrs |} ]) cfg)) c)
  end.

Definition copyKeysIgnitionV2 (c : Conf) (keys : list Key) : Result Conf :=
  let keyStrs := keysToStrings keys in
  cfg ← deref (ignitionV2 c);
  let users := V2types.Passwd_Users cfg in
  match list_find (fun u => V2types.User_Name u = user c) users with
  | Some (i, u) =>
      let u' := V2types.with_SSHAuthorizedKeys
                  (V2types.User_SSHAuthorizedKeys u ++ keyStrs) u in
      Ok (set_ignitionV2 (Some (V2types.with_Users (<[i := u']> users) cfg)) c)
  | None =>
      Ok (set_ignitionV2 (Some (V2types.with_Users
            (users ++ [ {| V2types.User_Name := user c;
                           V2types.User_PasswordHash := "";
                           V2types.User_SSHAuthorizedKeys := keyStrs |} ]) cfg)) c)
  end.

Definition copyKeysIgnitionV21 (c : Conf) (keys : list Key) : Result Conf :=
  let keyObjs := map (Key_String E) keys in
  cfg ← deref (ignitionV21 c);
  let users := V21types.Passwd_Users cfg in
  match list_find (fun u => V21types.User_Name u = user c) users with
  | Some (i, u) =>
      let u' := V21types.with_SSHAuthorizedKeys
                  (V21types.User_SSHAuthorizedKeys u ++ keyObjs) u in
      Ok (set_ignitionV21 (Some (V21types.with_Users (<[i := u']> users) cfg)) c)
  | None =>
      Ok (set_ignitionV21 (Some (V21types.with_Users
            (users ++ [ {| V21types.User_Name := user c;
                           V21types.User_PasswordHash := None;
                           V21types.User_SSHAuthorizedKeys := keyObjs |} ]) cfg)) c)
  end.

Definition copyKeysIgnitionV22 (c : Conf) (keys : list Key) : Result Conf :=
  let keyObjs := map (Key_String E) keys in
  cfg ← deref (ignitionV22 c);
  let users := V22types.Passwd_Users cfg in
  match list_find (fun u => V22types.User_Name u = user c) users with
  | Some (i, u) =>
      let u' := V22types.with_SSHAuthorizedKeys
                  (V22types.User_SSHAuthorizedKeys u ++ keyObjs) u in
      Ok (set_ignitionV22 (Some (V22types.with_Users (<[i := u']> users) cfg)) c)
  | None =>
      Ok (set_ignitionV22 (Some (V22types.with_Users
            (users ++ [ {| V22types.User_Name := user c;
                           V22types.User_PasswordHash := None;
                           V22types.User_SSHAuthorizedKeys := keyObjs |} ]) cfg)) c)
  end.

Definition copyKeysIgnitionV23 (c : Conf) (keys : list Key) : Result Conf :=
  let keyObjs := map (Key_String E) keys in
  cfg ← deref (ignitionV23 c);
  let users := V23types.Passwd_Users cfg in
  match list_find (fun u => V23types.User_Name u = user c) users with
  | Some (i, u) =>
      let u' := V23types.with_SSHAuthorizedKeys
                  (V23types.User_SSHAuthorizedKeys u ++ keyObjs) u in
      Ok (set_ignitionV23 (Some (V23types.with_Users (<[i := u']> users) cfg)) c)
  | None =>
      Ok (set_ignitionV23 (Some (V23types.with_Users
            (users ++ [ {| V23types.User_Name := user c;
                           V23types.User_PasswordHash := None;
                           V23types.User_SSHAuthorizedKeys := keyObjs |} ]) cfg)) c)
  end.

(** The overlay built by [copyKeysIgnitionV3] .. [copyKeysIgnitionV33]. *)
Definition keysOverlay (version name : string) (keys : list Key) : V3types.Config :=
  let keyObjs := map (Key_String E) keys in
  {| V3types.Ignition_Version := version;
     V3types.Storage_Files := [];
     V3types.Systemd_Units := [];
     V3types.Passwd_Users :=
       [ {| V3types.User_Name := name;
            V3types.User_PasswordHash := None;
            V3types.User_SSHAuthorizedKeys := keyObjs;
            V3types.User_Groups := [] |} ] |}.

Definition copyKeysIgnitionV3 (c : Conf) (keys : list Key) : Result Conf :=
  MergeV3 c (keysOverlay "3.0.0" (user c) keys).

Definition copyKeysIgnitionV31 (c : Conf) (keys : list Key) : Result Conf :=
  MergeV31 c (keysOverlay "3.1.0" (user c) keys).

Definition copyKeysIgnitionV32 (c : Conf) (keys : list Key) : Result Conf :=
  MergeV32 c (keysOverlay "3.2.0" (user c) keys).

Definition copyKeysIgnitionV33 (c : Conf) (keys : list Key) : Result Conf :=
  MergeV33 c (keysOverlay "3.3.0" (user c) keys).

Definition copyKeysCloudConfig (c : Conf) (keys : list Key) : Result Conf :=
  cc ← deref (cloudconfig c);
  Ok (set_cloudconfig (Some (cci.with_SSHAuthorizedKeys
        (cci.SSHAuthorizedKeys cc ++ keysToStrings keys) cc)) c).

Definition copyKeysScript (c : Conf) (keys : list Key) : Result Conf :=
  let keyString := strings_Join (keysToStrings keys) LF in
  Ok (set_script (strings_Replace E (script c) "@SSH_KEYS@" keyString) c).

(** CopyKeys copies public keys into the configuration section of the
    configured user. *)
Definition CopyKeys (c : Conf) (keys : list Key) : Result Conf :=
  if nonnil (ignitionV1 c) then copyKeysIgnitionV1 c keys
  else if nonnil (ignitionV2 c) then copyKeysIgnitionV2 c keys
  else if nonnil (ignitionV21 c) then copyKeysIgnitionV21 c keys
  else if nonnil (ignitionV22 c) then copyKeysIgnitionV22 c keys
  else if nonnil (ignitionV23 c) then copyKeysIgnitionV23 c keys
  else if nonnil (ignitionV3 c) then copyKeysIgnitionV3 c keys
  else if nonnil (ignitionV31 c) then copyKeysIgnitionV31 c keys
  else if nonnil (ignitionV32 c) then copyKeysIgnitionV32 c keys
  else if nonnil (ignitionV33 c) then copyKeysIgnitionV33 c keys
  else if nonnil (cloudconfig c) then copyKeysCloudConfig c keys
  else if bool_decide (script c <> "") then copyKeysScript c keys
  else Ok c.

(** *** Queries *)

Definition IsIgnition (c : Conf) : bool :=
  nonnil (ignitionV1 c) || nonnil (ignitionV2 c) || nonnil (ignitionV21 c)
  || nonnil (ignitionV22 c) || nonnil (ignitionV23 c) || nonnil (ignitionV3 c)
  || nonnil (ignitionV31 c) || nonnil (ignitionV32 c) || nonnil (ignitionV33 c).

Definition IsEmpty (c : Conf) : bool :=
  negb (IsIgnition c) && negb (nonnil (cloudconfig c))
  && bool_decide (script c = "").

(** *** AddUserToGroups *)

(** The overlay built by [addUserToGroupsV3] .. [addUserToGroupsV33]. *)
Definition groupsOverlay (version name : string) (groups : list string)
  : V3types.Config :=
  {| V3types.Ignition_Version := version;
     V3types.Storage_Files := [];
     V3types.Systemd_Units := [];
     V3types.Passwd_Users :=
       [ {| V3types.User_Name := name;
            V3types.User_PasswordHash := None;
            V3types.User_SSHAuthorizedKeys := [];
            V3types.User_Groups := groups |} ] |}.

Definition addUserToGroupsV3 (c : Conf) (name : string) (groups : list string)
  : Result Conf :=
  MergeV3 c (groupsOverlay "3.0.0" name groups).

Definition addUserToGroupsV31 (c : Conf) (name : string) (groups : list string)
  : Result Conf :=
  MergeV31 c (groupsOverlay "3.1.0" name groups).

Definition addUserToGroupsV32 (c : Conf) (name : string) (groups : list string)
  : Result Conf :=
  MergeV32 c (groupsOverlay "3.2.0" name groups).

Definition addUserToGroupsV33 (c : Conf) (name : string) (groups : list string)
  : Result Conf :=
  MergeV33 c (groupsOverlay "3.3.0" name groups).

Definition missing_addUserToGroups : error :=
  fmt_Errorf "missing addUserToGroups implementation for this config type".

(** AddUserToGroups adds the user to the given groups; the second
    component is the returned [error] ([None] is [nil]). *)
Definition AddUserToGroups (c : Conf) (name : string) (groups : list string)
  : Result (Conf * option error) :=
  if nonnil (ignitionV3 c) then
    c' ← addUserToGroupsV3 c name groups; Ok (c', None)
  else if nonnil (ignitionV31 c) then
    c' ← addUserToGroupsV31 c name groups; Ok (c', None)
  else if nonnil (ignitionV32 c) then
    c' ← addUserToGroupsV32 c name groups; Ok (c', None)
  else if nonnil (ignitionV33 c) then
    c' ← addUserToGroupsV33 c name groups; Ok (c', None)
  else Ok (c, Some missing_addUserToGroups).

(** *** Render *)

(** The closure [renderIgnition] of [Render]: it reads [u.data] and assigns
    one slot of [c].  The result is the state of [c] and the returned
    [error]. *)
Definition renderIgnition (data : string) (c : Conf) : Conf * option error :=
  let '(ignc1, report, err) := v1_Parse E data in
  match err with
  | None => (set_ignitionV1 (Some ignc1) c, None)
  | Some e =>
  if bool_decide (e <> ignerr_ErrUnknownVersion) then (c, Some e) else
  let '(ignc2, report, err) := v2_Parse E data in
  match err with
  | None => (set_ignitionV2 (Some ignc2) c, None)
  | Some e =>
  if bool_decide (e <> ignerr_ErrUnknownVersion) then (c, Some e) else
  let '(ignc21, report, err) := v21_Parse E data in
  match err with
  | None => (set_ignitionV21 (Some ignc21) c, None)
  | Some e =>
  if bool_decide (e <> ignerr_ErrUnknownVersion) then (c, Some e) else
  let '(ignc22, report, err) := v22_Parse E data in
  match err with
  | None => (set_ignitionV22 (Some ignc22) c, None)
  | Some e =>
  if bool_decide (e <> ignerr_ErrUnknownVersion) then (c, Some e) else
  let '(ignc23, report, err) := v23_Parse E data in
  match err with
  | None => (set_ignitionV23 (Some ignc23) c, None)
  | Some e =>
  if bool_decide (e <> ignerr_ErrUnknownVersion) then (c, Some e) else
  let '(ignc3, report3, err) := v3_Parse E data in
  match err with
  | None => (set_ignitionV3 (Some ignc3) c, None)
  | Some e =>
  if bool_decide (e <> ign3err_ErrUnknownVersion) then (c, Some e) else
  let '(ignc31, report31, err) := v31_Parse E data in
  match err with
  | None => (set_ignitionV31 (Some ignc31) c, None)
  | Some e =>
  if bool_decide (e <> ign3err_ErrUnknownVersion) then (c, Some e) else
  let '(ignc32, report32, err) := v32_Parse E data in
  match err with
  | None => (set_ignitionV32 (Some ignc32) c, None)
  | Some e =>
  if bool_decide (e <> ign3err_ErrUnknownVersion) then (c, Some e) else
  let '(ignc33, report33, err) := v33_Parse E data in
  match err with
  | None => (set_ignitionV33 (Some ignc33) c, None)
  | Some e =>
  if bool_decide (e <> ign3err_ErrUnknownVersion) then (c, Some e) else
  (* give up *)
  (c, Some e)
  end end end end end end end end end.

(** The part of [Render] after the [switch]: key injection and return. *)
Definition injectKeys (u : UserData) (c : Conf) : Result (Conf + error) :=
  if bool_decide (0 < length (ud_extraKeys u))%nat then
    c' ← CopyKeys c (ud_extraKeys u); Ok (inl c')
  else Ok (inl c).

(** Render parses userdata and returns a new Conf, or an error if the
    userdata cannot be parsed.  [u] is a pointer receiver: the first
    component is the state of [*u] when [Render] returns.  [kind] has
    exactly the seven declared values, so the [default] branch of the
    [switch] has no counterpart. *)
Definition Render (u : UserData) (ctPlatform : string)
  : UserData * Result (Conf + error) :=
  let c := newConf (ud_User u) in
  match ud_kind u with
  | kindEmpty => (u, injectKeys u c)
  | kindCloudConfig =>
      match cci_NewCloudConfig E (ud_data u) with
      | (_, Some err) => (u, Ok (inr err))
      | (cc, None) => (u, injectKeys u (set_cloudconfig cc c))
      end
  | kindScript => (u, injectKeys u (set_script (ud_data u) c))
  | kindMultipartMime => (u, injectKeys u (set_multipartMime (ud_data u) c))
  | kindIgnition =>
      match renderIgnition (ud_data u) c with
      | (_, Some err) => (u, Ok (inr err))
      | (c', None) => (u, injectKeys u c')
      end
  | kindContainerLinuxConfig =>
      let '(clc, ast, report) := ct_Parse E (ud_data u) in
      if IsFatal report then
        (u, Ok (inr (fmt_Errorf ("parsing Container Linux config: "
                                   ++ Report_String E report))))
      else
        let '(ignc, report) := ct_Convert E clc ctPlatform ast in
        if IsFatal report then
          (u, Ok (inr (fmt_Errorf ("rendering Container Linux config for platform "
                                     ++ strconv_Quote E ctPlatform ++ ": "
                                     ++ Report_String E report))))
        else (u, injectKeys u (set_ignitionV23 (Some ignc) c))
  | kindButane =>
      let '(ignc, report, err) := butane_TranslateBytes E (ud_data u) in
      match err with
      | Some e => (u, Ok (inr (fmt_Errorf_w "converting Butane to Ignition: " e)))
      | None =>
          if IsFatal report then
            (u, Ok (inr (fmt_Errorf ("converting Butane to Ignition: "
                                       ++ Report_String E report))))
          else
            (* u.data = string(ignc); u.kind = kindIgnition *)
            let u' := {| ud_kind := kindIgnition;
                         ud_data := ignc;
                         ud_extraKeys := ud_extraKeys u;
                         ud_User := ud_User u |} in
            match renderIgnition (ud_data u') c with
            | (_, Some err) => (u', Ok (inr err))
            | (c', None) => (u', injectKeys u' c')
            end
      end
  end.

End Conf.

(** ** Classification helpers of [config/v2_2/cloudinit.go] *)

(** [net/textproto.MIMEHeader]: canonical header names to their values. *)
Definition MIMEHeader : Type := list (string * list string).

(** [header.Get(key)] for a key that is already canonical: the first value
    stored under the key, or the empty string. *)
Fixpoint MIMEHeader_Get (header : MIMEHeader) (key : string) : string :=
  match header with
  | [] => ""
  | (k, vs) :: rest =>
      if bool_decide (k = key) then
        match vs with
        | v :: _ => v
        | [] => ""
        end
      else MIMEHeader_Get rest key
  end.

(** The standard-library services the helpers call. *)
Record GoStd : Type :=
  { gzip_Reader : Type;
    gzip_NewReader : string -> gzip_Reader + error;
    ioutil_ReadAll : gzip_Reader -> string * option error;
    textproto_ReadMIMEHeader : string -> MIMEHeader * option error;
    strings_TrimRightFunc_IsSpace : string -> string }.

(** [strings.SplitN(s, "\n", 2)[0]]: the text before the first line feed,
    or all of [s] when it has none. *)
Fixpoint firstLine (s : string) : string :=
  match s with
  | EmptyString => EmptyString
  | String.String a rest =>
      if bool_decide (a = Ascii.ascii_of_nat 10) then EmptyString
      else String.String a (firstLine rest)
  end.

Definition strings_HasPrefix (s pre : string) : bool := String.prefix pre s.

Fixpoint strings_Contains (s substr : string) : bool :=
  if String.prefix substr s then true
  else match s with
       | EmptyString => false
       | String.String _ rest => strings_Contains rest substr
       end.

Section CloudInit.
Variable G : GoStd.

Definition decompressIfGzipped (data : string) : string :=
  match gzip_NewReader G data with
  | inl reader =>
      match ioutil_ReadAll G reader with
      | (uncompressedData, None) => uncompressedData
      | (_, Some _) => data
      end
  | inr _ => data
  end.

Definition isMultipartMime (userdata : string) : bool :=
  let userdata := decompressIfGzipped userdata in
  match textproto_ReadMIMEHeader G userdata with
  | (_, Some _) => false
  | (header, None) =>
      let contentType := MIMEHeader_Get header "Content-Type" in
      strings_Contains contentType "multipart/mixed"
  end.

Definition isCloudConfig (userdata : string) : bool :=
  let header := firstLine (decompressIfGzipped userdata) in
  let header := strings_TrimRightFunc_IsSpace G header in
  bool_decide (header = "#cloud-config").

Definition isScript (userdata : string) : bool :=
  let header := firstLine (decompressIfGzipped userdata) in
  strings_HasPrefix header "#!".

End CloudInit.

(** ** A reference instantiation of the external services

    The statements below quantify over every [MergeEngine] and every
    [Externals].  To evaluate the embedding on concrete inputs, this
    section fixes one instantiation. *)

Module Reference.

(** The double-quote character, as a string. *)
Definition DQ : string := String.String (Ascii.ascii_of_nat 34) EmptyString.

(** Modelled from the spec: the per-version [Merge] functions of the
    Ignition v3 libraries, which are not part of this repository's
    sources.  Section 4.5: scalar fields are right-biased (the overlay
    value wins); repeating collection fields (file lists, unit lists,
    key lists) are concatenated, never deduplicated or reordered. *)
Definition Merge (parent child : V3types.Config) : V3types.Config :=
  {| V3types.Ignition_Version := V3types.Ignition_Version child;
     V3types.Storage_Files :=
       V3types.Storage_Files parent ++ V3types.Storage_Files child;
     V3types.Systemd_Units :=
       V3types.Systemd_Units parent ++ V3types.Systemd_Units child;
     V3types.Passwd_Users :=
       V3types.Passwd_Users parent ++ V3types.Passwd_Users child |}.

Definition merge : MergeEngine :=
  {| v3_Merge := Merge; v31_Merge := Merge; v32_Merge := Merge; v33_Merge := Merge |}.

(** The text [{"ignition":{"version":"<v>"}}]. *)
Definition versionHeader (v : string) : string :=
  "{" ++ DQ ++ "ignition" ++ DQ ++ ":{" ++ DQ ++ "version" ++ DQ ++ ":"
      ++ DQ ++ v ++ DQ ++ "}}".

(** Modelled from the spec: the per-version [Parse] functions of the
    vendored Ignition packages, which are not under the sources.
    Section 4.2: an attempt answers with a version-tagged document, with
    the "version not recognized by this parser" signal, or with another
    error.  Here a parser recognises a payload whose version field names
    its own version and gives the signal of its library otherwise; the
    document it returns carries the version and no entries. *)
Definition namesVersion (v data : string) : bool :=
  strings_Contains data (DQ ++ "version" ++ DQ ++ ":" ++ DQ ++ v ++ DQ).

Definition noReport : Report := {| Entries := [] |}.

Definition emptyV1 : V1types.Config :=
  {| V1types.Version := 1; V1types.Storage_Filesystems := [];
     V1types.Systemd_Units := []; V1types.Passwd_Users := [] |}.
Definition emptyV2 (v : string) : V2types.Config :=
  {| V2types.Ignition_Version := v; V2types.Storage_Files := [];
     V2types.Systemd_Units := []; V2types.Passwd_Users := [] |}.
Definition emptyV21 (v : string) : V21types.Config :=
  {| V21types.Ignition_Version := v; V21types.Storage_Files := [];
     V21types.Systemd_Units := []; V21types.Passwd_Users := [] |}.
Definition emptyV22 (v : string) : V22types.Config :=
  {| V22types.Ignition_Version := v; V22types.Storage_Files := [];
     V22types.Systemd_Units := []; V22types.Passwd_Users := [] |}.
Definition emptyV3 (v : string) : V3types.Config :=
  {| V3types.Ignition_Version := v; V3types.Storage_Files := [];
     V3types.Systemd_Units := []; V3types.Passwd_Users := [] |}.
Definition emptyCloudConfig : cci.CloudConfig :=
  {| cci.SSHAuthorizedKeys := []; cci.CoreOS_Units := [];
     cci.WriteFiles := []; cci.Hostname := "" |}.

Definition parseV1 (data : string) : V1types.Config * Report * option error :=
  if strings_Contains data (DQ ++ "ignitionVersion" ++ DQ ++ ":1")
  then (emptyV1, noReport, None)
  else (emptyV1, noReport, Some ignerr_ErrUnknownVersion).

Definition parseAt {A} (v : string) (unknown : error) (doc : string -> A)
  (data : string) : A * Report * option error :=
  if namesVersion v data then (doc v, noReport, None)
  else (doc "", noReport, Some unknown).

(** Stand-ins for the remaining libraries: a JSON encoder that prints the
    version header only, a data URL without base64, a URL split at the
    first colon, a quoting without escapes. *)
Fixpoint splitColon (s : string) : option (string * string) :=
  match s with
  | EmptyString => None
  | String.String a rest =>
      if bool_decide (a = Ascii.ascii_of_nat 58) then Some (EmptyString, rest)
      else match splitColon rest with
           | Some (scheme, opaque) => Some (String.String a scheme, opaque)
           | None => None
           end
  end.

Definition parseUrl (s : string) : Url + error :=
  match splitColon s with
  | Some (scheme, opaque) => inl {| Url_Scheme := scheme; Url_Opaque := opaque |}
  | None => inr (external_error "missing protocol scheme")
  end.

(** [strings.Replace(s, old, new, -1)] for a non-empty [old]; [fuel]
    bounds the number of characters still to scan. *)
Fixpoint replaceAll (fuel : nat) (s old new : string) : string :=
  match fuel with
  | O => s
  | S fuel' =>
      if String.prefix old s
      then new ++ replaceAll fuel' (String.substring (String.length old)
                                      (String.length s - String.length old) s) old new
      else match s with
           | EmptyString => EmptyString
           | String.String a rest => String.String a (replaceAll fuel' rest old new)
           end
  end.

Definition replace (s old new : string) : string :=
  match old with
  | EmptyString => s
  | _ => replaceAll (String.length s) s old new
  end.

Definition keyString (k : Key) : string :=
  Key_Format k ++ " " ++ Key_Blob k ++ " " ++ Key_Comment k.

Definition externals : Externals :=
  {| v1_Parse := parseV1;
     v2_Parse := parseAt "2.0.0" ignerr_ErrUnknownVersion emptyV2;
     v21_Parse := parseAt "2.1.0" ignerr_ErrUnknownVersion emptyV21;
     v22_Parse := parseAt "2.2.0" ignerr_ErrUnknownVersion emptyV22;
     v23_Parse := parseAt "2.3.0" ignerr_ErrUnknownVersion emptyV22;
     v3_Parse := parseAt "3.0.0" ign3err_ErrUnknownVersion emptyV3;
     v31_Parse := parseAt "3.1.0" ign3err_ErrUnknownVersion emptyV3;
     v32_Parse := parseAt "3.2.0" ign3err_ErrUnknownVersion emptyV3;
     v33_Parse := parseAt "3.3.0" ign3err_ErrUnknownVersion emptyV3;
     json_Marshal_V1 := fun _ => "{" ++ DQ ++ "ignitionVersion" ++ DQ ++ ":1}";
     json_Marshal_V2 := fun x => versionHeader (V2types.Ignition_Version x);
     json_Marshal_V21 := fun x => versionHeader (V21types.Ignition_Version x);
     json_Marshal_V22 := fun x => versionHeader (V22types.Ignition_Version x);
     json_Marshal_V23 := fun x => versionHeader (V23types.Ignition_Version x);
     json_Marshal_V3 := fun x => versionHeader (V3types.Ignition_Version x);
     json_Marshal_V31 := fun x => versionHeader (V31types.Ignition_Version x);
     json_Marshal_V32 := fun x => versionHeader (V32types.Ignition_Version x);
     json_Marshal_V33 := fun x => versionHeader (V33types.Ignition_Version x);
     cci_String := fun x => "#cloud-config" ++ LF ++ "hostname: " ++ cci.Hostname x ++ LF;
     cci_NewCloudConfig := fun _ => (Some emptyCloudConfig, None);
     ct_Config := unit;
     ct_AST := unit;
     ct_Parse := fun _ => (tt, tt, noReport);
     ct_Convert := fun _ _ _ => (emptyV22 "2.3.0", noReport);
     butane_TranslateBytes := fun _ => (versionHeader "3.3.0", noReport, None);
     dataurl_EncodeBytes := fun contents => "data:," ++ contents;
     url_Parse := parseUrl;
     strings_Replace := replace;
     strconv_Quote := fun s => DQ ++ s ++ DQ;
     Key_String := keyString;
     Report_String := fun r => strings_Join (map Entry_Message (Entries r)) LF |}.

End Reference.

(** ** Vocabulary of the specification *)

(** The variants a Document can hold. *)
Inductive Variant : Type :=
| LegacyV1 | V2_0 | V2_1 | V2_2 | V2_3 | V3_0 | V3_1 | V3_2 | V3_3
| VCloudConfig | VScript | VMultipart.

Global Instance Variant_eq_dec : EqDecision Variant.
Proof. solve_decision. Defined.

Definition slot {A} (v : Variant) (p : option A) : list Variant :=
  if nonnil p then [v] else [].

Definition textSlot (v : Variant) (s : string) : list Variant :=
  if bool_decide (s <> "") then [v] else [].

(** The populated variants of a [Conf], oldest first. *)
Definition populated (c : Conf) : list Variant :=
  slot LegacyV1 (ignitionV1 c) ++ slot V2_0 (ignitionV2 c)
  ++ slot V2_1 (ignitionV21 c) ++ slot V2_2 (ignitionV22 c)
  ++ slot V2_3 (ignitionV23 c) ++ slot V3_0 (ignitionV3 c)
  ++ slot V3_1 (ignitionV31 c) ++ slot V3_2 (ignitionV32 c)
  ++ slot V3_3 (ignitionV33 c) ++ slot VCloudConfig (cloudconfig c)
  ++ textSlot VScript (script c) ++ textSlot VMultipart (multipartMime c).

(** [v] is the one populated variant of [c]. *)
Definition sole (v : Variant) (c : Conf) : Prop := populated c = [v].

(** The nine declarative versions, in ascending order. *)
Definition declarative : list Variant :=
  [LegacyV1; V2_0; V2_1; V2_2; V2_3; V3_0; V3_1; V3_2; V3_3].

(** The three newest declarative versions, and the four versions of the
    v3 family. *)
Definition newestThree : list Variant := [V3_1; V3_2; V3_3].
Definition v3Family : list Variant := [V3_0; V3_1; V3_2; V3_3].

(** The variants whose documents [conf.go] edits in place. *)
Definition editedInPlace : list Variant :=
  [LegacyV1; V2_0; V2_1; V2_2; V2_3; VCloudConfig].

(** A parsed document together with its variant. *)
Inductive Document : Type :=
| DocV1 (x : V1types.Config)
| DocV2 (x : V2types.Config)
| DocV21 (x : V21types.Config)
| DocV22 (x : V22types.Config)
| DocV23 (x : V23types.Config)
| DocV3 (x : V3types.Config)
| DocV31 (x : V31types.Config)
| DocV32 (x : V32types.Config)
| DocV33 (x : V33types.Config)
| DocCloudConfig (x : cci.CloudConfig).

Definition variantOf (d : Document) : Variant :=
  match d with
  | DocV1 _ => LegacyV1 | DocV2 _ => V2_0 | DocV21 _ => V2_1
  | DocV22 _ => V2_2 | DocV23 _ => V2_3 | DocV3 _ => V3_0
  | DocV31 _ => V3_1 | DocV32 _ => V3_2 | DocV33 _ => V3_3
  | DocCloudConfig _ => VCloudConfig
  end.

(** Populating the slot of a document. *)
Definition store (d : Document) (c : Conf) : Conf :=
  match d with
  | DocV1 x => set_ignitionV1 (Some x) c
  | DocV2 x => set_ignitionV2 (Some x) c
  | DocV21 x => set_ignitionV21 (Some x) c
  | DocV22 x => set_ignitionV22 (Some x) c
  | DocV23 x => set_ignitionV23 (Some x) c
  | DocV3 x => set_ignitionV3 (Some x) c
  | DocV31 x => set_ignitionV31 (Some x) c
  | DocV32 x => set_ignitionV32 (Some x) c
  | DocV33 x => set_ignitionV33 (Some x) c
  | DocCloudConfig x => set_cloudconfig (Some x) c
  end.

(** The structured document serialisation looks at: the first populated
    slot in the order of [String]. *)
Definition document (c : Conf) : option Document :=
  match ignitionV1 c with Some x => Some (DocV1 x) | None =>
  match ignitionV2 c with Some x => Some (DocV2 x) | None =>
  match ignitionV21 c with Some x => Some (DocV21 x) | None =>
  match ignitionV22 c with Some x => Some (DocV22 x) | None =>
  match ignitionV23 c with Some x => Some (DocV23 x) | None =>
  match ignitionV3 c with Some x => Some (DocV3 x) | None =>
  match ignitionV31 c with Some x => Some (DocV31 x) | None =>
  match ignitionV32 c with Some x => Some (DocV32 x) | None =>
  match ignitionV33 c with Some x => Some (DocV33 x) | None =>
  match cloudconfig c with Some x => Some (DocCloudConfig x) | None => None
  end end end end end end end end end end.

(** The encoder [String] applies to a document. *)
Definition encode (E : Externals) (d : Document) : string :=
  match d with
  | DocV1 x => json_Marshal_V1 E x
  | DocV2 x => json_Marshal_V2 E x
  | DocV21 x => json_Marshal_V21 E x
  | DocV22 x => json_Marshal_V22 E x
  | DocV23 x => json_Marshal_V23 E x
  | DocV3 x => json_Marshal_V3 E x
  | DocV31 x => json_Marshal_V31 E x
  | DocV32 x => json_Marshal_V32 E x
  | DocV33 x => json_Marshal_V33 E x
  | DocCloudConfig x => cci_String E x
  end.

(** *** File entries *)

(** What a file entry says about its content: the text itself (v1,
    cloud-config), a parsed URL (v2.0) or a source string (v2.1 and later;
    a pointer from v3.0 on). *)
Inductive FileBody : Type :=
| Inline (contents : string)
| FromUrl (source : Url)
| FromSource (source : option string).

Definition FileEntry : Type := string * FileBody.

Definition filesV22 (x : V22types.Config) : list FileEntry :=
  map (fun f => (V22types.Node_Path f,
                 FromSource (Some (V22types.File_Contents_Source f))))
      (V22types.Storage_Files x).

Definition filesV3 (x : V3types.Config) : list FileEntry :=
  map (fun f => (V3types.Node_Path f, FromSource (V3types.File_Contents_Source f)))
      (V3types.Storage_Files x).

(** The file entries of a document, as (path, content) pairs. *)
Definition docFiles (d : Document) : list FileEntry :=
  match d with
  | DocV1 x =>
      concat (map (fun fs => map (fun f => (V1types.File_Path f,
                                           Inline (V1types.File_Contents f)))
                               (V1types.Filesystem_Files fs))
                  (V1types.Storage_Filesystems x))
  | DocV2 x =>
      map (fun f => (V2types.File_Path f, FromUrl (V2types.File_Contents_Source f)))
          (V2types.Storage_Files x)
  | DocV21 x =>
      map (fun f => (V21types.Node_Path f,
                     FromSource (Some (V21types.File_Contents_Source f))))
          (V21types.Storage_Files x)
  | DocV22 x | DocV23 x => filesV22 x
  | DocV3 x | DocV31 x | DocV32 x | DocV33 x => filesV3 x
  | DocCloudConfig x =>
      map (fun f => (cci.File_Path f, Inline (cci.File_Content f)))
          (cci.WriteFiles x)
  end.

Definition fileEntries (c : Conf) : list FileEntry :=
  match document c with
  | Some d => docFiles d
  | None => []
  end.

(** A legacy document accepts files: it has no filesystem yet, or its
    first filesystem is on the fixed root device. *)
Definition rootFirst (c : Conf) : Prop :=
  match ignitionV1 c with
  | Some cfg =>
      match V1types.Storage_Filesystems cfg with
      | fs0 :: _ => V1types.Filesystem_Device fs0 = ROOT
      | [] => True
      end
  | None => True
  end.

(** The contract of section 4.5 for file lists: a merge concatenates
    them. *)
Definition concatenatesFiles (M : MergeEngine) : Prop :=
  forall f, f ∈ [v3_Merge M; v31_Merge M; v32_Merge M; v33_Merge M] ->
  forall a b, V3types.Storage_Files (f a b)
              = (V3types.Storage_Files a ++ V3types.Storage_Files b)%list.

(** A file entry of any variant with everything the routines write: path,
    content, filesystem name (v2.x), mode (an integer, a pointer from
    v2.2 on) and, for cloud-config, encoding, owner and permission
    string. *)
Record FileView : Type :=
  { fv_path : string;
    fv_body : FileBody;
    fv_filesystem : string;
    fv_mode : option Z;
    fv_encoding : string;
    fv_owner : string;
    fv_permissions : string }.

Definition fileViewV1 (f : V1types.File) : FileView :=
  {| fv_path := V1types.File_Path f;
     fv_body := Inline (V1types.File_Contents f);
     fv_filesystem := "";
     fv_mode := Some (V1types.File_Mode f);
     fv_encoding := ""; fv_owner := ""; fv_permissions := "" |}.

Definition fileViewV2 (f : V2types.File) : FileView :=
  {| fv_path := V2types.File_Path f;
     fv_body := FromUrl (V2types.File_Contents_Source f);
     fv_filesystem := V2types.File_Filesystem f;
     fv_mode := Some (V2types.File_Mode f);
     fv_encoding := ""; fv_owner := ""; fv_permissions := "" |}.

Definition fileViewV21 (f : V21types.File) : FileView :=
  {| fv_path := V21types.Node_Path f;
     fv_body := FromSource (Some (V21types.File_Contents_Source f));
     fv_filesystem := V21types.Node_Filesystem f;
     fv_mode := Some (V21types.File_Mode f);
     fv_encoding := ""; fv_owner := ""; fv_permissions := "" |}.

Definition fileViewV22 (f : V22types.File) : FileView :=
  {| fv_path := V22types.Node_Path f;
     fv_body := FromSource (Some (V22types.File_Contents_Source f));
     fv_filesystem := V22types.Node_Filesystem f;
     fv_mode := V22types.File_Mode f;
     fv_encoding := ""; fv_owner := ""; fv_permissions := "" |}.

Definition fileViewV3 (f : V3types.File) : FileView :=
  {| fv_path := V3types.Node_Path f;
     fv_body := FromSource (V3types.File_Contents_Source f);
     fv_filesystem := "";
     fv_mode := V3types.File_Mode f;
     fv_encoding := ""; fv_owner := ""; fv_permissions := "" |}.

Definition fileViewCci (f : cci.File) : FileView :=
  {| fv_path := cci.File_Path f;
     fv_body := Inline (cci.File_Content f);
     fv_filesystem := "";
     fv_mode := None;
     fv_encoding := cci.File_Encoding f;
     fv_owner := cci.File_Owner f;
     fv_permissions := cci.File_RawFilePermissions f |}.

(** The file entries of a document in the order of the document; a
    legacy document lists the files of its filesystems one filesystem
    after the other. *)
Definition docFileViews (d : Document) : list FileView :=
  match d with
  | DocV1 x =>
      concat (map (fun fs => map fileViewV1 (V1types.Filesystem_Files fs))
                  (V1types.Storage_Filesystems x))
  | DocV2 x => map fileViewV2 (V2types.Storage_Files x)
  | DocV21 x => map fileViewV21 (V21types.Storage_Files x)
  | DocV22 x | DocV23 x => map fileViewV22 (V22types.Storage_Files x)
  | DocV3 x | DocV31 x | DocV32 x | DocV33 x => map fileViewV3 (V3types.Storage_Files x)
  | DocCloudConfig x => map fileViewCci (cci.WriteFiles x)
  end.

Definition fileViews (c : Conf) : list FileView :=
  match document c with
  | Some d => docFileViews d
  | None => []
  end.

(** The entry one AddFile call writes on a variant: the legacy and v2.0
    routines convert the mode to a file mode, v2.0 to v2.3 keep the
    filesystem name, v2.1 and later carry the content as a data URL,
    cloud-config records owner root and the mode as an octal string.
    [None] where the v2.0 routine gives up because the data URL does not
    parse, and for the variants without files. *)
Definition newFileView (E : Externals) (v : Variant)
  (path filesystem contents : string) (mode : Z) : option FileView :=
  match v with
  | LegacyV1 =>
      Some {| fv_path := path; fv_body := Inline contents; fv_filesystem := "";
              fv_mode := Some (os_FileMode mode);
              fv_encoding := ""; fv_owner := ""; fv_permissions := "" |}
  | V2_0 =>
      match url_Parse E (dataurl_EncodeBytes E contents) with
      | inl u =>
          Some {| fv_path := path; fv_body := FromUrl u; fv_filesystem := filesystem;
                  fv_mode := Some (os_FileMode mode);
                  fv_encoding := ""; fv_owner := ""; fv_permissions := "" |}
      | inr _ => None
      end
  | V2_1 | V2_2 | V2_3 =>
      Some {| fv_path := path;
              fv_body := FromSource (Some (dataurl_EncodeBytes E contents));
              fv_filesystem := filesystem; fv_mode := Some mode;
              fv_encoding := ""; fv_owner := ""; fv_permissions := "" |}
  | V3_0 | V3_1 | V3_2 | V3_3 =>
      Some {| fv_path := path;
              fv_body := FromSource (Some (dataurl_EncodeBytes E contents));
              fv_filesystem := ""; fv_mode := Some mode;
              fv_encoding := ""; fv_owner := ""; fv_permissions := "" |}
  | VCloudConfig =>
      Some {| fv_path := path; fv_body := Inline contents; fv_filesystem := "";
              fv_mode := None; fv_encoding := ""; fv_owner := "root";
              fv_permissions := Sprintf_sharp_o mode |}
  | VScript | VMultipart => None
  end.

(** Where the new entry lands in the list of entries: behind the files of
    the first filesystem of a legacy document, at the end otherwise. *)
Definition insertionPoint (c : Conf) : nat :=
  match ignitionV1 c with
  | Some cfg =>
      match V1types.Storage_Filesystems cfg with
      | fs0 :: _ => length (V1types.Filesystem_Files fs0)
      | [] => 0%nat
      end
  | None => length (fileViews c)
  end.

(** The entries at one path. *)
Definition viewsAt (path : string) (l : list FileView) : list FileView :=
  filter (fun e => fv_path e = path) l.

(** A legacy document with a first filesystem that is not on the root
    device. *)
Definition foreignFirst (c : Conf) : Prop :=
  exists cfg fs0 rest,
    ignitionV1 c = Some cfg
    /\ V1types.Storage_Filesystems cfg = fs0 :: rest
    /\ V1types.Filesystem_Device fs0 <> ROOT.

(** *** The version cascade, in the words of section 4.2 *)

(** The answer of one parsing attempt. *)
Inductive Attempt : Type :=
| Accepted (d : Document)
| NotRecognized
| Failed (e : error).

(** Reading a parser's Go result: [unknown] is the "version not
    recognized" sentinel of the parser's library. *)
Definition attempt {A} (unknown : error) (wrap : A -> Document)
  (r : A * Report * option error) : Attempt :=
  match r with
  | (x, _, None) => Accepted (wrap x)
  | (_, _, Some e) => if bool_decide (e = unknown) then NotRecognized else Failed e
  end.

(** The nine attempts on a payload, in the fixed ascending order. *)
Definition attempts (E : Externals) (data : string) : list (Variant * Attempt) :=
  [ (LegacyV1, attempt ignerr_ErrUnknownVersion DocV1 (v1_Parse E data));
    (V2_0, attempt ignerr_ErrUnknownVersion DocV2 (v2_Parse E data));
    (V2_1, attempt ignerr_ErrUnknownVersion DocV21 (v21_Parse E data));
    (V2_2, attempt ignerr_ErrUnknownVersion DocV22 (v22_Parse E data));
    (V2_3, attempt ignerr_ErrUnknownVersion DocV23 (v23_Parse E data));
    (V3_0, attempt ign3err_ErrUnknownVersion DocV3 (v3_Parse E data));
    (V3_1, attempt ign3err_ErrUnknownVersion DocV31 (v31_Parse E data));
    (V3_2, attempt ign3err_ErrUnknownVersion DocV32 (v32_Parse E data));
    (V3_3, attempt ign3err_ErrUnknownVersion DocV33 (v33_Parse E data)) ].

(** The first attempt that is not "not recognized" decides: success
    populates that version's slot and stops, another error aborts with
    that error.  When every version is exhausted the last signal is the
    error. *)
Fixpoint cascade (l : list (Variant * Attempt)) (c : Conf) : Conf * option error :=
  match l with
  | [] => (c, Some ign3err_ErrUnknownVersion)
  | (_, Accepted d) :: _ => (store d c, None)
  | (_, NotRecognized) :: rest => cascade rest c
  | (_, Failed e) :: _ => (c, Some e)
  end.


(** The document in the slot of a variant, read off the fields of the Conf;
    the script and multipart texts are no documents. *)
Definition slotDoc (v : Variant) (c : Conf) : option Document :=
  match v with
  | LegacyV1 => DocV1 <$> ignitionV1 c
  | V2_0 => DocV2 <$> ignitionV2 c
  | V2_1 => DocV21 <$> ignitionV21 c
  | V2_2 => DocV22 <$> ignitionV22 c
  | V2_3 => DocV23 <$> ignitionV23 c
  | V3_0 => DocV3 <$> ignitionV3 c
  | V3_1 => DocV31 <$> ignitionV31 c
  | V3_2 => DocV32 <$> ignitionV32 c
  | V3_3 => DocV33 <$> ignitionV33 c
  | VCloudConfig => DocCloudConfig <$> cloudconfig c
  | VScript | VMultipart => None
  end.

(** Every attempt before this one answered "not recognized". *)
Definition allNotRecognized (l : list (Variant * Attempt)) : Prop :=
  Forall (fun p => p.2 = NotRecognized) l.

(** *** Units and drop-ins *)

(** A unit of any variant: its name, its own fields and its drop-ins as
    (name, contents) pairs.  A field the variant stores by value is
    [Some]; a nil pointer is [None]. *)
Record UnitView : Type :=
  { uv_name : string;
    uv_contents : option string;
    uv_enabled : option bool;
    uv_mask : option bool;
    uv_runtime : bool;
    uv_command : string;
    uv_dropins : list (string * option string) }.

Definition viewV1 (u : V1types.SystemdUnit) : UnitView :=
  {| uv_name := V1types.Unit_Name u;
     uv_contents := Some (V1types.Unit_Contents u);
     uv_enabled := Some (V1types.Unit_Enable u);
     uv_mask := Some (V1types.Unit_Mask u);
     uv_runtime := false; uv_command := "";
     uv_dropins := map (fun d => (V1types.DropIn_Name d, Some (V1types.DropIn_Contents d)))
                       (V1types.Unit_DropIns u) |}.

Definition viewV2 (u : V2types.SystemdUnit) : UnitView :=
  {| uv_name := V2types.Unit_Name u;
     uv_contents := Some (V2types.Unit_Contents u);
     uv_enabled := Some (V2types.Unit_Enable u);
     uv_mask := Some (V2types.Unit_Mask u);
     uv_runtime := false; uv_command := "";
     uv_dropins := map (fun d => (V2types.DropIn_Name d, Some (V2types.DropIn_Contents d)))
                       (V2types.Unit_DropIns u) |}.

Definition viewV21 (u : V21types.Unit) : UnitView :=
  {| uv_name := V21types.Unit_Name u;
     uv_contents := Some (V21types.Unit_Contents u);
     uv_enabled := V21types.Unit_Enabled u;
     uv_mask := Some (V21types.Unit_Mask u);
     uv_runtime := false; uv_command := "";
     uv_dropins := map (fun d => (V21types.Dropin_Name d, Some (V21types.Dropin_Contents d)))
                       (V21types.Unit_Dropins u) |}.

Definition viewV22 (u : V22types.Unit) : UnitView :=
  {| uv_name := V22types.Unit_Name u;
     uv_contents := Some (V22types.Unit_Contents u);
     uv_enabled := V22types.Unit_Enabled u;
     uv_mask := Some (V22types.Unit_Mask u);
     uv_runtime := false; uv_command := "";
     uv_dropins := map (fun d => (V22types.Dropin_Name d, Some (V22types.Dropin_Contents d)))
                       (V22types.Unit_Dropins u) |}.

Definition viewV3 (u : V3types.Unit) : UnitView :=
  {| uv_name := V3types.Unit_Name u;
     uv_contents := V3types.Unit_Contents u;
     uv_enabled := V3types.Unit_Enabled u;
     uv_mask := V3types.Unit_Mask u;
     uv_runtime := false; uv_command := "";
     uv_dropins := map (fun d => (V3types.Dropin_Name d, V3types.Dropin_Contents d))
                       (V3types.Unit_Dropins u) |}.

Definition viewCci (u : cci.Unit) : UnitView :=
  {| uv_name := cci.Unit_Name u;
     uv_contents := Some (cci.Unit_Content u);
     uv_enabled := Some (cci.Unit_Enable u);
     uv_mask := Some (cci.Unit_Mask u);
     uv_runtime := cci.Unit_Runtime u; uv_command := cci.Unit_Command u;
     uv_dropins := map (fun d => (cci.DropIn_Name d, Some (cci.DropIn_Content d)))
                       (cci.Unit_DropIns u) |}.

Definition docUnits (d : Document) : list UnitView :=
  match d with
  | DocV1 x => map viewV1 (V1types.Systemd_Units x)
  | DocV2 x => map viewV2 (V2types.Systemd_Units x)
  | DocV21 x => map viewV21 (V21types.Systemd_Units x)
  | DocV22 x | DocV23 x => map viewV22 (V22types.Systemd_Units x)
  | DocV3 x | DocV31 x | DocV32 x | DocV33 x => map viewV3 (V3types.Systemd_Units x)
  | DocCloudConfig x => map viewCci (cci.CoreOS_Units x)
  end.

(** The units of the document of a [Conf]; a [Conf] without a structured
    document has none. *)
Definition units (c : Conf) : list UnitView :=
  match document c with
  | Some d => docUnits d
  | None => []
  end.

Definition withDropin (d : string * option string) (u : UnitView) : UnitView :=
  {| uv_name := uv_name u; uv_contents := uv_contents u;
     uv_enabled := uv_enabled u; uv_mask := uv_mask u;
     uv_runtime := uv_runtime u; uv_command := uv_command u;
     uv_dropins := uv_dropins u ++ [d] |}.

(** A unit whose only content is one drop-in: every other field is empty,
    false or absent. *)
Definition carriesOnly (name : string) (d : string * option string) (u : UnitView)
  : Prop :=
  uv_name u = name /\ uv_dropins u = [d]
  /\ (uv_contents u = None \/ uv_contents u = Some "")
  /\ (uv_enabled u = None \/ uv_enabled u = Some false)
  /\ (uv_mask u = None \/ uv_mask u = Some false)
  /\ uv_runtime u = false /\ uv_command u = "".

(** The drop-in operation in the words of section 4.4: search by exact
    name; append to the first unit found, or else append a new unit
    [fresh]. *)
Fixpoint attachDropin (service : string) (d : string * option string)
  (fresh : UnitView) (us : list UnitView) : list UnitView :=
  match us with
  | [] => [fresh]
  | u :: rest =>
      if bool_decide (uv_name u = service) then withDropin d u :: rest
      else u :: attachDropin service d fresh rest
  end.

(** The contract of section 4.5 for unit lists: a merge concatenates
    them. *)
Definition concatenatesUnits (M : MergeEngine) : Prop :=
  forall f, f ∈ [v3_Merge M; v31_Merge M; v32_Merge M; v33_Merge M] ->
  forall a b, V3types.Systemd_Units (f a b)
              = (V3types.Systemd_Units a ++ V3types.Systemd_Units b)%list.

(** *** Gzip framing *)

(** The decompressed bytes of a valid gzip stream: the header is accepted
    and the body reads to its end without error. *)
Definition gunzip (G : GoStd) (b : string) : option string :=
  match gzip_NewReader G b with
  | inl reader =>
      match ioutil_ReadAll G reader with
      | (d, None) => Some d
      | (_, Some _) => None
      end
  | inr _ => None
  end.

(** The three checks on plain, already decompressed bytes. *)
Definition plainMultipartMime (G : GoStd) (text : string) : bool :=
  match textproto_ReadMIMEHeader G text with
  | (header, None) =>
      strings_Contains (MIMEHeader_Get header "Content-Type") "multipart/mixed"
  | (_, Some _) => false
  end.

Definition plainCloudConfig (G : GoStd) (text : string) : bool :=
  bool_decide (strings_TrimRightFunc_IsSpace G (firstLine text) = "#cloud-config").

Definition plainScript (text : string) : bool :=
  strings_HasPrefix (firstLine text) "#!".

(** *** The v3 family *)

(** The document of a v3 variant, the [Merge] of its library and the
    version string its overlays carry. *)
Definition v3Doc (v : Variant) (x : V3types.Config) : option Document :=
  match v with
  | V3_0 => Some (DocV3 x)
  | V3_1 => Some (DocV31 x)
  | V3_2 => Some (DocV32 x)
  | V3_3 => Some (DocV33 x)
  | _ => None
  end.

Definition mergeFor (M : MergeEngine) (v : Variant)
  : V3types.Config -> V3types.Config -> V3types.Config :=
  match v with
  | V3_1 => v31_Merge M
  | V3_2 => v32_Merge M
  | V3_3 => v33_Merge M
  | _ => v3_Merge M
  end.

Definition versionString (v : Variant) : string :=
  match v with
  | V3_0 => "3.0.0"
  | V3_1 => "3.1.0"
  | V3_2 => "3.2.0"
  | V3_3 => "3.3.0"
  | _ => ""
  end.

(** [c'] is [c] after the stored document of the v3 variant [v] has been
    replaced by its merge with [overlay]. *)
Definition mergedInto (M : MergeEngine) (v : Variant) (overlay : V3types.Config)
  (c c' : Conf) : Prop :=
  exists old d d',
    v3Doc v old = Some d /\ document c = Some d
    /\ v3Doc v (mergeFor M v old overlay) = Some d' /\ c' = store d' c.

(** ** Sample inputs *)

Module Sample.

Definition key : Key :=
  {| Key_Format := "ssh-ed25519"; Key_Blob := "AAAAC3Nza"; Key_Comment := "core@host" |}.

Definition confEmpty : Conf := newConf "core".

Definition confScript : Conf := set_script "#!/bin/sh" (newConf "core").

Definition confMultipart : Conf :=
  set_multipartMime "Content-Type: multipart/mixed; boundary=frontier" (newConf "core").

Definition confV3 : Conf :=
  set_ignitionV3 (Some (Reference.emptyV3 "3.0.0")) (newConf "core").

Definition confV31 : Conf :=
  set_ignitionV31 (Some (Reference.emptyV3 "3.1.0")) (newConf "core").

Definition confV22 : Conf :=
  set_ignitionV22 (Some (Reference.emptyV22 "2.2.0")) (newConf "core").

(** A legacy document whose first filesystem is not on the root device. *)
Definition confV1data : Conf :=
  set_ignitionV1
    (Some (V1types.with_Filesystems
             [ {| V1types.Filesystem_Device := "/dev/disk/by-partlabel/DATA";
                  V1types.Filesystem_Format := "ext4";
                  V1types.Filesystem_Create := None;
                  V1types.Filesystem_Files := [] |} ]
             Reference.emptyV1))
    (newConf "core").

(** A v2.2 document with a docker.service unit that has one drop-in. *)
Definition confV22docker : Conf :=
  set_ignitionV22
    (Some (V22types.with_Units
             [ {| V22types.Unit_Name := "etcd.service";
                  V22types.Unit_Contents := "";
                  V22types.Unit_Enabled := Some true;
                  V22types.Unit_Mask := false;
                  V22types.Unit_Dropins := [] |};
               {| V22types.Unit_Name := "docker.service";
                  V22types.Unit_Contents := "";
                  V22types.Unit_Enabled := Some true;
                  V22types.Unit_Mask := false;
                  V22types.Unit_Dropins :=
                    [ {| V22types.Dropin_Name := "05-proxy.conf";
                         V22types.Dropin_Contents := "[Service]" |} ] |} ]
             (Reference.emptyV22 "2.2.0")))
    (newConf "core").

(** A legacy document with two filesystems, the first on the root device,
    each with one file. *)
Definition confV1two : Conf :=
  set_ignitionV1
    (Some (V1types.with_Filesystems
             [ {| V1types.Filesystem_Device := ROOT;
                  V1types.Filesystem_Format := "ext4";
                  V1types.Filesystem_Create := None;
                  V1types.Filesystem_Files :=
                    [ {| V1types.File_Path := "/etc/motd";
                         V1types.File_Contents := "hello";
                         V1types.File_Mode := 420 |} ] |};
               {| V1types.Filesystem_Device := "/dev/disk/by-partlabel/DATA";
                  V1types.Filesystem_Format := "ext4";
                  V1types.Filesystem_Create := None;
                  V1types.Filesystem_Files :=
                    [ {| V1types.File_Path := "/data/seed";
                         V1types.File_Contents := "1";
                         V1types.File_Mode := 384 |} ] |} ]
             Reference.emptyV1))
    (newConf "core").

Definition legacyFile (path contents : string) (mode : Z) : FileView :=
  {| fv_path := path; fv_body := Inline contents; fv_filesystem := "";
     fv_mode := Some mode; fv_encoding := ""; fv_owner := ""; fv_permissions := "" |}.

Definition v3File (path source : string) (mode : Z) : FileView :=
  {| fv_path := path; fv_body := FromSource (Some source); fv_filesystem := "";
     fv_mode := Some mode; fv_encoding := ""; fv_owner := ""; fv_permissions := "" |}.

(** A v3.0 document with a docker.service unit that has one drop-in. *)
Definition confV3docker : Conf :=
  set_ignitionV3
    (Some {| V3types.Ignition_Version := "3.0.0";
             V3types.Storage_Files := [];
             V3types.Systemd_Units :=
               [ {| V3types.Unit_Name := "docker.service";
                    V3types.Unit_Contents := None;
                    V3types.Unit_Enabled := Some true;
                    V3types.Unit_Mask := None;
                    V3types.Unit_Dropins :=
                      [ {| V3types.Dropin_Name := "05-proxy.conf";
                           V3types.Dropin_Contents := Some "[Service]" |} ] |} ];
             V3types.Passwd_Users := [] |})
    (newConf "core").

Definition butane : UserData :=
  Butane ("variant: flatcar" ++ LF ++ "version: 1.0.0" ++ LF).

End Sample.

(** ** The rest of [conf.go] and the callers in the test files *)

(** [reflect.Value] of a document pointer: which slot it came from and
    what it points to; [None] is [reflect.ValueOf(nil)]. *)
Definition reflect_Value : Type := option Document.

(** The validators of the two Ignition libraries. *)
Record Validators : Type :=
  { ign3validate_ValidateWithContext : V3types.Config -> Report;
    ignvalidate_ValidateWithoutSource : reflect_Value -> Report }.

Definition getIgnitionValidateValue (c : Conf) : reflect_Value :=
  match ignitionV1 c with Some x => Some (DocV1 x) | None =>
  match ignitionV2 c with Some x => Some (DocV2 x) | None =>
  match ignitionV21 c with Some x => Some (DocV21 x) | None =>
  match ignitionV22 c with Some x => Some (DocV22 x) | None =>
  match ignitionV23 c with Some x => Some (DocV23 x) | None =>
  match ignitionV3 c with Some x => Some (DocV3 x) | None =>
  match ignitionV31 c with Some x => Some (DocV31 x) | None =>
  match ignitionV32 c with Some x => Some (DocV32 x) | None =>
  match ignitionV33 c with Some x => Some (DocV33 x) | None => None
  end end end end end end end end end.

Definition ValidConfig (V : Validators) (c : Conf) : bool :=
  if negb (IsIgnition c) then false
  else
    let val := getIgnitionValidateValue c in
    match ignitionV3 c with
    | Some x =>
        let rpt := ign3validate_ValidateWithContext V x in
        negb (IsFatal rpt)
    | None =>
        let rpt := ignvalidate_ValidateWithoutSource V val in
        negb (IsFatal rpt)
    end.

(** Contains returns true if the UserData contains the specified string. *)
Definition Contains (u : UserData) (substr : string) : bool :=
  strings_Contains (ud_data u) substr.

(** [strings.SplitN(s, "-", 2)[0]]: the text before the first dash. *)
Fixpoint beforeDash (s : string) : string :=
  match s with
  | EmptyString => EmptyString
  | String.String a rest =>
      if bool_decide (a = Ascii.ascii_of_nat 45) then EmptyString
      else String.String a (beforeDash rest)
  end.

(** The architecture [checkSysextCustomDocker] of [sysext.go] derives
    from the board name. *)
Definition sysextArch (board : string) : string :=
  let arch := beforeDash board in
  if bool_decide (arch = "arm64") then "aarch64" else "x86_64".

(** *** Vocabulary for the further properties *)

(** Two Confs have the same slots populated. *)
Definition sameSlots (c c' : Conf) : Prop :=
  nonnil (ignitionV1 c') = nonnil (ignitionV1 c)
  /\ nonnil (ignitionV2 c') = nonnil (ignitionV2 c)
  /\ nonnil (ignitionV21 c') = nonnil (ignitionV21 c)
  /\ nonnil (ignitionV22 c') = nonnil (ignitionV22 c)
  /\ nonnil (ignitionV23 c') = nonnil (ignitionV23 c)
  /\ nonnil (ignitionV3 c') = nonnil (ignitionV3 c)
  /\ nonnil (ignitionV31 c') = nonnil (ignitionV31 c)
  /\ nonnil (ignitionV32 c') = nonnil (ignitionV32 c)
  /\ nonnil (ignitionV33 c') = nonnil (ignitionV33 c)
  /\ nonnil (cloudconfig c') = nonnil (cloudconfig c)
  /\ script c' = script c
  /\ multipartMime c' = multipartMime c
  /\ user c' = user c.

(** A passwd user of any variant: name, password hash, keys, groups. *)
Record UserView : Type :=
  { usr_name : string;
    usr_password : option string;
    usr_keys : list string;
    usr_groups : list string }.

Definition userV1 (u : V1types.User) : UserView :=
  {| usr_name := V1types.User_Name u;
     usr_password := Some (V1types.User_PasswordHash u);
     usr_keys := V1types.User_SSHAuthorizedKeys u;
     usr_groups := [] |}.

Definition userV2 (u : V2types.User) : UserView :=
  {| usr_name := V2types.User_Name u;
     usr_password := Some (V2types.User_PasswordHash u);
     usr_keys := V2types.User_SSHAuthorizedKeys u;
     usr_groups := [] |}.

Definition userV21 (u : V21types.PasswdUser) : UserView :=
  {| usr_name := V21types.User_Name u;
     usr_password := V21types.User_PasswordHash u;
     usr_keys := V21types.User_SSHAuthorizedKeys u;
     usr_groups := [] |}.

Definition userV22 (u : V22types.PasswdUser) : UserView :=
  {| usr_name := V22types.User_Name u;
     usr_password := V22types.User_PasswordHash u;
     usr_keys := V22types.User_SSHAuthorizedKeys u;
     usr_groups := [] |}.

Definition userV3 (u : V3types.PasswdUser) : UserView :=
  {| usr_name := V3types.User_Name u;
     usr_password := V3types.User_PasswordHash u;
     usr_keys := V3types.User_SSHAuthorizedKeys u;
     usr_groups := V3types.User_Groups u |}.

(** The passwd users of a document; cloud-config keeps its keys in a
    flat list instead. *)
Definition docUsers (d : Document) : list UserView :=
  match d with
  | DocV1 x => map userV1 (V1types.Passwd_Users x)
  | DocV2 x => map userV2 (V2types.Passwd_Users x)
  | DocV21 x => map userV21 (V21types.Passwd_Users x)
  | DocV22 x | DocV23 x => map userV22 (V22types.Passwd_Users x)
  | DocV3 x | DocV31 x | DocV32 x | DocV33 x => map userV3 (V3types.Passwd_Users x)
  | DocCloudConfig _ => []
  end.

Definition users (c : Conf) : list UserView :=
  match document c with
  | Some d => docUsers d
  | None => []
  end.

Definition withKeys (keys : list string) (u : UserView) : UserView :=
  {| usr_name := usr_name u; usr_password := usr_password u;
     usr_keys := usr_keys u ++ keys; usr_groups := usr_groups u |}.

(** Keys go to the first user of the given name, or to a new user at the
    end. *)
Fixpoint attachKeys (name : string) (keys : list string) (fresh : UserView)
  (us : list UserView) : list UserView :=
  match us with
  | [] => [fresh]
  | u :: rest =>
      if bool_decide (usr_name u = name) then withKeys keys u :: rest
      else u :: attachKeys name keys fresh rest
  end.

(** A new user that holds the keys and nothing else. *)
Definition freshUser (v : Variant) (name : string) (keys : list string) : UserView :=
  {| usr_name := name;
     usr_password := match v with LegacyV1 | V2_0 => Some "" | _ => None end;
     usr_keys := keys;
     usr_groups := [] |}.

(** The number of units of a given name. *)
Definition unitsNamed (name : string) (us : list UnitView) : nat :=
  length (filter (fun u => uv_name u = name) us).

(** The number of filesystems of the legacy document. *)
Definition legacyFilesystems (c : Conf) : list V1types.Filesystem :=
  match ignitionV1 c with
  | Some cfg => V1types.Storage_Filesystems cfg
  | None => []
  end.

(** A call of one of the five mutation methods of [Conf]. *)
Inductive Mutation : Type :=
| CallAddFile (path filesystem contents : string) (mode : Z)
| CallAddSystemdUnit (name contents : string) (enable : bool)
| CallAddSystemdUnitDropin (service name contents : string)
| CallCopyKeys (keys : list Key)
| CallAddUserToGroups (name : string) (groups : list string).

(** The state of the receiver after the call. *)
Definition mutate (M : MergeEngine) (E : Externals) (m : Mutation) (c : Conf)
  : Result Conf :=
  match m with
  | CallAddFile path filesystem contents mode =>
      AddFile M E c path filesystem contents mode
  | CallAddSystemdUnit name contents enable => AddSystemdUnit M c name contents enable
  | CallAddSystemdUnitDropin service name contents =>
      AddSystemdUnitDropin M c service name contents
  | CallCopyKeys keys => CopyKeys M E c keys
  | CallAddUserToGroups name groups =>
      r ← AddUserToGroups M c name groups; Ok r.1
  end.

(** A sequence of calls on the same receiver. *)
Fixpoint mutateAll (M : MergeEngine) (E : Externals) (ms : list Mutation) (c : Conf)
  : Result Conf :=
  match ms with
  | [] => Ok c
  | m :: rest => c' ← mutate M E m c; mutateAll M E rest c'
  end.

(** The UserData with another list of pending keys. *)
Definition withExtraKeys (keys : list Key) (u : UserData) : UserData :=
  {| ud_kind := ud_kind u; ud_data := ud_data u;
     ud_extraKeys := keys; ud_User := ud_User u |}.

(** The Conf [Render] holds when it reaches the key injection. *)
Definition renderedShape (k : kind) (data name : string) (c0 : Conf) : Prop :=
  match k with
  | kindEmpty => c0 = newConf name
  | kindCloudConfig => exists cc, c0 = set_cloudconfig cc (newConf name)
  | kindScript => c0 = set_script data (newConf name)
  | kindMultipartMime => c0 = set_multipartMime data (newConf name)
  | kindIgnition | kindButane =>
      exists d, c0 = store d (newConf name) /\ variantOf d ∈ declarative
  | kindContainerLinuxConfig =>
      exists ignc, c0 = set_ignitionV23 (Some ignc) (newConf name)
  end.

(** The loop of the in-place routines as a function on the list: update
    the first element that satisfies [P], or append [mk]. *)
Definition findUpdate {U} (P : U -> Prop) `{!forall x, Decision (P x)}
  (add : U -> U) (mk : U) (us : list U) : list U :=
  match list_find P us with
  | Some (i, u) => <[i := add u]> us
  | None => (us ++ [mk])%list
  end.

(** The update of one user and the new user of the in-place key
    routines, per document type. *)
Definition moreKeysV1 (ks : list string) (u : V1types.User) : V1types.User :=
  V1types.with_SSHAuthorizedKeys (V1types.User_SSHAuthorizedKeys u ++ ks) u.
Definition newUserV1 (name : string) (ks : list string) : V1types.User :=
  {| V1types.User_Name := name; V1types.User_PasswordHash := "";
     V1types.User_SSHAuthorizedKeys := ks |}.
Definition moreKeysV2 (ks : list string) (u : V2types.User) : V2types.User :=
  V2types.with_SSHAuthorizedKeys (V2types.User_SSHAuthorizedKeys u ++ ks) u.
Definition newUserV2 (name : string) (ks : list string) : V2types.User :=
  {| V2types.User_Name := name; V2types.User_PasswordHash := "";
     V2types.User_SSHAuthorizedKeys := ks |}.
Definition moreKeysV21 (ks : list string) (u : V21types.PasswdUser) : V21types.PasswdUser :=
  V21types.with_SSHAuthorizedKeys (V21types.User_SSHAuthorizedKeys u ++ ks) u.
Definition newUserV21 (name : string) (ks : list string) : V21types.PasswdUser :=
  {| V21types.User_Name := name; V21types.User_PasswordHash := None;
     V21types.User_SSHAuthorizedKeys := ks |}.
Definition moreKeysV22 (ks : list string) (u : V22types.PasswdUser) : V22types.PasswdUser :=
  V22types.with_SSHAuthorizedKeys (V22types.User_SSHAuthorizedKeys u ++ ks) u.
Definition newUserV22 (name : string) (ks : list string) : V22types.PasswdUser :=
  {| V22types.User_Name := name; V22types.User_PasswordHash := None;
     V22types.User_SSHAuthorizedKeys := ks |}.

(** The document of an in-place variant after CopyKeys. *)
Definition keysCopied (name : string) (ks : list string) (d : Document) : Document :=
  match d with
  | DocV1 x =>
      DocV1 (V1types.with_Users
               (findUpdate (fun u => V1types.User_Name u = name) (moreKeysV1 ks)
                  (newUserV1 name ks) (V1types.Passwd_Users x)) x)
  | DocV2 x =>
      DocV2 (V2types.with_Users
               (findUpdate (fun u => V2types.User_Name u = name) (moreKeysV2 ks)
                  (newUserV2 name ks) (V2types.Passwd_Users x)) x)
  | DocV21 x =>
      DocV21 (V21types.with_Users
                (findUpdate (fun u => V21types.User_Name u = name) (moreKeysV21 ks)
                   (newUserV21 name ks) (V21types.Passwd_Users x)) x)
  | DocV22 x =>
      DocV22 (V22types.with_Users
                (findUpdate (fun u => V22types.User_Name u = name) (moreKeysV22 ks)
                   (newUserV22 name ks) (V22types.Passwd_Users x)) x)
  | DocV23 x =>
      DocV23 (V22types.with_Users
                (findUpdate (fun u => V22types.User_Name u = name) (moreKeysV22 ks)
                   (newUserV22 name ks) (V22types.Passwd_Users x)) x)
  | DocCloudConfig x =>
      DocCloudConfig (cci.with_SSHAuthorizedKeys (cci.SSHAuthorizedKeys x ++ ks) x)
  | other => other
  end.

(** Validators for the sample inputs: the v3 library accepts every
    document, the v2 library reports an error on documents that are not
    its own. *)
Module MoreSamples.

Definition fatal : Report :=
  {| Entries := [ {| Entry_Kind := EntryError; Entry_Message := "invalid config" |} ] |}.

Definition validators : Validators :=
  {| ign3validate_ValidateWithContext := fun _ => Reference.noReport;
     ignvalidate_ValidateWithoutSource := fun val =>
       match val with
       | Some (DocV1 _) | Some (DocV2 _) | Some (DocV21 _) | Some (DocV22 _)
       | Some (DocV23 _) => Reference.noReport
       | _ => fatal
       end |}.

End MoreSamples.

(** * Properties *)

(** ** Which slots a sole variant leaves empty *)

Lemma sole_slots v c :
  sole v c ->
  nonnil (ignitionV1 c) = bool_decide (v = LegacyV1)
  /\ nonnil (ignitionV2 c) = bool_decide (v = V2_0)
  /\ nonnil (ignitionV21 c) = bool_decide (v = V2_1)
  /\ nonnil (ignitionV22 c) = bool_decide (v = V2_2)
  /\ nonnil (ignitionV23 c) = bool_decide (v = V2_3)
  /\ nonnil (ignitionV3 c) = bool_decide (v = V3_0)
  /\ nonnil (ignitionV31 c) = bool_decide (v = V3_1)
  /\ nonnil (ignitionV32 c) = bool_decide (v = V3_2)
  /\ nonnil (ignitionV33 c) = bool_decide (v = V3_3)
  /\ nonnil (cloudconfig c) = bool_decide (v = VCloudConfig)
  /\ bool_decide (script c <> "") = bool_decide (v = VScript)
  /\ bool_decide (multipartMime c <> "") = bool_decide (v = VMultipart).
Proof.
  unfold sole, populated, slot, textSlot. intros H.
  repeat lazymatch type of H with
  | ((if ?b then _ else _) ++ _)%list = [_] =>
      destruct b; cbn [app] in H;
      [ injection H as <- H;
        repeat match goal with
        | H' : (_ ++ _)%list = [] |- _ => apply app_eq_nil in H'; destruct H'
        | H' : (if ?b' then _ else _) = [] |- _ =>
            destruct b'; [discriminate H' | clear H']
        end;
        repeat split; reflexivity
      | ]
  end.
  destruct (bool_decide (multipartMime c <> "")); [|discriminate H].
  injection H as <-. repeat split; reflexivity.
Qed.

Lemma unpopulated_slots c :
  populated c = [] ->
  ignitionV1 c = None /\ ignitionV2 c = None /\ ignitionV21 c = None
  /\ ignitionV22 c = None /\ ignitionV23 c = None /\ ignitionV3 c = None
  /\ ignitionV31 c = None /\ ignitionV32 c = None /\ ignitionV33 c = None
  /\ cloudconfig c = None /\ script c = "" /\ multipartMime c = "".
Proof.
  unfold populated, slot, textSlot. intros H.
  repeat match goal with
  | H' : (_ ++ _)%list = [] |- _ => apply app_eq_nil in H'; destruct H'
  end.
  repeat match goal with
  | H' : (if nonnil ?p then _ else _) = [] |- _ =>
      destruct p; [discriminate H' | clear H']
  | H' : (if bool_decide ?P then _ else _) = [] |- _ =>
      let HP := fresh "HP" in
      destruct (decide P) as [HP|HP];
      [ rewrite bool_decide_eq_true_2 in H' by exact HP; discriminate H'
      | clear H'; apply dec_stable in HP ]
  end.
  repeat split; first [reflexivity | assumption].
Qed.

Lemma nonnil_false {A} (p : option A) : nonnil p = false -> p = None.
Proof. destruct p; [discriminate | reflexivity]. Qed.

Lemma nonnil_true {A} (p : option A) : nonnil p = true -> exists x, p = Some x.
Proof. destruct p; [eauto | discriminate]. Qed.

(** Turns [sole v c], for a concrete [v], into the value of every slot
    test of [c]. *)
Ltac sole_cases H :=
  let S := fresh "S" in
  pose proof (sole_slots _ _ H) as S;
  repeat match type of S with
  | _ /\ _ => let S1 := fresh "S" in destruct S as [S1 S];
      match type of S1 with _ = ?r =>
        let r' := eval vm_compute in r in change r with r' in S1 end
  end;
  match type of S with _ = ?r =>
    let r' := eval vm_compute in r in change r with r' in S end.

(** ** The drop-in dispatch on a v3.1 document *)

(** C1: on a Conf whose only populated variant is v3.1,
    AddSystemdUnitDropin takes the branch that calls the v3.0 routine,
    whose merge dereferences the empty v3.0 slot: the call panics and no
    drop-in reaches the stored v3.1 document. *)
Theorem AddSystemdUnitDropin_v31_panics M c service name contents :
  sole V3_1 c ->
  AddSystemdUnitDropin M c service name contents = Panic nil_dereference.
Proof.
  intros H. sole_cases H.
  unfold AddSystemdUnitDropin.
  repeat match goal with
  | Hs : nonnil ?p = _ |- context [nonnil ?p] => rewrite Hs
  end.
  cbn [negb]. unfold addSystemdDropinV3, MergeV3.
  match goal with
  | Hs : nonnil (ignitionV3 c) = false |- _ => rewrite (nonnil_false _ Hs)
  end.
  reflexivity.
Qed.

Lemma AddSystemdUnitDropin_v31_panics_witness :
  sole V3_1 Sample.confV31
  /\ AddSystemdUnitDropin Reference.merge Sample.confV31
       "docker.service" "10-override.conf" "[Service]"
     = Panic nil_dereference.
Proof.
  split.
  - reflexivity.
  - apply AddSystemdUnitDropin_v31_panics. reflexivity.
Defined.

(** Rewrites the slot tests of the goal with the facts left by
    [sole_cases]. *)
Ltac rewrite_slots :=
  repeat match goal with
  | Hs : nonnil ?p = _ |- context [nonnil ?p] => rewrite Hs
  | Hs : bool_decide ?P = _ |- context [bool_decide ?P] => rewrite Hs
  end.

Ltac empty_slots :=
  repeat match goal with
  | Hs : nonnil ?p = false |- _ => apply nonnil_false in Hs; try rewrite Hs
  end.

(** ** Emptiness and serialisation of a multipart Conf *)

(** C9: on a Conf whose only populated slot is the multipart text, IsEmpty
    is true although String and Bytes return that non-empty text. *)
Theorem IsEmpty_multipart E c :
  sole VMultipart c ->
  IsEmpty c = true
  /\ String E c = multipartMime c
  /\ Bytes E c = multipartMime c
  /\ multipartMime c <> "".
Proof.
  intros H. sole_cases H.
  assert (Hs : script c = "").
  { match goal with
    | Hb : bool_decide (script c <> "") = false |- _ =>
        apply bool_decide_eq_false in Hb; apply dec_stable in Hb; exact Hb
    end. }
  assert (Hm : multipartMime c <> "").
  { match goal with
    | Hb : bool_decide (multipartMime c <> "") = true |- _ =>
        apply bool_decide_eq_true in Hb; exact Hb
    end. }
  assert (HS : String E c = multipartMime c).
  { unfold String. empty_slots. rewrite_slots. reflexivity. }
  repeat split; try assumption.
  unfold IsEmpty, IsIgnition. rewrite_slots. cbn [orb negb andb].
  apply bool_decide_eq_true. exact Hs.
Qed.

Lemma IsEmpty_multipart_witness :
  sole VMultipart Sample.confMultipart
  /\ IsEmpty Sample.confMultipart = true
  /\ String Reference.externals Sample.confMultipart
     = "Content-Type: multipart/mixed; boundary=frontier".
Proof.
  split; [reflexivity|].
  destruct (IsEmpty_multipart Reference.externals Sample.confMultipart)
    as (He & Hs & _); [reflexivity|].
  split; [exact He | exact Hs].
Defined.

(** ** Key injection on empty and multipart user data *)

(** C10: for a UserData of the empty or multipart kind that carries
    pending keys, Render returns a Conf and no error, and the CopyKeys call
    it makes leaves that Conf as it was: the keys are dropped. *)
Theorem Render_drops_keys M E u ctPlatform :
  ud_kind u = kindEmpty \/ ud_kind u = kindMultipartMime ->
  ud_extraKeys u <> [] ->
  let c := match ud_kind u with
           | kindMultipartMime => set_multipartMime (ud_data u) (newConf (ud_User u))
           | _ => newConf (ud_User u)
           end in
  Render M E u ctPlatform = (u, Ok (inl c))
  /\ CopyKeys M E c (ud_extraKeys u) = Ok c.
Proof.
  intros Hk Hkeys.
  assert (Hlen : bool_decide (0 < length (ud_extraKeys u))%nat = true).
  { apply bool_decide_eq_true. destruct (ud_extraKeys u); [congruence | simpl; lia]. }
  assert (Hcopy : forall c0, document c0 = None -> script c0 = "" ->
                    CopyKeys M E c0 (ud_extraKeys u) = Ok c0).
  { intros c0 Hd Hs. unfold document in Hd. unfold CopyKeys.
    repeat match type of Hd with
    | match ?p with Some _ => _ | None => _ end = None =>
        destruct p; [discriminate Hd|]
    end.
    cbn [nonnil]. rewrite Hs. reflexivity. }
  destruct Hk as [Hk|Hk]; unfold Render, injectKeys; rewrite Hk, Hlen; cbn zeta;
    rewrite Hcopy by reflexivity; split; reflexivity.
Qed.

Lemma Render_drops_keys_witness :
  Render Reference.merge Reference.externals
    (AddKey (MultipartMimeConfig "Content-Type: multipart/mixed") Sample.key) "qemu"
  = (AddKey (MultipartMimeConfig "Content-Type: multipart/mixed") Sample.key,
     Ok (inl (set_multipartMime "Content-Type: multipart/mixed" (newConf "")))).
Proof.
  apply (Render_drops_keys Reference.merge Reference.externals
           (AddKey (MultipartMimeConfig "Content-Type: multipart/mixed") Sample.key)
           "qemu").
  - right. reflexivity.
  - discriminate.
Defined.

(** ** Render on Butane user data *)

(** C2: when the translation of a Butane UserData succeeds, Render assigns
    the translated text and the Ignition kind to the UserData it was called
    on: the receiver's kind tag and raw text change. *)
Theorem Render_butane_rewrites_receiver M E u ctPlatform ignc report :
  ud_kind u = kindButane ->
  butane_TranslateBytes E (ud_data u) = (ignc, report, None) ->
  IsFatal report = false ->
  ud_kind (Render M E u ctPlatform).1 = kindIgnition
  /\ ud_data (Render M E u ctPlatform).1 = ignc.
Proof.
  intros Hk Ht Hf. unfold Render. rewrite Hk, Ht, Hf.
  cbn [ud_data]. destruct (renderIgnition E ignc _) as [c' [e|]]; split; reflexivity.
Qed.

(** What does hold of the kind tag and raw text: Subst and AddKey return a
    copy, and Render leaves the receiver of every other kind as it was. *)
Lemma Subst_keeps_kind E u old new :
  ud_kind (Subst E u old new) = ud_kind u
  /\ ud_extraKeys (Subst E u old new) = ud_extraKeys u
  /\ ud_User (Subst E u old new) = ud_User u.
Proof. repeat split; reflexivity. Qed.

Lemma AddKey_keeps_kind_and_data u key :
  ud_kind (AddKey u key) = ud_kind u /\ ud_data (AddKey u key) = ud_data u.
Proof. split; reflexivity. Qed.

Lemma Render_keeps_other_receivers M E u ctPlatform :
  ud_kind u <> kindButane -> (Render M E u ctPlatform).1 = u.
Proof.
  intros Hk. unfold Render. destruct (ud_kind u); try congruence; try reflexivity.
  - destruct (cci_NewCloudConfig E (ud_data u)) as [cc [e|]]; reflexivity.
  - destruct (renderIgnition E (ud_data u) _) as [c' [e|]]; reflexivity.
  - destruct (ct_Parse E (ud_data u)) as [[clc ast] report].
    destruct (IsFatal report); [reflexivity|].
    destruct (ct_Convert E clc ctPlatform ast) as [ignc report'].
    destruct (IsFatal report'); reflexivity.
Qed.

Lemma Render_butane_rewrites_receiver_witness :
  ud_kind Sample.butane = kindButane
  /\ ud_kind (Render Reference.merge Reference.externals Sample.butane "qemu").1
     = kindIgnition
  /\ ud_data (Render Reference.merge Reference.externals Sample.butane "qemu").1
     <> ud_data Sample.butane.
Proof.
  destruct (Render_butane_rewrites_receiver Reference.merge Reference.externals
              Sample.butane "qemu" (Reference.versionHeader "3.3.0")
              Reference.noReport) as [Hk Hd]; try reflexivity.
  split; [reflexivity|]. split; [exact Hk|].
  rewrite Hd. discriminate.
Defined.

(** ** Mutations without a populated variant, and the legacy filesystem *)

(** C5 (as the code has it): on a Conf with no populated variant AddFile
    panics, while AddSystemdUnit, AddSystemdUnitDropin and CopyKeys return
    normally and leave the Conf unchanged; AddFile on a legacy v1 document
    whose first filesystem is on another device than the root device
    panics. *)
Theorem mutations_on_unpopulated M E c :
  (populated c = [] ->
     (forall path filesystem contents mode,
        AddFile M E c path filesystem contents mode
        = Panic "unimplemented case in AddFile")
     /\ (forall name contents enable, AddSystemdUnit M c name contents enable = Ok c)
     /\ (forall service name contents,
           AddSystemdUnitDropin M c service name contents = Ok c)
     /\ (forall keys, CopyKeys M E c keys = Ok c))
  /\ (forall cfg fs0 rest,
        sole LegacyV1 c ->
        ignitionV1 c = Some cfg ->
        V1types.Storage_Filesystems cfg = fs0 :: rest ->
        V1types.Filesystem_Device fs0 <> ROOT ->
        forall path filesystem contents mode,
          AddFile M E c path filesystem contents mode
          = Panic ("test specified an unexpected filesystem with Ignition v1: "
                   ++ strconv_Quote E (V1types.Filesystem_Device fs0))).
Proof.
  split.
  - intros H. apply unpopulated_slots in H.
    destruct H as (H1 & H2 & H21 & H22 & H23 & H3 & H31 & H32 & H33 & Hc & Hs & Hm).
    unfold AddFile, AddSystemdUnit, AddSystemdUnitDropin, CopyKeys.
    rewrite H1, H2, H21, H22, H23, H3, H31, H32, H33, Hc, Hs.
    repeat split; reflexivity.
  - intros cfg fs0 rest H Hcfg Hfs Hdev path filesystem contents mode.
    sole_cases H. unfold AddFile. rewrite_slots.
    unfold addFileV1. rewrite Hcfg. cbn [deref mbind Result_bind]. rewrite Hfs.
    rewrite bool_decide_eq_true_2 by exact Hdev. reflexivity.
Qed.

Lemma mutations_on_unpopulated_witness :
  (populated Sample.confEmpty = []
   /\ AddFile Reference.merge Reference.externals Sample.confEmpty
        "/etc/hostname" "root" "host" 420
      = Panic "unimplemented case in AddFile")
  /\ (sole LegacyV1 Sample.confV1data
      /\ exists msg,
           AddFile Reference.merge Reference.externals Sample.confV1data
             "/etc/hostname" "root" "host" 420 = Panic msg).
Proof.
  split.
  - split; [reflexivity|].
    apply (proj1 (mutations_on_unpopulated Reference.merge Reference.externals
                    Sample.confEmpty)). reflexivity.
  - split; [reflexivity|]. eexists.
    eapply (proj2 (mutations_on_unpopulated Reference.merge Reference.externals
                     Sample.confV1data)).
    + reflexivity.
    + reflexivity.
    + reflexivity.
    + discriminate.
Defined.

(** C5, as stated, fails: on the Conf with no populated variant
    AddSystemdUnit, AddSystemdUnitDropin and CopyKeys do not abort. *)
Lemma mutations_on_unpopulated_counterexample :
  populated Sample.confEmpty = []
  /\ AddSystemdUnit Reference.merge Sample.confEmpty "docker.service" "" true
     = Ok Sample.confEmpty
  /\ AddSystemdUnitDropin Reference.merge Sample.confEmpty "docker.service"
       "10-override.conf" "[Service]" = Ok Sample.confEmpty
  /\ CopyKeys Reference.merge Reference.externals Sample.confEmpty [Sample.key]
     = Ok Sample.confEmpty.
Proof. repeat split; reflexivity. Qed.

(** ** Merge eligibility *)

Lemma not_in_v3Family v :
  v ∉ v3Family -> v <> V3_0 /\ v <> V3_1 /\ v <> V3_2 /\ v <> V3_3.
Proof.
  intros H. repeat split; intros ->; apply H; apply list_elem_of_In; simpl; auto.
Qed.

(** C3 (as the code has it): merge eligibility covers the four versions of
    the v3 family, v3.0 included.  On a Conf whose populated variant is
    one of them AddUserToGroups reports no error and replaces the stored
    document by the library's merge of it with a one-user overlay; on
    every other populated variant it returns an error and leaves the Conf
    unchanged, and no mutation depends on the merge functions. *)
Theorem AddUserToGroups_v3_family M E c v name groups :
  sole v c ->
  (v ∈ v3Family ->
     exists c', AddUserToGroups M c name groups = Ok (c', None)
                /\ mergedInto M v (groupsOverlay (versionString v) name groups) c c')
  /\ (v ∉ v3Family ->
        AddUserToGroups M c name groups = Ok (c, Some missing_addUserToGroups)
        /\ forall M',
             (forall path filesystem contents mode,
                AddFile M' E c path filesystem contents mode
                = AddFile M E c path filesystem contents mode)
             /\ (forall unit contents enable,
                   AddSystemdUnit M' c unit contents enable
                   = AddSystemdUnit M c unit contents enable)
             /\ (forall service dropin contents,
                   AddSystemdUnitDropin M' c service dropin contents
                   = AddSystemdUnitDropin M c service dropin contents)
             /\ (forall keys, CopyKeys M' E c keys = CopyKeys M E c keys)
             /\ AddUserToGroups M' c name groups = AddUserToGroups M c name groups).
Proof.
  intros H. split.
  - intros Hin. apply list_elem_of_In in Hin. simpl in Hin.
    destruct Hin as [<-|[<-|[<-|[<-|[]]]]]; sole_cases H;
      match goal with
      | Hs : nonnil _ = true |- _ => destruct (nonnil_true _ Hs) as [old Hold]
      end;
      unfold AddUserToGroups, addUserToGroupsV3, addUserToGroupsV31,
        addUserToGroupsV32, addUserToGroupsV33, MergeV3, MergeV31, MergeV32,
        MergeV33;
      rewrite_slots; rewrite Hold; cbn [deref mbind Result_bind];
      eexists; (split; [reflexivity|]);
      exists old; do 2 eexists; cbn [v3Doc mergeFor versionString];
      (split; [reflexivity|]);
      (split; [unfold document; empty_slots; rewrite Hold; reflexivity|]);
      (split; reflexivity).
  - intros Hnin. apply not_in_v3Family in Hnin.
    destruct Hnin as (N0 & N1 & N2 & N3).
    destruct v; try congruence; sole_cases H;
      unfold AddUserToGroups, AddFile, AddSystemdUnit, AddSystemdUnitDropin, CopyKeys;
      rewrite_slots; repeat split; reflexivity.
Qed.

(** The other mutations of a v3 document go through the merge as well. *)
Lemma v3_family_routes_through_merge M E c v :
  sole v c ->
  v ∈ v3Family ->
  (forall path filesystem contents mode,
     exists c', AddFile M E c path filesystem contents mode = Ok c'
                /\ mergedInto M v (fileOverlay E (versionString v) path contents mode)
                     c c')
  /\ (forall name contents enable,
        exists c', AddSystemdUnit M c name contents enable = Ok c'
                   /\ mergedInto M v (unitOverlay (versionString v) name contents enable)
                        c c')
  /\ (forall keys,
        exists c', CopyKeys M E c keys = Ok c'
                   /\ mergedInto M v (keysOverlay E (versionString v) (user c) keys)
                        c c').
Proof.
  intros H Hin. apply list_elem_of_In in Hin. simpl in Hin.
  destruct Hin as [<-|[<-|[<-|[<-|[]]]]]; sole_cases H;
    match goal with
    | Hs : nonnil _ = true |- _ => destruct (nonnil_true _ Hs) as [old Hold]
    end;
    repeat split; intros;
    unfold AddFile, AddSystemdUnit, CopyKeys,
      addFileV3, addFileV31, addFileV32, addFileV33,
      addSystemdUnitV3, addSystemdUnitV31, addSystemdUnitV32, addSystemdUnitV33,
      copyKeysIgnitionV3, copyKeysIgnitionV31, copyKeysIgnitionV32,
      copyKeysIgnitionV33, MergeV3, MergeV31, MergeV32, MergeV33;
    rewrite_slots; rewrite Hold; cbn [deref mbind Result_bind];
    eexists; (split; [reflexivity|]);
    exists old; do 2 eexists; cbn [v3Doc mergeFor versionString];
    (split; [reflexivity|]);
    (split; [unfold document; empty_slots; rewrite Hold; reflexivity|]);
    (split; reflexivity).
Qed.

Lemma AddUserToGroups_v3_family_witness :
  sole V3_0 Sample.confV3
  /\ (exists c', AddUserToGroups Reference.merge Sample.confV3 "core" ["docker"]
                 = Ok (c', None))
  /\ sole V2_2 Sample.confV22
  /\ AddUserToGroups Reference.merge Sample.confV22 "core" ["docker"]
     = Ok (Sample.confV22, Some missing_addUserToGroups).
Proof.
  split; [reflexivity|]. split.
  - destruct (proj1 (AddUserToGroups_v3_family Reference.merge Reference.externals
                       Sample.confV3 V3_0 "core" ["docker"] eq_refl))
      as (c' & Hc' & _).
    + apply list_elem_of_In. simpl. auto.
    + exists c'. exact Hc'.
  - split; [reflexivity|].
    apply (proj2 (AddUserToGroups_v3_family Reference.merge Reference.externals
                    Sample.confV22 V2_2 "core" ["docker"] eq_refl)).
    intros Hin. apply list_elem_of_In in Hin. simpl in Hin.
    repeat destruct Hin as [Hin|Hin]; try discriminate Hin. exact Hin.
Defined.

(** C3, as stated, fails: v3.0 is not among the three newest declarative
    versions, yet AddUserToGroups succeeds on a v3.0 document, through the
    merge. *)
Lemma AddUserToGroups_three_newest_counterexample :
  sole V3_0 Sample.confV3
  /\ (V3_0 ∉ newestThree)
  /\ AddUserToGroups Reference.merge Sample.confV3 "core" ["docker"]
     = Ok (set_ignitionV3
             (Some (Reference.Merge (Reference.emptyV3 "3.0.0")
                      (groupsOverlay "3.0.0" "core" ["docker"])))
             Sample.confV3, None).
Proof.
  split; [reflexivity|]. split; [|reflexivity].
  intros Hin. apply list_elem_of_In in Hin. simpl in Hin.
  repeat destruct Hin as [Hin|Hin]; try discriminate Hin. exact Hin.
Qed.

(** ** The version cascade *)

(** One step of the comparison between [renderIgnition] and [cascade]:
    case analysis on the answer of the next parser. *)
Ltac cascade_stage p unknown :=
  let e := fresh "e" in
  let Hne := fresh "Hne" in
  destruct p as [[? ?] [e|]]; cbn [attempt cascade store];
  [ destruct (decide (e = unknown)) as [->|Hne];
    [ rewrite (bool_decide_eq_false_2 (unknown <> unknown))
        by (intros Hc; apply Hc; reflexivity);
      rewrite (bool_decide_eq_true_2 (unknown = unknown)) by reflexivity
    | rewrite (bool_decide_eq_true_2 (e <> unknown)) by exact Hne;
      rewrite (bool_decide_eq_false_2 (e = unknown)) by exact Hne;
      reflexivity ]
  | reflexivity ].

Lemma renderIgnition_is_cascade E data c :
  renderIgnition E data c = cascade (attempts E data) c.
Proof.
  unfold renderIgnition, attempts. cbn [cascade].
  cascade_stage (v1_Parse E data) ignerr_ErrUnknownVersion.
  cascade_stage (v2_Parse E data) ignerr_ErrUnknownVersion.
  cascade_stage (v21_Parse E data) ignerr_ErrUnknownVersion.
  cascade_stage (v22_Parse E data) ignerr_ErrUnknownVersion.
  cascade_stage (v23_Parse E data) ignerr_ErrUnknownVersion.
  cascade_stage (v3_Parse E data) ign3err_ErrUnknownVersion.
  cascade_stage (v31_Parse E data) ign3err_ErrUnknownVersion.
  cascade_stage (v32_Parse E data) ign3err_ErrUnknownVersion.
  cascade_stage (v33_Parse E data) ign3err_ErrUnknownVersion.
  reflexivity.
Qed.

Lemma attempt_accepted {A} unknown (wrap : A -> Document) r d :
  attempt unknown wrap r = Accepted d -> exists x, d = wrap x.
Proof.
  destruct r as [[x rep] [e|]]; cbn.
  - destruct (bool_decide _); discriminate.
  - intros [= <-]. eauto.
Qed.

Lemma populated_store d name : populated (store d (newConf name)) = [variantOf d].
Proof. destruct d; reflexivity. Qed.

Lemma document_store d name : document (store d (newConf name)) = Some d.
Proof. destruct d; reflexivity. Qed.

Lemma user_store d c : user (store d c) = user c.
Proof. destruct d; reflexivity. Qed.

Lemma cascade_prefix pre v a post c :
  allNotRecognized pre ->
  cascade (pre ++ (v, a) :: post) c
  = match a with
    | Accepted d => (store d c, None)
    | NotRecognized => cascade post c
    | Failed e => (c, Some e)
    end.
Proof.
  induction 1 as [|[v0 a0] l Ha _ IH]; [destruct a; reflexivity|].
  cbn in Ha. subst a0. exact IH.
Qed.

Lemma attempts_labels E data v d :
  (v, Accepted d) ∈ attempts E data -> variantOf d = v /\ v ∈ declarative.
Proof.
  intros Hin. apply list_elem_of_In in Hin. unfold attempts in Hin. cbn [In] in Hin.
  repeat destruct Hin as [Hin|Hin]; try contradiction;
    injection Hin as <- Ha; apply attempt_accepted in Ha as [x ->];
    (split; [reflexivity|apply list_elem_of_In; cbn; tauto]).
Qed.

Lemma slotDoc_store d c : slotDoc (variantOf d) (store d c) = Some d.
Proof. destruct d; reflexivity. Qed.

Lemma slotDoc_store_other d c v :
  v <> variantOf d -> slotDoc v (store d c) = slotDoc v c.
Proof. destruct d, v; cbn; intros Hv; try reflexivity; congruence. Qed.

Lemma texts_store d c :
  script (store d c) = script c /\ multipartMime (store d c) = multipartMime c
  /\ user (store d c) = user c.
Proof. destruct d; repeat split. Qed.

Lemma IsIgnition_store d name :
  variantOf d ∈ declarative -> IsIgnition (store d (newConf name)) = true.
Proof.
  intros Hin. apply list_elem_of_In in Hin. cbn in Hin.
  destruct d; try reflexivity. cbn in Hin. intuition discriminate.
Qed.

(** C4: for a declarative payload Render asks the parsers of the nine
    versions in ascending order (v1, v2.0, v2.1, v2.2, v2.3, v3.0, v3.1,
    v3.2, v3.3).  While every parser so far has answered with the
    "unknown version" signal of its library, the next parser decides: when
    it succeeds, its document is stored in the slot of its own version,
    every other slot and the texts stay as they were and the cascade ends
    without error; any other error ends the cascade, and Render, with that
    error and leaves the Conf untouched; the signal from the last parser
    is the error of Render.  Render returns the Conf of the accepted
    version, whose only populated variant is that version and which
    answers IsIgnition with true, and then injects the pending keys.  In
    particular, when the parsers of v1, v2.0 and v2.1 answer with the
    signal and the v2.2 parser accepts, the v2.2 slot holds the parsed
    document, it is the only populated one, and IsIgnition is true. *)
Theorem Render_ignition_cascade M E data :
  map fst (attempts E data) = declarative
  /\ (forall pre v a post c,
     attempts E data = (pre ++ (v, a) :: post)%list ->
     allNotRecognized pre ->
     match a with
     | Accepted d =>
         variantOf d = v
         /\ (renderIgnition E data c).2 = None
         /\ slotDoc v (renderIgnition E data c).1 = Some d
         /\ (forall v', v' <> v ->
               slotDoc v' (renderIgnition E data c).1 = slotDoc v' c)
         /\ script (renderIgnition E data c).1 = script c
         /\ multipartMime (renderIgnition E data c).1 = multipartMime c
         /\ user (renderIgnition E data c).1 = user c
     | Failed e => renderIgnition E data c = (c, Some e)
     | NotRecognized =>
         post = [] -> renderIgnition E data c = (c, Some ign3err_ErrUnknownVersion)
     end)
  /\ (forall pre v a post keys name ctPlatform,
        attempts E data = (pre ++ (v, a) :: post)%list ->
        allNotRecognized pre ->
        let u := {| ud_kind := kindIgnition; ud_data := data;
                    ud_extraKeys := keys; ud_User := name |} in
        match a with
        | Accepted d =>
            exists c,
              Render M E (withExtraKeys [] u) ctPlatform
              = (withExtraKeys [] u, Ok (inl c))
              /\ populated c = [v]
              /\ document c = Some d
              /\ user c = name
              /\ IsIgnition c = true
              /\ Render M E u ctPlatform = (u, injectKeys M E u c)
        | Failed e => Render M E u ctPlatform = (u, Ok (inr e))
        | NotRecognized =>
            post = [] ->
            Render M E u ctPlatform = (u, Ok (inr ign3err_ErrUnknownVersion))
        end)
  /\ (forall x report keys name ctPlatform,
        (v1_Parse E data).2 = Some ignerr_ErrUnknownVersion ->
        (v2_Parse E data).2 = Some ignerr_ErrUnknownVersion ->
        (v21_Parse E data).2 = Some ignerr_ErrUnknownVersion ->
        v22_Parse E data = (x, report, None) ->
        let u := {| ud_kind := kindIgnition; ud_data := data;
                    ud_extraKeys := keys; ud_User := name |} in
        exists c,
          Render M E (withExtraKeys [] u) ctPlatform
          = (withExtraKeys [] u, Ok (inl c))
          /\ ignitionV22 c = Some x
          /\ populated c = [V2_2]
          /\ IsIgnition c = true
          /\ Render M E u ctPlatform = (u, injectKeys M E u c)).
Proof.
  assert (Hgen : forall pre v a post c,
    attempts E data = (pre ++ (v, a) :: post)%list ->
    allNotRecognized pre ->
    renderIgnition E data c
    = match a with
      | Accepted d => (store d c, None)
      | NotRecognized => cascade post c
      | Failed e => (c, Some e)
      end
    /\ match a with
       | Accepted d => variantOf d = v /\ v ∈ declarative
       | _ => True
       end).
  { intros pre v a post c Hat Hpre. split.
    - rewrite renderIgnition_is_cascade, Hat. apply cascade_prefix. exact Hpre.
    - destruct a; try exact I. apply (attempts_labels E data).
      rewrite Hat. apply list_elem_of_In, in_elt. }
  split; [reflexivity|]. split; [|split].
  - intros pre v a post c Hat Hpre.
    destruct (Hgen pre v a post c Hat Hpre) as [Hr Hl].
    destruct a as [d| |e].
    + destruct Hl as [<- _]. rewrite Hr. cbn [fst snd].
      split; [reflexivity|]. split; [reflexivity|].
      split; [apply slotDoc_store|].
      split; [intros v' Hv'; apply slotDoc_store_other; exact Hv'|].
      apply texts_store.
    + intros ->. exact Hr.
    + exact Hr.
  - intros pre v a post keys name ctPlatform Hat Hpre u.
    destruct (Hgen pre v a post (newConf name) Hat Hpre) as [Hr Hl].
    unfold Render, u, withExtraKeys. cbn [ud_kind ud_data ud_User ud_extraKeys].
    rewrite Hr. destruct a as [d| |e].
    + destruct Hl as [<- Hd]. exists (store d (newConf name)).
      split; [reflexivity|]. split; [apply populated_store|].
      split; [apply document_store|]. split; [apply user_store|].
      split; [apply IsIgnition_store; exact Hd|reflexivity].
    + intros ->. reflexivity.
    + reflexivity.
  - intros x report keys name ctPlatform H1 H2 H21 H22 u.
    exists {| ignitionV1 := None; ignitionV2 := None; ignitionV21 := None;
              ignitionV22 := Some x; ignitionV23 := None; ignitionV3 := None;
              ignitionV31 := None; ignitionV32 := None; ignitionV33 := None;
              cloudconfig := None; script := ""; multipartMime := "";
              user := name |}.
    unfold Render, u, withExtraKeys, renderIgnition.
    cbn [ud_kind ud_data ud_User ud_extraKeys].
    destruct (v1_Parse E data) as [[x1 r1] e1]. cbn in H1. subst e1.
    destruct (v2_Parse E data) as [[x2 r2] e2]. cbn in H2. subst e2.
    destruct (v21_Parse E data) as [[x21 r21] e21]. cbn in H21. subst e21.
    rewrite H22.
    rewrite (bool_decide_eq_false_2 (ignerr_ErrUnknownVersion <> ignerr_ErrUnknownVersion))
      by (intros Hc; apply Hc; reflexivity).
    repeat split; reflexivity.
Qed.

Lemma Render_ignition_cascade_witness :
  take 3 (map snd (attempts Reference.externals (Reference.versionHeader "2.2.0")))
  = [NotRecognized; NotRecognized; NotRecognized]
  /\ exists c,
       Render Reference.merge Reference.externals
         (Ignition (Reference.versionHeader "2.2.0")) "qemu"
       = (Ignition (Reference.versionHeader "2.2.0"), Ok (inl c))
       /\ ignitionV22 c = Some (Reference.emptyV22 "2.2.0")
       /\ populated c = [V2_2]
       /\ IsIgnition c = true.
Proof.
  split; [vm_compute; reflexivity|].
  destruct (proj2 (proj2 (proj2 (Render_ignition_cascade Reference.merge
                                   Reference.externals
                                   (Reference.versionHeader "2.2.0"))))
              (Reference.emptyV22 "2.2.0") Reference.noReport [] "" "qemu")
    as (c & HR & H22 & Hp & Hi & _); try reflexivity.
  exists c. split; [exact HR|]. split; [exact H22|]. split; [exact Hp|exact Hi].
Defined.

(** ** Gzip framing before classification *)

(** C8: decompressIfGzipped always returns: the decompressed bytes of a
    valid gzip stream, and the input itself when the header is rejected
    or the body does not read to its end.  The three checks run on that
    result, so none of them fails on a gzip error. *)
Theorem decompress_then_classify G b :
  (gunzip G b = None <->
     (exists e, gzip_NewReader G b = inr e)
     \/ (exists reader d e, gzip_NewReader G b = inl reader
                            /\ ioutil_ReadAll G reader = (d, Some e)))
  /\ match gunzip G b with
     | Some d =>
         decompressIfGzipped G b = d
         /\ isMultipartMime G b = plainMultipartMime G d
         /\ isCloudConfig G b = plainCloudConfig G d
         /\ isScript G b = plainScript d
     | None =>
         decompressIfGzipped G b = b
         /\ isMultipartMime G b = plainMultipartMime G b
         /\ isCloudConfig G b = plainCloudConfig G b
         /\ isScript G b = plainScript b
     end.
Proof.
  unfold gunzip, isMultipartMime, isCloudConfig, isScript, plainMultipartMime,
    plainCloudConfig, plainScript, decompressIfGzipped.
  destruct (gzip_NewReader G b) as [reader|e] eqn:Hnew.
  - destruct (ioutil_ReadAll G reader) as [d [e|]] eqn:Hread.
    + split.
      * split; [intros _; right; eauto|reflexivity].
      * repeat split; reflexivity.
    + split.
      * split; [discriminate|].
        intros [[e He]|(r' & d' & e & Hr & Hd)]; [discriminate He|].
        injection Hr as <-. rewrite Hread in Hd. discriminate Hd.
      * repeat split; reflexivity.
  - split.
    + split; [intros _; left; eauto|reflexivity].
    + repeat split; reflexivity.
Qed.

(** ** Serialisation follows the document *)

Lemma String_document E c d : document c = Some d -> String E c = encode E d.
Proof.
  unfold String, document.
  repeat match goal with
  | |- context [match ?p with Some _ => _ | None => _ end] =>
      destruct p; [intros [= <-]; reflexivity|]
  end.
  discriminate.
Qed.

(** ** AddFile

    A Conf that agrees with a sole-variant Conf on which slots are
    populated has the same sole variant. *)
Lemma sole_same_slots v c c' :
  sole v c ->
  nonnil (ignitionV1 c') = nonnil (ignitionV1 c) ->
  nonnil (ignitionV2 c') = nonnil (ignitionV2 c) ->
  nonnil (ignitionV21 c') = nonnil (ignitionV21 c) ->
  nonnil (ignitionV22 c') = nonnil (ignitionV22 c) ->
  nonnil (ignitionV23 c') = nonnil (ignitionV23 c) ->
  nonnil (ignitionV3 c') = nonnil (ignitionV3 c) ->
  nonnil (ignitionV31 c') = nonnil (ignitionV31 c) ->
  nonnil (ignitionV32 c') = nonnil (ignitionV32 c) ->
  nonnil (ignitionV33 c') = nonnil (ignitionV33 c) ->
  nonnil (cloudconfig c') = nonnil (cloudconfig c) ->
  script c' = script c ->
  multipartMime c' = multipartMime c ->
  sole v c'.
Proof.
  unfold sole, populated, slot, textSlot. intros H. intros.
  repeat match goal with Hx : _ = _ |- _ => rewrite Hx; clear Hx end.
  reflexivity.
Qed.


Ltac rewrite_none :=
  repeat match goal with
  | Hs : ?p = None |- context [?p] => rewrite Hs
  end.

Ltac populated_slot old Hold :=
  match goal with
  | Hs : nonnil _ = true |- _ => destruct (nonnil_true _ Hs) as [old Hold]
  end.

Ltac same_sole H :=
  eapply sole_same_slots; [exact H|..]; cbn; try reflexivity; rewrite_slots; reflexivity.

(** The reference merge honours the contract for file lists. *)
Lemma Reference_merge_concatenates : concatenatesFiles Reference.merge.
Proof.
  intros f Hin a b. apply list_elem_of_In in Hin. simpl in Hin.
  repeat destruct Hin as [<-|Hin]; try reflexivity. destruct Hin.
Qed.

Lemma snoc_take_drop {A} (l : list A) x :
  (l ++ [x] = take (length l) l ++ x :: drop (length l) l)%list.
Proof. rewrite take_ge, drop_ge by lia. reflexivity. Qed.

Lemma take_drop_again {A} (l : list A) n x :
  (n <= length l)%nat ->
  (take (S n) (take n l ++ x :: drop n l) ++ x :: drop (S n) (take n l ++ x :: drop n l)
   = take n l ++ x :: x :: drop n l)%list.
Proof.
  intros Hn.
  assert (Hl : length (take n l ++ [x]) = S n).
  { rewrite length_app, length_take. cbn. lia. }
  replace (take n l ++ x :: drop n l)%list with ((take n l ++ [x]) ++ drop n l)%list
    by (rewrite <- app_assoc; reflexivity).
  rewrite take_app_length', drop_app_length' by (symmetry; exact Hl).
  rewrite <- app_assoc. reflexivity.
Qed.

Lemma viewsAt_insert path (l : list FileView) n x :
  fv_path x = path -> viewsAt path l = [] ->
  viewsAt path (take n l ++ x :: drop n l) = [x].
Proof.
  intros Hx Hnone. unfold viewsAt in *.
  rewrite <- (take_drop n l), filter_app in Hnone.
  apply app_eq_nil in Hnone as [H1 H2].
  rewrite filter_app, filter_cons_True by exact Hx.
  rewrite H1, H2. reflexivity.
Qed.

Lemma newFileView_path E v path filesystem contents mode entry :
  newFileView E v path filesystem contents mode = Some entry -> fv_path entry = path.
Proof.
  destruct v; cbn; try discriminate;
    try (destruct (url_Parse E (dataurl_EncodeBytes E contents)); try discriminate);
    intros [= <-]; reflexivity.
Qed.

Lemma AddFile_inserts M E c v path filesystem contents mode entry :
  sole v c ->
  newFileView E v path filesystem contents mode = Some entry ->
  rootFirst c ->
  (v ∈ v3Family -> concatenatesFiles M) ->
  exists c' d',
    AddFile M E c path filesystem contents mode = Ok c'
    /\ sole v c' /\ rootFirst c'
    /\ document c' = Some d' /\ variantOf d' = v
    /\ (insertionPoint c <= length (fileViews c))%nat
    /\ insertionPoint c' = S (insertionPoint c)
    /\ (v <> LegacyV1 -> insertionPoint c = length (fileViews c))
    /\ docFileViews d'
       = (take (insertionPoint c) (fileViews c)
          ++ entry :: drop (insertionPoint c) (fileViews c))%list.
Proof.
  intros H Hb Hr HM.
  destruct v; try discriminate Hb; sole_cases H; populated_slot old Hold;
    unfold AddFile; rewrite_slots;
    unfold addFileV1, addFileV2, addFileV21, addFileV22, addFileV23, addFileV3,
      addFileV31, addFileV32, addFileV33, addFileCloudConfig, MergeV3, MergeV31,
      MergeV32, MergeV33;
    rewrite Hold; cbn [deref mbind Result_bind].
  all: try (cbn [newFileView] in Hb;
    destruct (url_Parse E (dataurl_EncodeBytes E contents)) as [u|e] eqn:Hu;
    [|discriminate Hb]).
  all: try (unfold rootFirst in Hr; rewrite Hold in Hr;
    destruct (V1types.Storage_Filesystems old) as [|fs0 rest] eqn:Hfs;
    [|rewrite (bool_decide_eq_false_2 (V1types.Filesystem_Device fs0 <> ROOT))
        by (intros Hc; exact (Hc Hr))]).
  all: do 2 eexists; (split; [reflexivity|]);
    (split; [same_sole H|]);
    (split; [unfold rootFirst; cbn; empty_slots; rewrite_none;
             first [exact I | reflexivity | assumption]|]);
    (split; [unfold document; cbn; empty_slots; rewrite_none; reflexivity|]);
    (split; [reflexivity|]);
    unfold insertionPoint, fileViews, document; cbn; empty_slots; rewrite_none;
    rewrite ?Hold; cbn; rewrite ?Hfs; injection Hb as <-.
  all: try (rewrite (HM ltac:(apply list_elem_of_In; simpl; auto 10))
              by (apply list_elem_of_In; simpl; auto)).
  all: try (rewrite !map_app, !length_app; cbn; rewrite <- snoc_take_drop;
            repeat split; try reflexivity; lia).
  - cbn. repeat split; try reflexivity; try lia.
  - cbn. rewrite !length_app, length_map. cbn.
    rewrite take_app_length', drop_app_length' by (rewrite length_map; reflexivity).
    rewrite map_app, <- app_assoc.
    repeat split; try reflexivity; try lia. intros Hc. destruct (Hc eq_refl).
Qed.

(** C6 (as the code has it): on a Conf whose populated variant is a
    declarative one or cloud-config, one AddFile call returns and inserts
    one entry into the file entries of the document that String then
    serialises, leaving every other entry in its place: behind the files
    of the first filesystem on a legacy document, at the end of the list
    on every other variant.  The entry carries the given path and content
    (as a data URL from v2.0 on), the mode, the filesystem name (v2.x) and
    for cloud-config owner root and the octal mode; when no entry had that
    path before, it is the only one afterwards.  A second call with the
    same arguments inserts a second, identical entry next to the first and
    replaces nothing.  This needs: the first filesystem of a legacy
    document, if any, is on the root device; the data URL parses (v2.0);
    the merge of the v3 libraries concatenates file lists (section 4.5).
    Without them: on v3.x the code itself only replaces the document by
    the library's merge of it with an overlay that holds this one entry;
    a legacy document whose first filesystem is on another device makes
    AddFile panic; a v2.0 document stays as it was when the data URL does
    not parse. *)
Theorem AddFile_one_entry_per_call M E c v path filesystem contents mode :
  sole v c ->
  (forall entry,
     newFileView E v path filesystem contents mode = Some entry ->
     rootFirst c ->
     (v ∈ v3Family -> concatenatesFiles M) ->
     exists c' d' c'',
       AddFile M E c path filesystem contents mode = Ok c'
       /\ sole v c'
       /\ document c' = Some d' /\ variantOf d' = v
       /\ String E c' = encode E d'
       /\ fv_path entry = path
       /\ (insertionPoint c <= length (fileViews c))%nat
       /\ (v <> LegacyV1 -> insertionPoint c = length (fileViews c))
       /\ docFileViews d'
          = (take (insertionPoint c) (fileViews c)
             ++ entry :: drop (insertionPoint c) (fileViews c))%list
       /\ (viewsAt path (fileViews c) = [] -> viewsAt path (docFileViews d') = [entry])
       /\ AddFile M E c' path filesystem contents mode = Ok c''
       /\ sole v c''
       /\ fileViews c''
          = (take (insertionPoint c) (fileViews c)
             ++ entry :: entry :: drop (insertionPoint c) (fileViews c))%list)
  /\ (v ∈ v3Family ->
        exists old c' entry,
          document c = v3Doc v old
          /\ AddFile M E c path filesystem contents mode = Ok c'
          /\ sole v c'
          /\ document c'
             = v3Doc v (mergeFor M v old (fileOverlay E (versionString v) path contents mode))
          /\ newFileView E v path filesystem contents mode = Some entry
          /\ map fileViewV3
               (V3types.Storage_Files (fileOverlay E (versionString v) path contents mode))
             = [entry])
  /\ (foreignFirst c ->
        exists msg, AddFile M E c path filesystem contents mode = Panic msg)
  /\ (v = V2_0 ->
      newFileView E v path filesystem contents mode = None ->
      AddFile M E c path filesystem contents mode = Ok c).
Proof.
  intros H. split; [|split; [|split]].
  - intros entry Hb Hr HM.
    destruct (AddFile_inserts M E c v path filesystem contents mode entry H Hb Hr HM)
      as (c' & d' & Hadd & Hsole & Hroot & Hdoc & Hvar & Hle & Hnext & Hend & Hviews).
    destruct (AddFile_inserts M E c' v path filesystem contents mode entry Hsole Hb Hroot HM)
      as (c'' & d'' & Hadd' & Hsole' & _ & Hdoc' & _ & _ & _ & _ & Hviews').
    pose proof (newFileView_path _ _ _ _ _ _ _ Hb) as Hpath.
    exists c', d', c''.
    repeat (split; [first [assumption | apply String_document; assumption]|]).
    split; [intros Hnone; rewrite Hviews; apply viewsAt_insert; assumption|].
    split; [assumption|]. split; [assumption|].
    unfold fileViews at 1. rewrite Hdoc', Hviews', Hnext.
    unfold fileViews at 1 2. rewrite Hdoc, Hviews.
    apply take_drop_again. exact Hle.
  - intros Hin. apply list_elem_of_In in Hin. simpl in Hin.
    destruct Hin as [<-|[<-|[<-|[<-|[]]]]]; sole_cases H; populated_slot old Hold;
      unfold AddFile, addFileV3, addFileV31, addFileV32, addFileV33,
        MergeV3, MergeV31, MergeV32, MergeV33;
      rewrite_slots; rewrite Hold; cbn [deref mbind Result_bind];
      exists old; do 2 eexists;
      (split; [unfold document; empty_slots; rewrite_none; rewrite Hold; reflexivity|]);
      (split; [reflexivity|]);
      (split; [same_sole H|]);
      (split; [unfold document; cbn; empty_slots; rewrite_none; reflexivity|]);
      split; reflexivity.
  - intros (cfg & fs0 & rest & Hcfg & Hfs & Hdev).
    assert (Hv : v = LegacyV1).
    { unfold sole, populated, slot in H. rewrite Hcfg in H. cbn in H.
      destruct v; try reflexivity; exfalso;
        repeat match type of H with
        | context [if ?b then _ else _] => destruct b; cbn in H
        end; discriminate. }
    subst v. sole_cases H. unfold AddFile. rewrite_slots.
    unfold addFileV1. rewrite Hcfg. cbn [deref mbind Result_bind]. rewrite Hfs.
    rewrite bool_decide_eq_true_2 by exact Hdev. eexists. reflexivity.
  - intros -> Hnone. sole_cases H. populated_slot old Hold.
    unfold AddFile. rewrite_slots. unfold addFileV2. rewrite Hold.
    cbn [deref mbind Result_bind]. cbn [newFileView] in Hnone.
    destruct (url_Parse E (dataurl_EncodeBytes E contents)); [discriminate Hnone|].
    reflexivity.
Qed.

Lemma AddFile_one_entry_per_call_witness :
  (exists c' c'',
     AddFile Reference.merge Reference.externals Sample.confV3
       "/etc/hostname" "root" "host" 420 = Ok c'
     /\ fileViews c' = [ Sample.v3File "/etc/hostname" "data:,host" 420 ]
     /\ AddFile Reference.merge Reference.externals c'
          "/etc/hostname" "root" "host" 420 = Ok c''
     /\ fileViews c''
        = [ Sample.v3File "/etc/hostname" "data:,host" 420;
            Sample.v3File "/etc/hostname" "data:,host" 420 ])
  /\ (exists c' c'',
        AddFile Reference.merge Reference.externals Sample.confV1two
          "/etc/hostname" "root" "host" 420 = Ok c'
        /\ fileViews c'
           = [ Sample.legacyFile "/etc/motd" "hello" 420;
               Sample.legacyFile "/etc/hostname" "host" 420;
               Sample.legacyFile "/data/seed" "1" 384 ]
        /\ AddFile Reference.merge Reference.externals c'
             "/etc/hostname" "root" "host" 420 = Ok c''
        /\ fileViews c''
           = [ Sample.legacyFile "/etc/motd" "hello" 420;
               Sample.legacyFile "/etc/hostname" "host" 420;
               Sample.legacyFile "/etc/hostname" "host" 420;
               Sample.legacyFile "/data/seed" "1" 384 ]).
Proof.
  split.
  - destruct (proj1 (AddFile_one_entry_per_call Reference.merge Reference.externals
                       Sample.confV3 V3_0 "/etc/hostname" "root" "host" 420 eq_refl)
                (Sample.v3File "/etc/hostname" "data:,host" 420) eq_refl I
                (fun _ => Reference_merge_concatenates))
      as (c' & d' & c'' & Hc' & _ & Hd' & _ & _ & _ & _ & _ & Hone & _ & Hc'' & _ & Htwo).
    exists c', c''. split; [exact Hc'|]. split; [|split; [exact Hc''|exact Htwo]].
    unfold fileViews. rewrite Hd'. exact Hone.
  - destruct (proj1 (AddFile_one_entry_per_call Reference.merge Reference.externals
                       Sample.confV1two LegacyV1 "/etc/hostname" "root" "host" 420
                       eq_refl)
                (Sample.legacyFile "/etc/hostname" "host" 420) eq_refl eq_refl
                (fun _ => Reference_merge_concatenates))
      as (c' & d' & c'' & Hc' & _ & Hd' & _ & _ & _ & _ & _ & Hone & _ & Hc'' & _ & Htwo).
    exists c', c''. split; [exact Hc'|]. split; [|split; [exact Hc''|exact Htwo]].
    unfold fileViews. rewrite Hd'. exact Hone.
Defined.

(** C6, as stated for every declarative variant, fails: a legacy document
    whose first filesystem is not on the root device has no file entry at
    the path, and AddFile panics instead of adding one. *)
Lemma AddFile_foreign_filesystem_counterexample :
  sole LegacyV1 Sample.confV1data
  /\ viewsAt "/etc/hostname" (fileViews Sample.confV1data) = []
  /\ foreignFirst Sample.confV1data
  /\ AddFile Reference.merge Reference.externals Sample.confV1data
       "/etc/hostname" "root" "host" 420
     = Panic ("test specified an unexpected filesystem with Ignition v1: "
              ++ strconv_Quote Reference.externals "/dev/disk/by-partlabel/DATA").
Proof.
  split; [reflexivity|]. split; [reflexivity|]. split; [|reflexivity].
  do 3 eexists. split; [reflexivity|]. split; [reflexivity|]. discriminate.
Qed.

(** ** AddSystemdUnitDropin

    The loop of the in-place routines, seen through [UnitView], is
    [attachDropin]. *)
Section Attach.
Context {U : Type} (view : U -> UnitView) (nameOf : U -> string) (add : U -> U).
Variables (service : string) (d : string * option string).
Hypothesis view_name : forall u, uv_name (view u) = nameOf u.
Hypothesis view_add : forall u, view (add u) = withDropin d (view u).

Lemma attach_found fresh us i u :
  list_find (fun u => nameOf u = service) us = Some (i, u) ->
  map view (<[i := add u]> us) = attachDropin service d fresh (map view us).
Proof.
  revert i. induction us as [|x l IH]; intros i Hf; [discriminate Hf|].
  cbn [list_find] in Hf. cbn [map attachDropin]. rewrite view_name.
  destruct (decide (nameOf x = service)) as [Hx|Hx].
  - injection Hf as <- <-. rewrite bool_decide_eq_true_2 by exact Hx.
    cbn. rewrite view_add. reflexivity.
  - rewrite bool_decide_eq_false_2 by exact Hx.
    destruct (list_find _ l) as [[j y]|]; [|discriminate Hf].
    injection Hf as <- <-. cbn. f_equal. apply IH. reflexivity.
Qed.

Lemma attach_missing mk us :
  list_find (fun u => nameOf u = service) us = None ->
  map view (us ++ [mk]) = attachDropin service d (view mk) (map view us).
Proof.
  induction us as [|x l IH]; intros Hf; [reflexivity|].
  cbn [list_find] in Hf. cbn [map app attachDropin]. rewrite view_name.
  destruct (decide (nameOf x = service)) as [Hx|Hx]; [discriminate Hf|].
  rewrite bool_decide_eq_false_2 by exact Hx.
  destruct (list_find _ l) as [[j y]|]; [discriminate Hf|].
  f_equal. apply IH. reflexivity.
Qed.
End Attach.

Lemma attachDropin_missing service d fresh us :
  Forall (fun u => uv_name u <> service) us ->
  attachDropin service d fresh us = (us ++ [fresh])%list.
Proof.
  induction 1 as [|u l Hu _ IH]; [reflexivity|].
  cbn. rewrite bool_decide_eq_false_2 by exact Hu. rewrite IH. reflexivity.
Qed.

Lemma attachDropin_found service d fresh l1 u l2 :
  Forall (fun u => uv_name u <> service) l1 ->
  uv_name u = service ->
  attachDropin service d fresh (l1 ++ u :: l2) = (l1 ++ withDropin d u :: l2)%list.
Proof.
  intros Hl Hu. induction Hl as [|x l Hx _ IH].
  - cbn. rewrite bool_decide_eq_true_2 by exact Hu. reflexivity.
  - cbn. rewrite bool_decide_eq_false_2 by exact Hx. rewrite IH. reflexivity.
Qed.


Ltac bare_unit :=
  unfold carriesOnly; cbn; repeat split; auto.

Ltac in_place H Hold view nameOf add mk :=
  cbv zeta;
  let Hlf := fresh "Hlf" in
  destruct (list_find _ _) as [[? ?]|] eqn:Hlf;
  (eexists; exists (view mk); split; [reflexivity|]; split; [same_sole H|]; split; cycle 1;
   [ unfold units, document; cbn; empty_slots; rewrite_none; rewrite Hold;
     cbn [docUnits];
     first
       [ eapply (attach_found view nameOf add); [reflexivity| |exact Hlf];
         intros ?; unfold view, withDropin; cbn; rewrite map_app; reflexivity
       | eapply (attach_missing view nameOf); [reflexivity|exact Hlf] ]
   | bare_unit ]).


(** The reference merge honours the contract for unit lists. *)
Lemma Reference_merge_concatenates_units : concatenatesUnits Reference.merge.
Proof.
  intros f Hin a b. apply list_elem_of_In in Hin. simpl in Hin.
  repeat destruct Hin as [<-|Hin]; try reflexivity. destruct Hin.
Qed.

Ltac in_place_user H Hold view nameOf add mk :=
  cbv zeta;
  let Hlf := fresh "Hlf" in
  destruct (list_find _ _) as [[? ?]|] eqn:Hlf;
  (eexists; exists (view mk); split; [reflexivity|]; split; [same_sole H|];
   split; [reflexivity|]; split; cycle 1;
   [ unfold units, document; cbn; empty_slots; rewrite_none; rewrite Hold;
     cbn [docUnits];
     first
       [ eapply (attach_found view nameOf add); [reflexivity| |exact Hlf];
         intros ?; unfold view, withDropin; cbn; rewrite map_app; reflexivity
       | eapply (attach_missing view nameOf); [reflexivity|exact Hlf] ]
   | bare_unit ]).

(** C7 (as the code has it): on a Conf whose populated variant is edited
    in place (legacy v1, v2.0 to v2.3, cloud-config) AddSystemdUnitDropin
    searches the units by exact name: the drop-in is appended to the
    drop-in list of the first unit with that name and the other units
    stay as they are, or else a new unit with that name is appended whose
    only content is the drop-in.  On v3.0, v3.2 and v3.3 there is no search:
    the stored document is replaced by the library's merge of it with an
    overlay whose single unit has that name and only the drop-in, so when
    the merge concatenates unit lists (section 4.5) that unit is appended
    behind the units already there, whether or not one of them has the
    name.  On a script or multipart Conf the call changes nothing. *)
Theorem AddSystemdUnitDropin_by_variant M c v service name contents :
  sole v c ->
  (v ∈ editedInPlace ->
     exists c' fresh,
       AddSystemdUnitDropin M c service name contents = Ok c'
       /\ sole v c'
       /\ user c' = user c
       /\ carriesOnly service (name, Some contents) fresh
       /\ units c' = attachDropin service (name, Some contents) fresh (units c)
       /\ (forall l1 u l2,
             units c = (l1 ++ u :: l2)%list ->
             Forall (fun u' => uv_name u' <> service) l1 ->
             uv_name u = service ->
             units c' = (l1 ++ withDropin (name, Some contents) u :: l2)%list)
       /\ (Forall (fun u => uv_name u <> service) (units c) ->
           units c' = (units c ++ [fresh])%list))
  /\ (v ∈ [V3_0; V3_2; V3_3] ->
        exists old c' fresh,
          document c = v3Doc v old
          /\ AddSystemdUnitDropin M c service name contents = Ok c'
          /\ sole v c'
          /\ user c' = user c
          /\ document c'
             = v3Doc v (mergeFor M v old
                          (dropinOverlay (versionString v) service name contents))
          /\ carriesOnly service (name, Some contents) fresh
          /\ map viewV3 (V3types.Systemd_Units
                           (dropinOverlay (versionString v) service name contents))
             = [fresh]
          /\ (concatenatesUnits M -> units c' = (units c ++ [fresh])%list))
  /\ (v ∈ [VScript; VMultipart] ->
        AddSystemdUnitDropin M c service name contents = Ok c /\ units c = []).
Proof.
  intros H. split; [|split]; intros Hin; apply list_elem_of_In in Hin; simpl in Hin.
  - assert (Hmain : exists c' fresh,
       AddSystemdUnitDropin M c service name contents = Ok c'
       /\ sole v c'
       /\ user c' = user c
       /\ carriesOnly service (name, Some contents) fresh
       /\ units c' = attachDropin service (name, Some contents) fresh (units c)).
    { destruct Hin as [<-|[<-|[<-|[<-|[<-|[<-|[]]]]]]]; sole_cases H;
        populated_slot old Hold; unfold AddSystemdUnitDropin; rewrite_slots;
        unfold addSystemdDropinV1, addSystemdDropinV2, addSystemdDropinV21,
          addSystemdDropinV22, addSystemdDropinV23, addSystemdDropinCloudConfig;
        rewrite Hold; cbn [deref mbind Result_bind].
      + in_place_user H Hold viewV1 V1types.Unit_Name
          (fun u0 => V1types.with_DropIns (V1types.Unit_DropIns u0 ++
             [ {| V1types.DropIn_Name := name; V1types.DropIn_Contents := contents |} ]) u0)
          {| V1types.Unit_Name := service; V1types.Unit_Enable := false;
             V1types.Unit_Mask := false; V1types.Unit_Contents := "";
             V1types.Unit_DropIns :=
               [ {| V1types.DropIn_Name := name; V1types.DropIn_Contents := contents |} ] |}.
      + in_place_user H Hold viewV2 V2types.Unit_Name
          (fun u0 => V2types.with_DropIns (V2types.Unit_DropIns u0 ++
             [ {| V2types.DropIn_Name := name; V2types.DropIn_Contents := contents |} ]) u0)
          {| V2types.Unit_Name := service; V2types.Unit_Enable := false;
             V2types.Unit_Mask := false; V2types.Unit_Contents := "";
             V2types.Unit_DropIns :=
               [ {| V2types.DropIn_Name := name; V2types.DropIn_Contents := contents |} ] |}.
      + in_place_user H Hold viewV21 V21types.Unit_Name
          (fun u0 => V21types.with_Dropins (V21types.Unit_Dropins u0 ++
             [ {| V21types.Dropin_Name := name; V21types.Dropin_Contents := contents |} ]) u0)
          {| V21types.Unit_Name := service; V21types.Unit_Contents := "";
             V21types.Unit_Enabled := None; V21types.Unit_Mask := false;
             V21types.Unit_Dropins :=
               [ {| V21types.Dropin_Name := name; V21types.Dropin_Contents := contents |} ] |}.
      + in_place_user H Hold viewV22 V22types.Unit_Name
          (fun u0 => V22types.with_Dropins (V22types.Unit_Dropins u0 ++
             [ {| V22types.Dropin_Name := name; V22types.Dropin_Contents := contents |} ]) u0)
          {| V22types.Unit_Name := service; V22types.Unit_Contents := "";
             V22types.Unit_Enabled := None; V22types.Unit_Mask := false;
             V22types.Unit_Dropins :=
               [ {| V22types.Dropin_Name := name; V22types.Dropin_Contents := contents |} ] |}.
      + in_place_user H Hold viewV22 V22types.Unit_Name
          (fun u0 => V22types.with_Dropins (V22types.Unit_Dropins u0 ++
             [ {| V22types.Dropin_Name := name; V22types.Dropin_Contents := contents |} ]) u0)
          {| V22types.Unit_Name := service; V22types.Unit_Contents := "";
             V22types.Unit_Enabled := None; V22types.Unit_Mask := false;
             V22types.Unit_Dropins :=
               [ {| V22types.Dropin_Name := name; V22types.Dropin_Contents := contents |} ] |}.
      + in_place_user H Hold viewCci cci.Unit_Name
          (fun u0 => cci.with_DropIns (cci.Unit_DropIns u0 ++
             [ {| cci.DropIn_Name := name; cci.DropIn_Content := contents |} ]) u0)
          {| cci.Unit_Name := service; cci.Unit_Mask := false; cci.Unit_Enable := false;
             cci.Unit_Runtime := false; cci.Unit_Content := ""; cci.Unit_Command := "";
             cci.Unit_DropIns :=
               [ {| cci.DropIn_Name := name; cci.DropIn_Content := contents |} ] |}. }
    destruct Hmain as (c' & fresh & Hc' & Hsole & Huser & Hfresh & Hunits).
    exists c', fresh. repeat (split; [assumption|]). split.
    + intros l1 u l2 Hl Hl1 Hu. rewrite Hunits, Hl.
      apply attachDropin_found; assumption.
    + intros Hnone. rewrite Hunits. apply attachDropin_missing. exact Hnone.
  - destruct Hin as [<-|[<-|[<-|[]]]]; sole_cases H; populated_slot old Hold;
      unfold AddSystemdUnitDropin, addSystemdDropinV3, addSystemdDropinV32,
        addSystemdDropinV33, MergeV3, MergeV32, MergeV33;
      rewrite_slots; rewrite Hold; cbn [deref mbind Result_bind];
      exists old; do 2 eexists;
      (split; [unfold document; empty_slots; rewrite_none; rewrite Hold; reflexivity|]);
      (split; [reflexivity|]);
      (split; [same_sole H|]);
      (split; [reflexivity|]);
      (split; [unfold document; cbn; empty_slots; rewrite_none; reflexivity|]);
      (split; cycle 1;
       [ split; [reflexivity|];
         intros HM; unfold units, document; cbn; empty_slots; rewrite_none;
         rewrite Hold; cbn;
         rewrite HM by (apply list_elem_of_In; simpl; auto);
         rewrite map_app; reflexivity
       | bare_unit ]).
  - destruct Hin as [<-|[<-|[]]]; sole_cases H;
      unfold AddSystemdUnitDropin, units, document; rewrite_slots;
      empty_slots; split; reflexivity.
Qed.

Lemma AddSystemdUnitDropin_by_variant_witness :
  (exists c' fresh,
     AddSystemdUnitDropin Reference.merge Sample.confV22
       "docker.service" "10-override.conf" "[Service]" = Ok c'
     /\ carriesOnly "docker.service" ("10-override.conf", Some "[Service]") fresh
     /\ units c' = [fresh])
  /\ (exists c',
        AddSystemdUnitDropin Reference.merge Sample.confV22docker
          "docker.service" "10-override.conf" "[Service]" = Ok c'
        /\ map (fun u => (uv_name u, uv_dropins u)) (units c')
           = [ ("etcd.service", []);
               ("docker.service", [ ("05-proxy.conf", Some "[Service]");
                                    ("10-override.conf", Some "[Service]") ]) ])
  /\ (exists c' fresh,
        AddSystemdUnitDropin Reference.merge Sample.confV3
          "docker.service" "10-override.conf" "[Service]" = Ok c'
        /\ carriesOnly "docker.service" ("10-override.conf", Some "[Service]") fresh
        /\ units c' = [fresh]).
Proof.
  assert (Hin : V2_2 ∈ editedInPlace) by (apply list_elem_of_In; simpl; auto).
  assert (Hin3 : V3_0 ∈ [V3_0; V3_2; V3_3]) by (apply list_elem_of_In; simpl; auto).
  split; [|split].
  - destruct (proj1 (AddSystemdUnitDropin_by_variant Reference.merge Sample.confV22
                       V2_2 "docker.service" "10-override.conf" "[Service]" eq_refl)
                Hin) as (c' & fresh & Hc' & _ & _ & Hfresh & _ & _ & Hnew).
    exists c', fresh. split; [exact Hc'|]. split; [exact Hfresh|].
    apply Hnew. constructor.
  - destruct (proj1 (AddSystemdUnitDropin_by_variant Reference.merge
                       Sample.confV22docker V2_2 "docker.service" "10-override.conf"
                       "[Service]" eq_refl)
                Hin) as (c' & fresh & Hc' & _ & _ & _ & _ & Hfound & _).
    exists c'. split; [exact Hc'|].
    rewrite (Hfound [_] _ [] eq_refl); [reflexivity| |reflexivity].
    constructor; [discriminate|constructor].
  - destruct (proj1 (proj2 (AddSystemdUnitDropin_by_variant Reference.merge
                              Sample.confV3 V3_0 "docker.service" "10-override.conf"
                              "[Service]" eq_refl))
                Hin3) as (old & c' & fresh & _ & Hc' & _ & _ & _ & Hfresh & _ & Hcat).
    exists c', fresh. split; [exact Hc'|]. split; [exact Hfresh|].
    apply Hcat. exact Reference_merge_concatenates_units.
Defined.

(** C7, as stated for every Document, fails twice.  On a script Document
    there is no unit named docker.service, and AddSystemdUnitDropin
    appends none.  On a v3.0 Document that has a unit named docker.service
    with one drop-in, under a merge that concatenates unit lists (the
    contract of section 4.5), the drop-in is not appended to the drop-in
    list of that unit: the unit stays as it was and a second unit named
    docker.service follows it. *)
Lemma AddSystemdUnitDropin_search_counterexample :
  (sole VScript Sample.confScript
   /\ units Sample.confScript = []
   /\ AddSystemdUnitDropin Reference.merge Sample.confScript
        "docker.service" "10-override.conf" "[Service]" = Ok Sample.confScript)
  /\ (sole V3_0 Sample.confV3docker
      /\ concatenatesUnits Reference.merge
      /\ map (fun u => (uv_name u, uv_dropins u)) (units Sample.confV3docker)
         = [ ("docker.service", [ ("05-proxy.conf", Some "[Service]") ]) ]
      /\ exists c',
           AddSystemdUnitDropin Reference.merge Sample.confV3docker
             "docker.service" "10-override.conf" "[Service]" = Ok c'
           /\ map (fun u => (uv_name u, uv_dropins u)) (units c')
              = [ ("docker.service", [ ("05-proxy.conf", Some "[Service]") ]);
                  ("docker.service", [ ("10-override.conf", Some "[Service]") ]) ]).
Proof.
  split; [repeat split; reflexivity|].
  split; [reflexivity|]. split; [exact Reference_merge_concatenates_units|].
  split; [reflexivity|]. eexists. split; reflexivity.
Qed.

(** * Further properties of the code *)

(** ** Which slots a mutation touches *)

Lemma sameSlots_refl c : sameSlots c c.
Proof. repeat split. Qed.

Lemma sameSlots_populated c c' : sameSlots c c' -> populated c' = populated c.
Proof.
  intros (H1 & H2 & H21 & H22 & H23 & H3 & H31 & H32 & H33 & Hc & Hs & Hm & _).
  unfold populated, slot, textSlot.
  rewrite H1, H2, H21, H22, H23, H3, H31, H32, H33, Hc, Hs, Hm. reflexivity.
Qed.

(** Closes [sameSlots c c'] when [c'] is [c] with one populated slot
    reassigned. *)
Ltac slots_kept :=
  unfold sameSlots; cbn;
  repeat match goal with
  | Hs : ?p = Some _ |- context [?p] => rewrite Hs
  end;
  repeat split; reflexivity.

(** Walks a dispatcher in [Hop : dispatcher ... = r] down to the routine it
    selects, leaving the slot equations in the context. *)
Ltac dispatch Hop :=
  repeat match type of Hop with
  | (if nonnil ?p then _ else _) = _ =>
      let Hp := fresh "Hp" in
      destruct p eqn:Hp; cbn [nonnil] in Hop
  end.

Ltac run_routine Hop :=
  cbv beta delta [addFileV1 addFileV2 addFileV21 addFileV22 addFileV23 addFileV3
    addFileV31 addFileV32 addFileV33 addFileCloudConfig
    addSystemdUnitV1 addSystemdUnitV2 addSystemdUnitV21 addSystemdUnitV22
    addSystemdUnitV23 addSystemdUnitV3 addSystemdUnitV31 addSystemdUnitV32
    addSystemdUnitV33 addSystemdUnitCloudConfig
    addSystemdDropinV1 addSystemdDropinV2 addSystemdDropinV21 addSystemdDropinV22
    addSystemdDropinV23 addSystemdDropinV3 addSystemdDropinV31 addSystemdDropinV32
    addSystemdDropinV33 addSystemdDropinCloudConfig
    copyKeysIgnitionV1 copyKeysIgnitionV2 copyKeysIgnitionV21 copyKeysIgnitionV22
    copyKeysIgnitionV23 copyKeysIgnitionV3 copyKeysIgnitionV31 copyKeysIgnitionV32
    copyKeysIgnitionV33 copyKeysCloudConfig copyKeysScript
    addUserToGroupsV3 addUserToGroupsV31 addUserToGroupsV32 addUserToGroupsV33
    MergeV3 MergeV31 MergeV32 MergeV33] in Hop;
  repeat match goal with
  | Hs : ?p = _ |- _ =>
      match type of Hop with context [deref p] => rewrite Hs in Hop end
  end;
  cbn [deref mbind Result_bind] in Hop; cbv zeta in Hop.

Lemma AddSystemdUnit_sameSlots M c name contents enable c' :
  AddSystemdUnit M c name contents enable = Ok c' -> sameSlots c c'.
Proof.
  intros Hop. unfold AddSystemdUnit in Hop. dispatch Hop; run_routine Hop;
    injection Hop as <-; slots_kept.
Qed.

Lemma AddFile_sameSlots M E c path filesystem contents mode c' :
  AddFile M E c path filesystem contents mode = Ok c' -> sameSlots c c'.
Proof.
  intros Hop. unfold AddFile in Hop. dispatch Hop; run_routine Hop;
    try discriminate Hop.
  all: try (injection Hop as <-; slots_kept).
  - destruct (url_Parse E _); injection Hop as <-; [slots_kept|apply sameSlots_refl].
  - destruct (V1types.Storage_Filesystems _) as [|fs0 rest].
    + injection Hop as <-; slots_kept.
    + destruct (bool_decide _); [discriminate Hop|]. injection Hop as <-; slots_kept.
Qed.

Lemma AddSystemdUnitDropin_sameSlots M c service name contents c' :
  AddSystemdUnitDropin M c service name contents = Ok c' -> sameSlots c c'.
Proof.
  intros Hop. unfold AddSystemdUnitDropin in Hop. dispatch Hop; run_routine Hop;
    try discriminate Hop.
  all: try (injection Hop as <-; slots_kept).
  all: destruct (list_find _ _) as [[i u]|]; injection Hop as <-; slots_kept.
Qed.

Lemma CopyKeys_sameSlots M E c keys c' :
  CopyKeys M E c keys = Ok c' ->
  document c <> None \/ script c = "" ->
  sameSlots c c'.
Proof.
  intros Hop Hdoc. unfold CopyKeys in Hop. dispatch Hop; run_routine Hop.
  all: try (injection Hop as <-; slots_kept).
  all: try (destruct (list_find _ _) as [[i u]|]; injection Hop as <-; slots_kept).
  destruct Hdoc as [Hdoc|Hs].
  - exfalso. apply Hdoc. unfold document.
    repeat match goal with Hs : ?p = None |- context [?p] => rewrite Hs end.
    reflexivity.
  - rewrite Hs in Hop. cbn in Hop. injection Hop as <-. apply sameSlots_refl.
Qed.

Lemma AddUserToGroups_sameSlots M c name groups c' err :
  AddUserToGroups M c name groups = Ok (c', err) -> sameSlots c c'.
Proof.
  intros Hop. unfold AddUserToGroups in Hop. dispatch Hop; run_routine Hop;
    injection Hop as <- <-; slots_kept.
Qed.

Lemma mutate_sameSlots M E m c c' :
  mutate M E m c = Ok c' -> document c <> None -> sameSlots c c'.
Proof.
  intros Hop Hdoc. destruct m; cbn [mutate] in Hop.
  - eapply AddFile_sameSlots; eassumption.
  - eapply AddSystemdUnit_sameSlots; eassumption.
  - eapply AddSystemdUnitDropin_sameSlots; eassumption.
  - eapply CopyKeys_sameSlots; [eassumption|left; assumption].
  - destruct (AddUserToGroups M c name groups) as [[c0 err]|msg] eqn:Hg;
      [|discriminate Hop].
    cbn in Hop. injection Hop as <-.
    eapply AddUserToGroups_sameSlots; eassumption.
Qed.

Lemma sameSlots_document c c' : sameSlots c c' -> document c <> None -> document c' <> None.
Proof.
  intros (H1 & H2 & H21 & H22 & H23 & H3 & H31 & H32 & H33 & Hc & _) Hdoc.
  unfold document in *.
  destruct (ignitionV1 c'); [discriminate|]. destruct (ignitionV1 c); [discriminate H1|].
  destruct (ignitionV2 c'); [discriminate|]. destruct (ignitionV2 c); [discriminate H2|].
  destruct (ignitionV21 c'); [discriminate|]. destruct (ignitionV21 c); [discriminate H21|].
  destruct (ignitionV22 c'); [discriminate|]. destruct (ignitionV22 c); [discriminate H22|].
  destruct (ignitionV23 c'); [discriminate|]. destruct (ignitionV23 c); [discriminate H23|].
  destruct (ignitionV3 c'); [discriminate|]. destruct (ignitionV3 c); [discriminate H3|].
  destruct (ignitionV31 c'); [discriminate|]. destruct (ignitionV31 c); [discriminate H31|].
  destruct (ignitionV32 c'); [discriminate|]. destruct (ignitionV32 c); [discriminate H32|].
  destruct (ignitionV33 c'); [discriminate|]. destruct (ignitionV33 c); [discriminate H33|].
  destruct (cloudconfig c'); [discriminate|]. destruct (cloudconfig c); [discriminate Hc|].
  exact Hdoc.
Qed.

Lemma sameSlots_trans c1 c2 c3 : sameSlots c1 c2 -> sameSlots c2 c3 -> sameSlots c1 c3.
Proof.
  unfold sameSlots. intros H12 H23.
  repeat match goal with H : _ /\ _ |- _ => destruct H end.
  repeat split; etransitivity; eassumption.
Qed.

(** X1: a mutation that returns never populates or clears a slot: on a
    Conf that holds a structured document, the populated variants and the
    user name are the same after any sequence of calls. *)
Theorem mutations_keep_the_variant M E ms c c' :
  mutateAll M E ms c = Ok c' ->
  document c <> None ->
  populated c' = populated c /\ user c' = user c /\ document c' <> None.
Proof.
  revert c. induction ms as [|m rest IH]; intros c Hop Hdoc.
  - injection Hop as <-. repeat split. exact Hdoc.
  - cbn [mutateAll] in Hop.
    destruct (mutate M E m c) as [c1|msg] eqn:Hm; [|discriminate Hop].
    cbn in Hop.
    pose proof (mutate_sameSlots _ _ _ _ _ Hm Hdoc) as Hs.
    pose proof (sameSlots_document _ _ Hs Hdoc) as Hdoc1.
    destruct (IH c1 Hop Hdoc1) as (Hp & Hu & Hd).
    split; [|split; [|exact Hd]].
    + rewrite Hp. apply sameSlots_populated. exact Hs.
    + rewrite Hu. apply Hs.
Qed.

Lemma mutations_keep_the_variant_witness :
  exists c',
    mutateAll Reference.merge Reference.externals
      [ CallAddFile "/etc/hostname" "root" "host" 420;
        CallAddSystemdUnit "docker.service" "[Unit]" true;
        CallAddSystemdUnitDropin "docker.service" "10-override.conf" "[Service]";
        CallCopyKeys [Sample.key];
        CallAddUserToGroups "core" ["docker"] ] Sample.confV22 = Ok c'
    /\ populated c' = [V2_2] /\ user c' = "core".
Proof.
  eexists. split; [vm_compute; reflexivity|].
  match goal with
  | |- populated ?c' = _ /\ _ =>
      destruct (mutations_keep_the_variant Reference.merge Reference.externals
                  [ CallAddFile "/etc/hostname" "root" "host" 420;
                    CallAddSystemdUnit "docker.service" "[Unit]" true;
                    CallAddSystemdUnitDropin "docker.service" "10-override.conf"
                      "[Service]";
                    CallCopyKeys [Sample.key];
                    CallAddUserToGroups "core" ["docker"] ] Sample.confV22 c')
        as (Hp & Hu & _)
  end.
  - vm_compute. reflexivity.
  - discriminate.
  - split; [rewrite Hp; reflexivity | rewrite Hu; reflexivity].
Defined.

(** ** When a mutation panics *)

Lemma CopyKeys_returns M E c keys : exists c', CopyKeys M E c keys = Ok c'.
Proof.
  unfold CopyKeys.
  repeat match goal with
  | |- context [if nonnil ?p then _ else _] =>
      let Hp := fresh "Hp" in destruct p eqn:Hp; cbn [nonnil]
  end;
  cbv beta delta [copyKeysIgnitionV1 copyKeysIgnitionV2 copyKeysIgnitionV21
    copyKeysIgnitionV22 copyKeysIgnitionV23 copyKeysIgnitionV3 copyKeysIgnitionV31
    copyKeysIgnitionV32 copyKeysIgnitionV33 copyKeysCloudConfig copyKeysScript
    MergeV3 MergeV31 MergeV32 MergeV33];
  repeat match goal with
  | Hs : ?p = Some _ |- context [deref ?p] => rewrite Hs
  end; cbn [deref mbind Result_bind]; cbv zeta;
  try (destruct (list_find _ _) as [[i u]|]); eauto.
  destruct (bool_decide (script c <> "")); eauto.
Qed.

(** X2: AddSystemdUnit, CopyKeys and AddUserToGroups return on every Conf,
    whichever slots are populated. *)
Theorem three_mutations_never_panic M E c :
  (forall name contents enable,
     exists c', AddSystemdUnit M c name contents enable = Ok c')
  /\ (forall keys, exists c', CopyKeys M E c keys = Ok c')
  /\ (forall name groups, exists r, AddUserToGroups M c name groups = Ok r).
Proof.
  repeat split; intros.
  - unfold AddSystemdUnit.
    repeat match goal with
    | |- context [if nonnil ?p then _ else _] =>
        let Hp := fresh "Hp" in destruct p eqn:Hp; cbn [nonnil]
    end;
    cbv beta delta [addSystemdUnitV1 addSystemdUnitV2 addSystemdUnitV21
      addSystemdUnitV22 addSystemdUnitV23 addSystemdUnitV3 addSystemdUnitV31
      addSystemdUnitV32 addSystemdUnitV33 addSystemdUnitCloudConfig
      MergeV3 MergeV31 MergeV32 MergeV33];
    repeat match goal with
    | Hs : ?p = Some _ |- context [deref ?p] => rewrite Hs
    end; cbn [deref mbind Result_bind]; eauto.
  - apply CopyKeys_returns.
  - unfold AddUserToGroups.
    repeat match goal with
    | |- context [if nonnil ?p then _ else _] =>
        let Hp := fresh "Hp" in destruct p eqn:Hp; cbn [nonnil]
    end;
    cbv beta delta [addUserToGroupsV3 addUserToGroupsV31 addUserToGroupsV32
      addUserToGroupsV33 MergeV3 MergeV31 MergeV32 MergeV33];
    repeat match goal with
    | Hs : ?p = Some _ |- context [deref ?p] => rewrite Hs
    end; cbn [deref mbind Result_bind]; eauto.
Qed.

(** X3: AddSystemdUnitDropin panics exactly when the slots of v1 to v3.0
    are empty and the v3.1 slot is populated. *)
Theorem AddSystemdUnitDropin_panics_iff M c service name contents :
  (exists msg, AddSystemdUnitDropin M c service name contents = Panic msg)
  <-> (ignitionV1 c = None /\ ignitionV2 c = None /\ ignitionV21 c = None
       /\ ignitionV22 c = None /\ ignitionV23 c = None /\ ignitionV3 c = None
       /\ ignitionV31 c <> None).
Proof.
  split.
  - intros [msg Hop]. unfold AddSystemdUnitDropin in Hop.
    dispatch Hop; run_routine Hop; try discriminate Hop;
      try (destruct (list_find _ _) as [[i u]|]; discriminate Hop).
    repeat split; try reflexivity. discriminate.
  - intros (H1 & H2 & H21 & H22 & H23 & H3 & H31).
    unfold AddSystemdUnitDropin. rewrite H1, H2, H21, H22, H23, H3.
    destruct (ignitionV31 c); [|congruence].
    cbn [nonnil]. unfold addSystemdDropinV3, MergeV3. rewrite H3. eexists. reflexivity.
Qed.

(** X4: AddFile panics in two cases only: no Ignition or cloud-config slot
    is populated, or the call reaches the legacy routine and the first
    filesystem of the legacy document is not on the root device. *)
Theorem AddFile_panics_iff M E c path filesystem contents mode :
  (exists msg, AddFile M E c path filesystem contents mode = Panic msg)
  <-> (document c = None
       \/ (ignitionV33 c = None /\ ignitionV32 c = None /\ ignitionV31 c = None
           /\ ignitionV3 c = None /\ ignitionV2 c = None /\ ignitionV21 c = None
           /\ ignitionV22 c = None /\ ignitionV23 c = None
           /\ exists fs0 rest, legacyFilesystems c = fs0 :: rest
                               /\ V1types.Filesystem_Device fs0 <> ROOT)).
Proof.
  split.
  - intros [msg Hop]. unfold AddFile in Hop.
    dispatch Hop; run_routine Hop; try discriminate Hop.
    + destruct (url_Parse E _); discriminate Hop.
    + right. repeat split; try reflexivity. unfold legacyFilesystems. rewrite Hp7.
      destruct (V1types.Storage_Filesystems _) as [|fs0 rest]; [discriminate Hop|].
      exists fs0, rest. split; [reflexivity|].
      destruct (decide (V1types.Filesystem_Device fs0 <> ROOT)) as [Hd|Hd]; [exact Hd|].
      rewrite bool_decide_eq_false_2 in Hop by exact Hd. discriminate Hop.
    + left. unfold document. rewrite Hp7, Hp3, Hp4, Hp5, Hp6, Hp2, Hp1, Hp0, Hp, Hp8.
      reflexivity.
  - intros [Hdoc|(H33 & H32 & H31 & H3 & H2 & H21 & H22 & H23 & fs0 & rest & Hfs & Hdev)].
    + unfold document in Hdoc. unfold AddFile.
      repeat match type of Hdoc with
      | match ?p with Some _ => _ | None => _ end = None =>
          destruct p; [discriminate Hdoc|]
      end.
      cbn [nonnil]. eexists. reflexivity.
    + unfold AddFile. rewrite H33, H32, H31, H3, H2, H21, H22, H23. cbn [nonnil].
      unfold legacyFilesystems in Hfs.
      destruct (ignitionV1 c) as [cfg|] eqn:H1; [|discriminate Hfs].
      cbn [nonnil]. unfold addFileV1. rewrite H1. cbn [deref mbind Result_bind].
      rewrite Hfs. rewrite bool_decide_eq_true_2 by exact Hdev. eexists. reflexivity.
Qed.

(** ** Render *)

Lemma injectKeys_returns M E u c : exists r, injectKeys M E u c = Ok r.
Proof.
  unfold injectKeys. destruct (bool_decide _); [|eauto].
  destruct (CopyKeys_returns M E c (ud_extraKeys u)) as [c' Hc'].
  rewrite Hc'. eauto.
Qed.

(** X5: Render never panics: for every UserData of one of the seven
    kinds it returns a Conf or an error. *)
Theorem Render_never_panics M E u ctPlatform :
  exists r, (Render M E u ctPlatform).2 = Ok r.
Proof.
  unfold Render. destruct (ud_kind u).
  - apply injectKeys_returns.
  - destruct (cci_NewCloudConfig E (ud_data u)) as [cc [e|]]; cbn [snd];
      [eauto|apply injectKeys_returns].
  - destruct (renderIgnition E (ud_data u) _) as [c' [e|]]; cbn [snd];
      [eauto|apply injectKeys_returns].
  - destruct (ct_Parse E (ud_data u)) as [[clc ast] report].
    destruct (IsFatal report); cbn [snd]; [eauto|].
    destruct (ct_Convert E clc ctPlatform ast) as [ignc report'].
    destruct (IsFatal report'); cbn [snd]; [eauto|apply injectKeys_returns].
  - apply injectKeys_returns.
  - destruct (butane_TranslateBytes E (ud_data u)) as [[ignc report] [e|]];
      cbn [snd]; [eauto|].
    destruct (IsFatal report); cbn [snd]; [eauto|].
    destruct (renderIgnition E _ _) as [c' [e|]]; cbn [snd];
      [eauto|apply injectKeys_returns].
  - apply injectKeys_returns.
Qed.

(** X6: rendering the same UserData a second time gives the same result
    and leaves the UserData as the first call left it, for every kind
    (after a Butane UserData was rewritten it renders as Ignition). *)
Theorem Render_twice M E u ctPlatform :
  Render M E (Render M E u ctPlatform).1 ctPlatform = Render M E u ctPlatform.
Proof.
  destruct (decide (ud_kind u = kindButane)) as [Hk|Hk].
  - unfold Render at 2 3. rewrite Hk.
    destruct (butane_TranslateBytes E (ud_data u)) as [[ignc report] [e|]] eqn:Ht;
      cbn [fst].
    + unfold Render. rewrite Hk, Ht. reflexivity.
    + destruct (IsFatal report) eqn:Hf; cbn [fst].
      * unfold Render. rewrite Hk, Ht, Hf. reflexivity.
      * cbn [ud_data].
        destruct (renderIgnition E ignc (newConf (ud_User u))) as [c' [e|]] eqn:Hr;
          cbn [fst]; unfold Render; cbn [ud_kind ud_data ud_User]; rewrite Hr;
          reflexivity.
  - rewrite (Render_keeps_other_receivers M E u ctPlatform Hk). reflexivity.
Qed.

(** X7: pending keys are a deferred CopyKeys: rendering a UserData that
    carries keys gives what rendering it without keys gives, followed by
    CopyKeys of those keys on the Conf. *)
Theorem Render_defers_CopyKeys M E u keys ctPlatform :
  keys <> [] ->
  (Render M E (withExtraKeys keys u) ctPlatform).2
  = match (Render M E (withExtraKeys [] u) ctPlatform).2 with
    | Ok (inl c) => c' ← CopyKeys M E c keys; Ok (inl c')
    | other => other
    end.
Proof.
  intros Hkeys.
  assert (Hlen : bool_decide (0 < length keys)%nat = true).
  { apply bool_decide_eq_true. destruct keys; [congruence|simpl; lia]. }
  unfold Render, injectKeys, withExtraKeys. cbn [ud_kind ud_data ud_extraKeys ud_User].
  destruct (ud_kind u); cbn [length]; rewrite ?Hlen; cbn [snd].
  - reflexivity.
  - destruct (cci_NewCloudConfig E (ud_data u)) as [cc [e|]]; reflexivity.
  - destruct (renderIgnition E (ud_data u) _) as [c' [e|]]; reflexivity.
  - destruct (ct_Parse E (ud_data u)) as [[clc ast] report].
    destruct (IsFatal report); [reflexivity|].
    destruct (ct_Convert E clc ctPlatform ast) as [ignc report'].
    destruct (IsFatal report'); reflexivity.
  - reflexivity.
  - destruct (butane_TranslateBytes E (ud_data u)) as [[ignc report] [e|]];
      [reflexivity|].
    destruct (IsFatal report); [reflexivity|]. cbn [ud_data ud_extraKeys ud_User].
    destruct (renderIgnition E _ _) as [c' [e|]]; cbn [snd length];
      rewrite ?Hlen; reflexivity.
  - reflexivity.
Qed.

Lemma Render_defers_CopyKeys_witness :
  (Render Reference.merge Reference.externals
     (withExtraKeys [Sample.key] (Ignition (Reference.versionHeader "2.2.0"))) "qemu").2
  = (c ← CopyKeys Reference.merge Reference.externals
            (set_ignitionV22 (Some (Reference.emptyV22 "2.2.0")) (newConf ""))
            [Sample.key];
     Ok (inl c)).
Proof.
  rewrite (Render_defers_CopyKeys Reference.merge Reference.externals
             (Ignition (Reference.versionHeader "2.2.0")) [Sample.key] "qemu")
    by discriminate.
  vm_compute. reflexivity.
Defined.

Lemma renderIgnition_stores E data c c' :
  renderIgnition E data c = (c', None) ->
  exists d, c' = store d c /\ variantOf d ∈ declarative.
Proof.
  rewrite renderIgnition_is_cascade. unfold attempts. cbn [cascade].
  repeat match goal with
  | |- context [attempt ?u ?w ?r] =>
      let Ha := fresh "Ha" in
      destruct (attempt u w r) as [d| |e] eqn:Ha;
      [ intros [= <-]; destruct (attempt_accepted _ _ _ _ Ha) as [x ->];
        eexists; split; [reflexivity|];
        apply list_elem_of_In; cbn; tauto
      | clear Ha
      | discriminate ]
  end.
  discriminate.
Qed.

Lemma injectKeys_inv M E u c0 c :
  injectKeys M E u c0 = Ok (inl c) ->
  (ud_extraKeys u = [] /\ c = c0)
  \/ (ud_extraKeys u <> [] /\ CopyKeys M E c0 (ud_extraKeys u) = Ok c).
Proof.
  unfold injectKeys. destruct (ud_extraKeys u) as [|k ks] eqn:Hk.
  - cbn. intros [= <-]. left. split; reflexivity.
  - rewrite bool_decide_eq_true_2 by (cbn; lia).
    destruct (CopyKeys M E c0 (k :: ks)) as [c1|msg]; [|discriminate].
    cbn. intros [= <-]. right. split; [discriminate|reflexivity].
Qed.

Lemma Render_inversion M E u ctPlatform u' c :
  Render M E u ctPlatform = (u', Ok (inl c)) ->
  exists c0,
    renderedShape (ud_kind u) (ud_data u) (ud_User u) c0
    /\ ((ud_extraKeys u = [] /\ c = c0)
        \/ (ud_extraKeys u <> [] /\ CopyKeys M E c0 (ud_extraKeys u) = Ok c)).
Proof.
  unfold Render, renderedShape. destruct (ud_kind u).
  - intros [= _ H]. eexists. split; [reflexivity|]. apply injectKeys_inv. exact H.
  - destruct (cci_NewCloudConfig E (ud_data u)) as [cc [e|]]; [discriminate|].
    intros [= _ H]. eexists. split; [eauto|]. apply injectKeys_inv. exact H.
  - destruct (renderIgnition E (ud_data u) _) as [c' [e|]] eqn:Hr; [discriminate|].
    intros [= _ H]. exists c'. split; [|apply injectKeys_inv; exact H].
    eapply renderIgnition_stores. exact Hr.
  - destruct (ct_Parse E (ud_data u)) as [[clc ast] report].
    destruct (IsFatal report); [discriminate|].
    destruct (ct_Convert E clc ctPlatform ast) as [ignc report'].
    destruct (IsFatal report'); [discriminate|].
    intros [= _ H]. eexists. split; [eauto|]. apply injectKeys_inv. exact H.
  - intros [= _ H]. eexists. split; [reflexivity|]. apply injectKeys_inv. exact H.
  - destruct (butane_TranslateBytes E (ud_data u)) as [[ignc report] [e|]];
      [discriminate|].
    destruct (IsFatal report); [discriminate|]. cbn [ud_data].
    destruct (renderIgnition E ignc _) as [c' [e|]] eqn:Hr; [discriminate|].
    intros [= _ H]. exists c'. split; [|apply (injectKeys_inv M E _ _ _ H)].
    eapply renderIgnition_stores. exact Hr.
  - intros [= _ H]. eexists. split; [reflexivity|]. apply injectKeys_inv. exact H.
Qed.

Lemma IsIgnition_sameSlots c c' : sameSlots c c' -> IsIgnition c' = IsIgnition c.
Proof.
  intros (H1 & H2 & H21 & H22 & H23 & H3 & H31 & H32 & H33 & _).
  unfold IsIgnition. rewrite H1, H2, H21, H22, H23, H3, H31, H32, H33. reflexivity.
Qed.

(** X8: the kind of the UserData decides the variant of the Conf that
    Render returns: none for the empty kind, cloud-config, script or
    multipart for those kinds (or none), one of the nine declarative
    versions for Ignition and Butane, and always v2.3 for a Container
    Linux Config.  At most one variant is populated. *)
Theorem Render_variant_of_kind M E u ctPlatform u' c :
  Render M E u ctPlatform = (u', Ok (inl c)) ->
  (length (populated c) <= 1)%nat
  /\ match ud_kind u with
     | kindEmpty => populated c = []
     | kindCloudConfig => populated c = [VCloudConfig] \/ populated c = []
     | kindScript => populated c = [VScript] \/ populated c = []
     | kindMultipartMime => populated c = [VMultipart] \/ populated c = []
     | kindIgnition | kindButane => exists v, v ∈ declarative /\ populated c = [v]
     | kindContainerLinuxConfig => populated c = [V2_3]
     end.
Proof.
  intros HR. destruct (Render_inversion _ _ _ _ _ _ HR) as (c0 & Hshape & Hkeys).
  assert (Hmain :
    match ud_kind u with
    | kindEmpty => populated c = []
    | kindCloudConfig => populated c = [VCloudConfig] \/ populated c = []
    | kindScript => populated c = [VScript] \/ populated c = []
    | kindMultipartMime => populated c = [VMultipart] \/ populated c = []
    | kindIgnition | kindButane => exists v, v ∈ declarative /\ populated c = [v]
    | kindContainerLinuxConfig => populated c = [V2_3]
    end).
  { unfold renderedShape in Hshape. destruct (ud_kind u).
    - subst c0. destruct Hkeys as [[_ ->]|[_ Hc]]; [reflexivity|].
      apply CopyKeys_sameSlots in Hc; [|right; reflexivity].
      rewrite (sameSlots_populated _ _ Hc). reflexivity.
    - destruct Hshape as [cc ->]. destruct Hkeys as [[_ ->]|[_ Hc]].
      + destruct cc; [left|right]; reflexivity.
      + destruct cc.
        * apply CopyKeys_sameSlots in Hc; [|left; discriminate].
          rewrite (sameSlots_populated _ _ Hc). left. reflexivity.
        * apply CopyKeys_sameSlots in Hc; [|right; reflexivity].
          rewrite (sameSlots_populated _ _ Hc). right. reflexivity.
    - destruct Hshape as (d & -> & Hd). exists (variantOf d). split; [exact Hd|].
      destruct Hkeys as [[_ ->]|[_ Hc]]; [apply populated_store|].
      apply CopyKeys_sameSlots in Hc; [|left; rewrite document_store; discriminate].
      rewrite (sameSlots_populated _ _ Hc). apply populated_store.
    - destruct Hshape as [ignc ->].
      destruct Hkeys as [[_ ->]|[_ Hc]]; [reflexivity|].
      apply CopyKeys_sameSlots in Hc; [|left; discriminate].
      rewrite (sameSlots_populated _ _ Hc). reflexivity.
    - subst c0. destruct Hkeys as [[_ ->]|[_ Hc]].
      + unfold populated, slot, textSlot. cbn.
        destruct (bool_decide (ud_data u <> "")); [left|right]; reflexivity.
      + unfold CopyKeys in Hc. cbn in Hc.
        destruct (decide (ud_data u <> "")) as [Hne|He].
        * rewrite bool_decide_eq_true_2 in Hc by exact Hne.
          unfold copyKeysScript in Hc. injection Hc as <-.
          unfold populated, slot, textSlot. cbn.
          destruct (bool_decide (_ <> "")); [left|right]; reflexivity.
        * rewrite bool_decide_eq_false_2 in Hc by exact He. injection Hc as <-.
          unfold populated, slot, textSlot. cbn.
          rewrite bool_decide_eq_false_2 by exact He. right. reflexivity.
    - destruct Hshape as (d & -> & Hd). exists (variantOf d). split; [exact Hd|].
      destruct Hkeys as [[_ ->]|[_ Hc]]; [apply populated_store|].
      apply CopyKeys_sameSlots in Hc; [|left; rewrite document_store; discriminate].
      rewrite (sameSlots_populated _ _ Hc). apply populated_store.
    - subst c0.
      assert (Hp : populated (set_multipartMime (ud_data u) (newConf (ud_User u)))
                   = [VMultipart]
                   \/ populated (set_multipartMime (ud_data u) (newConf (ud_User u)))
                      = []).
      { unfold populated, slot, textSlot. cbn.
        destruct (bool_decide (ud_data u <> "")); [left|right]; reflexivity. }
      destruct Hkeys as [[_ ->]|[_ Hc]]; [exact Hp|].
      apply CopyKeys_sameSlots in Hc; [|right; reflexivity].
      rewrite (sameSlots_populated _ _ Hc). exact Hp. }
  split; [|exact Hmain].
  destruct (ud_kind u);
    repeat match goal with
    | H : _ \/ _ |- _ => destruct H
    | H : exists _, _ |- _ => destruct H as (? & ? & ?)
    end;
    match goal with H : populated c = _ |- _ => rewrite H end; cbn; lia.
Qed.

Lemma Render_variant_of_kind_witness :
  exists c,
    Render Reference.merge Reference.externals
      (AddKey (ContainerLinuxConfig "storage: {}") Sample.key) "qemu"
    = (AddKey (ContainerLinuxConfig "storage: {}") Sample.key, Ok (inl c))
    /\ populated c = [V2_3].
Proof.
  eexists. split; [vm_compute; reflexivity|].
  match goal with
  | |- populated ?c = _ =>
      apply (proj2 (Render_variant_of_kind Reference.merge Reference.externals
                      (AddKey (ContainerLinuxConfig "storage: {}") Sample.key)
                      "qemu" (AddKey (ContainerLinuxConfig "storage: {}") Sample.key)
                      c eq_refl))
  end.
Defined.

(** X9: whenever Render returns a Conf, IsIgnition of that Conf is
    IsIgnitionCompatible of the UserData. *)
Theorem IsIgnition_of_rendered M E u ctPlatform u' c :
  Render M E u ctPlatform = (u', Ok (inl c)) ->
  IsIgnition c = IsIgnitionCompatible u.
Proof.
  intros HR. destruct (Render_inversion _ _ _ _ _ _ HR) as (c0 & Hshape & Hkeys).
  assert (H0 : IsIgnition c0 = IsIgnitionCompatible u).
  { unfold renderedShape in Hshape. unfold IsIgnitionCompatible.
    destruct (ud_kind u); cbn;
      repeat match goal with
      | H : exists _, _ |- _ => destruct H as [? H]
      | H : _ /\ _ |- _ => destruct H as [H ?]
      end; subst c0; try reflexivity.
    - match goal with
      | H : variantOf ?d ∈ declarative |- _ =>
          destruct d; try reflexivity;
          apply list_elem_of_In in H; cbn in H; intuition discriminate
      end.
    - match goal with
      | H : variantOf ?d ∈ declarative |- _ =>
          destruct d; try reflexivity;
          apply list_elem_of_In in H; cbn in H; intuition discriminate
      end. }
  destruct Hkeys as [[_ ->]|[_ Hc]]; [exact H0|].
  rewrite <- H0.
  destruct (decide (document c0 <> None)) as [Hd|Hd].
  - apply IsIgnition_sameSlots. eapply CopyKeys_sameSlots; [exact Hc|left; exact Hd].
  - apply dec_stable in Hd.
    unfold CopyKeys in Hc. unfold document in Hd.
    repeat match type of Hd with
    | match ?p with Some _ => _ | None => _ end = None =>
        let Hp := fresh "Hp" in destruct p eqn:Hp; [discriminate Hd|]
    end.
    cbn [nonnil] in Hc. unfold copyKeysScript in Hc.
    destruct (bool_decide _); injection Hc as <-; unfold IsIgnition; cbn;
      rewrite ?Hp, ?Hp0, ?Hp1, ?Hp2, ?Hp3, ?Hp4, ?Hp5, ?Hp6, ?Hp7; reflexivity.
Qed.

Lemma IsIgnition_of_rendered_witness :
  exists c,
    Render Reference.merge Reference.externals Sample.butane "qemu"
    = (Ignition (Reference.versionHeader "3.3.0"), Ok (inl c))
    /\ IsIgnition c = true.
Proof.
  eexists. split; [vm_compute; reflexivity|].
  match goal with
  | |- IsIgnition ?c = _ =>
      apply (IsIgnition_of_rendered Reference.merge Reference.externals
               Sample.butane "qemu" (Ignition (Reference.versionHeader "3.3.0")) c
               eq_refl)
  end.
Defined.

Lemma String_text_only E c :
  document c = None ->
  String E c = (if bool_decide (script c <> "") then script c else multipartMime c).
Proof.
  unfold document, String. intros Hd.
  repeat match type of Hd with
  | match ?p with Some _ => _ | None => _ end = None =>
      destruct p; [discriminate Hd|]
  end.
  destruct (bool_decide (script c <> "")); [reflexivity|].
  destruct (decide (multipartMime c <> "")) as [Hm|Hm].
  - rewrite bool_decide_eq_true_2 by exact Hm. reflexivity.
  - rewrite bool_decide_eq_false_2 by exact Hm. apply dec_stable in Hm.
    symmetry. exact Hm.
Qed.

(** X10: scripts and multipart documents pass through byte for byte: a
    script UserData without pending keys, and a multipart UserData with
    or without keys, render to a Conf whose String and Bytes are the raw
    text of the UserData. *)
Theorem Render_passes_text_through M E u ctPlatform :
  (ud_kind u = kindScript /\ ud_extraKeys u = []) \/ ud_kind u = kindMultipartMime ->
  exists c,
    Render M E u ctPlatform = (u, Ok (inl c))
    /\ String E c = ud_data u
    /\ Bytes E c = ud_data u.
Proof.
  intros [[Hk Hkeys]|Hk]; unfold Render, injectKeys; rewrite Hk.
  - rewrite Hkeys. cbn [length]. rewrite bool_decide_eq_false_2 by lia.
    eexists. split; [reflexivity|].
    unfold Bytes. rewrite String_text_only by reflexivity. cbn [script multipartMime set_script newConf].
    destruct (decide (ud_data u <> "")) as [Hne|He].
    + rewrite bool_decide_eq_true_2 by exact Hne. split; reflexivity.
    + rewrite bool_decide_eq_false_2 by exact He. apply dec_stable in He.
      rewrite He. split; reflexivity.
  - assert (Hc : forall keys,
              CopyKeys M E (set_multipartMime (ud_data u) (newConf (ud_User u))) keys
              = Ok (set_multipartMime (ud_data u) (newConf (ud_User u))))
      by reflexivity.
    rewrite Hc. cbn [mbind Result_bind].
    exists (set_multipartMime (ud_data u) (newConf (ud_User u))).
    split; [destruct (bool_decide _); reflexivity|].
    unfold Bytes. rewrite String_text_only by reflexivity. split; reflexivity.
Qed.

Lemma Render_passes_text_through_witness :
  exists c,
    Render Reference.merge Reference.externals (Script "#!/bin/sh") "qemu"
    = (Script "#!/bin/sh", Ok (inl c))
    /\ String Reference.externals c = "#!/bin/sh".
Proof.
  destruct (Render_passes_text_through Reference.merge Reference.externals
              (Script "#!/bin/sh") "qemu") as (c & HR & HS & _).
  - left. split; reflexivity.
  - exists c. split; [exact HR|exact HS].
Defined.

(** X11: when none of the nine parsers recognises the version of an
    Ignition payload, Render returns no Conf and the "unknown version"
    error of the v3 library, whatever the payload looks like. *)
Theorem Render_unrecognized_version M E u ctPlatform :
  ud_kind u = kindIgnition ->
  Forall (fun a => a.2 = NotRecognized) (attempts E (ud_data u)) ->
  Render M E u ctPlatform = (u, Ok (inr ign3err_ErrUnknownVersion)).
Proof.
  intros Hk Hall. unfold Render. rewrite Hk, renderIgnition_is_cascade.
  assert (Hc : forall l c, Forall (fun a : Variant * Attempt => a.2 = NotRecognized) l ->
                 cascade l c = (c, Some ign3err_ErrUnknownVersion)).
  { induction l as [|[v a] l IH]; intros c0 Hl; [reflexivity|].
    inversion Hl as [|? ? Ha Hl']; subst. cbn in Ha. subst a. cbn. apply IH. exact Hl'. }
  rewrite Hc by exact Hall. reflexivity.
Qed.

Lemma Render_unrecognized_version_witness :
  Render Reference.merge Reference.externals (Ignition "{}") "qemu"
  = (Ignition "{}", Ok (inr ign3err_ErrUnknownVersion)).
Proof.
  apply Render_unrecognized_version; [reflexivity|].
  repeat constructor.
Defined.

(** ** UserData helpers *)

(** X12: AddSSHKeys appends the keys, in order, after the pending keys and
    leaves kind, raw text and user as they were. *)
Theorem AddSSHKeys_appends userdata keys :
  AddSSHKeys userdata keys
  = withExtraKeys (ud_extraKeys userdata ++ keys) userdata.
Proof.
  unfold AddSSHKeys. revert userdata.
  induction keys as [|k ks IH]; intros u.
  - cbn. rewrite app_nil_r. destruct u; reflexivity.
  - cbn [fold_left]. rewrite IH. unfold withExtraKeys, AddKey. cbn.
    rewrite <- app_assoc. reflexivity.
Qed.

(** ** Units *)

Lemma unitsNamed_snoc name us u :
  uv_name u = name -> unitsNamed name (us ++ [u]) = S (unitsNamed name us).
Proof.
  intros Hu. unfold unitsNamed. rewrite filter_app, length_app.
  rewrite (filter_singleton_True _ _ []) by exact Hu. cbn. lia.
Qed.

(** X13: AddSystemdUnit never looks for an existing unit: on a document
    that is edited in place it appends one unit with the given name,
    contents and enablement and no drop-ins, so the number of units of
    that name grows by one with every call. *)
Theorem AddSystemdUnit_appends M c v name contents enable :
  sole v c ->
  v ∈ editedInPlace ->
  exists c' fresh,
    AddSystemdUnit M c name contents enable = Ok c'
    /\ sole v c'
    /\ units c' = (units c ++ [fresh])%list
    /\ uv_name fresh = name
    /\ uv_contents fresh = Some contents
    /\ uv_enabled fresh = Some enable
    /\ uv_dropins fresh = []
    /\ unitsNamed name (units c') = S (unitsNamed name (units c)).
Proof.
  intros H Hin. apply list_elem_of_In in Hin. simpl in Hin.
  destruct Hin as [<-|[<-|[<-|[<-|[<-|[<-|[]]]]]]]; sole_cases H;
    populated_slot old Hold; unfold AddSystemdUnit; rewrite_slots;
    unfold addSystemdUnitV1, addSystemdUnitV2, addSystemdUnitV21,
      addSystemdUnitV22, addSystemdUnitV23, addSystemdUnitCloudConfig;
    rewrite Hold; cbn [deref mbind Result_bind];
    do 2 eexists; (split; [reflexivity|]); (split; [same_sole H|]);
    match goal with
    | |- units ?c' = _ /\ _ =>
        assert (Hu : units c' = (units c ++ [_])%list)
          by (unfold units, document; cbn; empty_slots; rewrite_none; rewrite Hold;
              cbn; rewrite map_app; reflexivity)
    end;
    (split; [exact Hu|]);
    repeat (split; [reflexivity|]);
    rewrite Hu; apply unitsNamed_snoc; reflexivity.
Qed.

Lemma AddSystemdUnit_appends_witness :
  exists c',
    AddSystemdUnit Reference.merge Sample.confV22docker "docker.service" "[Unit]" true
    = Ok c'
    /\ unitsNamed "docker.service" (units c') = 2%nat.
Proof.
  destruct (AddSystemdUnit_appends Reference.merge Sample.confV22docker V2_2
              "docker.service" "[Unit]" true eq_refl)
    as (c' & fresh & Hc' & _ & _ & _ & _ & _ & _ & Hn).
  - apply list_elem_of_In. simpl. auto.
  - exists c'. split; [exact Hc'|]. rewrite Hn. reflexivity.
Defined.

Lemma attachDropin_names service d fresh us other :
  uv_name fresh = service ->
  unitsNamed other (attachDropin service d fresh us)
  = if bool_decide (other = service)
    then Nat.max 1 (unitsNamed other us)
    else unitsNamed other us.
Proof.
  intros Hf. unfold unitsNamed.
  induction us as [|u l IH].
  - cbn [attachDropin]. rewrite filter_nil. cbn [length].
    destruct (decide (other = service)) as [->|Hne].
    + rewrite bool_decide_eq_true_2 by reflexivity.
      rewrite (filter_singleton_True _ _ []) by exact Hf. reflexivity.
    + rewrite bool_decide_eq_false_2 by exact Hne.
      rewrite (filter_singleton_False _ _ []) by congruence. reflexivity.
  - cbn [attachDropin]. destruct (decide (uv_name u = service)) as [Hu|Hu].
    + rewrite bool_decide_eq_true_2 by exact Hu.
      rewrite !filter_cons. cbn [uv_name withDropin].
      destruct (decide (uv_name u = other)) as [Ho|Ho]; cbn [length].
      * rewrite bool_decide_eq_true_2 by congruence. lia.
      * destruct (decide (other = service)) as [->|Hne]; [congruence|].
        rewrite bool_decide_eq_false_2 by exact Hne. reflexivity.
    + rewrite bool_decide_eq_false_2 by exact Hu.
      rewrite !filter_cons.
      destruct (decide (uv_name u = other)) as [Ho|Ho]; cbn [length].
      * rewrite IH. rewrite bool_decide_eq_false_2 by congruence.
        reflexivity.
      * exact IH.
Qed.

Lemma AddSystemdUnitDropin_in_place M c v service name contents :
  sole v c ->
  v ∈ editedInPlace ->
  exists c' fresh,
    AddSystemdUnitDropin M c service name contents = Ok c'
    /\ sole v c'
    /\ carriesOnly service (name, Some contents) fresh
    /\ units c' = attachDropin service (name, Some contents) fresh (units c).
Proof.
  intros H Hin. apply list_elem_of_In in Hin. simpl in Hin.
  destruct Hin as [<-|[<-|[<-|[<-|[<-|[<-|[]]]]]]]; sole_cases H;
    populated_slot old Hold; unfold AddSystemdUnitDropin; rewrite_slots;
    unfold addSystemdDropinV1, addSystemdDropinV2, addSystemdDropinV21,
      addSystemdDropinV22, addSystemdDropinV23, addSystemdDropinCloudConfig;
    rewrite Hold; cbn [deref mbind Result_bind].
  - in_place H Hold viewV1 V1types.Unit_Name
      (fun u0 => V1types.with_DropIns (V1types.Unit_DropIns u0 ++
         [ {| V1types.DropIn_Name := name; V1types.DropIn_Contents := contents |} ]) u0)
      {| V1types.Unit_Name := service; V1types.Unit_Enable := false;
         V1types.Unit_Mask := false; V1types.Unit_Contents := "";
         V1types.Unit_DropIns :=
           [ {| V1types.DropIn_Name := name; V1types.DropIn_Contents := contents |} ] |}.
  - in_place H Hold viewV2 V2types.Unit_Name
      (fun u0 => V2types.with_DropIns (V2types.Unit_DropIns u0 ++
         [ {| V2types.DropIn_Name := name; V2types.DropIn_Contents := contents |} ]) u0)
      {| V2types.Unit_Name := service; V2types.Unit_Enable := false;
         V2types.Unit_Mask := false; V2types.Unit_Contents := "";
         V2types.Unit_DropIns :=
           [ {| V2types.DropIn_Name := name; V2types.DropIn_Contents := contents |} ] |}.
  - in_place H Hold viewV21 V21types.Unit_Name
      (fun u0 => V21types.with_Dropins (V21types.Unit_Dropins u0 ++
         [ {| V21types.Dropin_Name := name; V21types.Dropin_Contents := contents |} ]) u0)
      {| V21types.Unit_Name := service; V21types.Unit_Contents := "";
         V21types.Unit_Enabled := None; V21types.Unit_Mask := false;
         V21types.Unit_Dropins :=
           [ {| V21types.Dropin_Name := name; V21types.Dropin_Contents := contents |} ] |}.
  - in_place H Hold viewV22 V22types.Unit_Name
      (fun u0 => V22types.with_Dropins (V22types.Unit_Dropins u0 ++
         [ {| V22types.Dropin_Name := name; V22types.Dropin_Contents := contents |} ]) u0)
      {| V22types.Unit_Name := service; V22types.Unit_Contents := "";
         V22types.Unit_Enabled := None; V22types.Unit_Mask := false;
         V22types.Unit_Dropins :=
           [ {| V22types.Dropin_Name := name; V22types.Dropin_Contents := contents |} ] |}.
  - in_place H Hold viewV22 V22types.Unit_Name
      (fun u0 => V22types.with_Dropins (V22types.Unit_Dropins u0 ++
         [ {| V22types.Dropin_Name := name; V22types.Dropin_Contents := contents |} ]) u0)
      {| V22types.Unit_Name := service; V22types.Unit_Contents := "";
         V22types.Unit_Enabled := None; V22types.Unit_Mask := false;
         V22types.Unit_Dropins :=
           [ {| V22types.Dropin_Name := name; V22types.Dropin_Contents := contents |} ] |}.
  - in_place H Hold viewCci cci.Unit_Name
      (fun u0 => cci.with_DropIns (cci.Unit_DropIns u0 ++
         [ {| cci.DropIn_Name := name; cci.DropIn_Content := contents |} ]) u0)
      {| cci.Unit_Name := service; cci.Unit_Mask := false; cci.Unit_Enable := false;
         cci.Unit_Runtime := false; cci.Unit_Content := ""; cci.Unit_Command := "";
         cci.Unit_DropIns :=
           [ {| cci.DropIn_Name := name; cci.DropIn_Content := contents |} ] |}.
Qed.

Lemma attachDropin_length service d fresh us :
  length (attachDropin service d fresh us)
  = if bool_decide (unitsNamed service us = 0%nat) then S (length us) else length us.
Proof.
  unfold unitsNamed. induction us as [|u l IH]; [reflexivity|].
  cbn [attachDropin]. rewrite filter_cons.
  destruct (decide (uv_name u = service)) as [Hu|Hu].
  - rewrite bool_decide_eq_true_2 by exact Hu. reflexivity.
  - rewrite bool_decide_eq_false_2 by exact Hu. cbn [length]. rewrite IH.
    destruct (bool_decide _); reflexivity.
Qed.

(** X14: AddSystemdUnitDropin never creates a second unit of a name: on a
    document that is edited in place the number of units named [service]
    after the call is the number before, or one if there was none; the
    units of every other name are counted as before; and the list of
    units grows only when no unit had the name. *)
Theorem AddSystemdUnitDropin_one_unit_per_name M c v service name contents :
  sole v c ->
  v ∈ editedInPlace ->
  exists c',
    AddSystemdUnitDropin M c service name contents = Ok c'
    /\ unitsNamed service (units c') = Nat.max 1 (unitsNamed service (units c))
    /\ (forall other, other <> service ->
          unitsNamed other (units c') = unitsNamed other (units c))
    /\ length (units c')
       = if bool_decide (unitsNamed service (units c) = 0%nat)
         then S (length (units c)) else length (units c).
Proof.
  intros H Hin.
  destruct (AddSystemdUnitDropin_in_place M c v service name contents H Hin)
    as (c' & fresh & Hc' & _ & (Hname & _) & Hunits).
  exists c'. split; [exact Hc'|]. rewrite Hunits. split; [|split].
  - rewrite attachDropin_names by exact Hname.
    rewrite bool_decide_eq_true_2 by reflexivity. reflexivity.
  - intros other Hne. rewrite attachDropin_names by exact Hname.
    rewrite bool_decide_eq_false_2 by exact Hne. reflexivity.
  - apply attachDropin_length.
Qed.

Lemma AddSystemdUnitDropin_one_unit_per_name_witness :
  exists c',
    AddSystemdUnitDropin Reference.merge Sample.confV22docker
      "docker.service" "10-override.conf" "[Service]" = Ok c'
    /\ unitsNamed "docker.service" (units c') = 1%nat
    /\ length (units c') = 2%nat.
Proof.
  destruct (AddSystemdUnitDropin_one_unit_per_name Reference.merge
              Sample.confV22docker V2_2 "docker.service" "10-override.conf"
              "[Service]" eq_refl) as (c' & Hc' & Hn & _ & Hl).
  - apply list_elem_of_In. simpl. auto.
  - exists c'. split; [exact Hc'|]. split; [rewrite Hn|rewrite Hl]; reflexivity.
Defined.

(** ** Keys *)

Section FindUpdate.
Context {U : Type} (P : U -> Prop) `{!forall x, Decision (P x)}.

Lemma list_find_insert_same (us : list U) i u u' :
  list_find P us = Some (i, u) -> P u' ->
  list_find P (<[i := u']> us) = Some (i, u').
Proof.
  intros Hf Hu'. apply list_find_Some in Hf as (Hi & _ & Hlt).
  apply list_find_Some. split; [|split; [exact Hu'|]].
  - apply list_lookup_insert_eq. eapply lookup_lt_Some. exact Hi.
  - intros j y Hj Hlt'. rewrite list_lookup_insert_ne in Hj by lia.
    eapply Hlt; eassumption.
Qed.

Lemma list_find_snoc (us : list U) mk :
  list_find P us = None -> P mk ->
  list_find P (us ++ [mk]) = Some (length us, mk).
Proof.
  intros Hf Hmk. rewrite list_find_app_r by exact Hf.
  cbn. rewrite decide_True by exact Hmk. cbn. reflexivity.
Qed.

Lemma insert_snoc (us : list U) mk x :
  <[length us := x]> (us ++ [mk])%list = (us ++ [x])%list.
Proof.
  rewrite (insert_app_r_alt us [mk] (length us) x) by lia.
  rewrite Nat.sub_diag. reflexivity.
Qed.
End FindUpdate.

Lemma findUpdate_twice {U} (P : U -> Prop) `{!forall x, Decision (P x)}
  (add1 add2 : U -> U) (mk1 mk2 : U) (us : list U) :
  (forall u, P u -> P (add1 u)) -> P mk1 ->
  findUpdate P add2 mk2 (findUpdate P add1 mk1 us)
  = findUpdate P (fun u => add2 (add1 u)) (add2 mk1) us.
Proof.
  intros Hadd Hmk. unfold findUpdate at 2 3.
  destruct (list_find P us) as [[i u]|] eqn:Hf.
  - unfold findUpdate.
    rewrite (list_find_insert_same P us i u (add1 u) Hf)
      by (apply Hadd; apply list_find_Some in Hf; tauto).
    apply list_insert_insert_eq.
  - unfold findUpdate. rewrite (list_find_snoc P us mk1 Hf Hmk).
    apply insert_snoc.
Qed.

Lemma findUpdate_ext {U} (P : U -> Prop) `{!forall x, Decision (P x)}
  (add add' : U -> U) (mk mk' : U) (us : list U) :
  (forall u, add u = add' u) -> mk = mk' ->
  findUpdate P add mk us = findUpdate P add' mk' us.
Proof.
  intros Hadd ->. unfold findUpdate.
  destruct (list_find P us) as [[i u]|]; [rewrite Hadd|]; reflexivity.
Qed.

Lemma CopyKeys_result_in_place M E c v keys :
  sole v c ->
  v ∈ editedInPlace ->
  exists d,
    document c = Some d /\ variantOf d = v
    /\ CopyKeys M E c keys
       = Ok (store (keysCopied (user c) (keysToStrings E keys) d) c).
Proof.
  intros H Hin. apply list_elem_of_In in Hin. simpl in Hin.
  destruct Hin as [<-|[<-|[<-|[<-|[<-|[<-|[]]]]]]]; sole_cases H;
    populated_slot old Hold;
    eexists; (split; [unfold document; empty_slots; rewrite_none; rewrite Hold;
                      reflexivity|]);
    (split; [reflexivity|]);
    unfold CopyKeys; rewrite_slots;
    cbv beta delta [copyKeysIgnitionV1 copyKeysIgnitionV2 copyKeysIgnitionV21
      copyKeysIgnitionV22 copyKeysIgnitionV23 copyKeysCloudConfig keysToStrings];
    rewrite Hold; cbn [deref mbind Result_bind]; cbv zeta;
    cbn [keysCopied store]; unfold findUpdate;
    try (destruct (list_find _ _) as [[i u]|]); reflexivity.
Qed.

Lemma keysCopied_twice name ks1 ks2 d :
  keysCopied name ks2 (keysCopied name ks1 d) = keysCopied name (ks1 ++ ks2) d.
Proof.
  destruct d; cbn [keysCopied]; try reflexivity.
  1-5: f_equal;
    cbv beta delta [V1types.with_Users V2types.with_Users V21types.with_Users
      V22types.with_Users]; cbn;
    rewrite findUpdate_twice by (cbn; auto);
    f_equal; apply findUpdate_ext;
    [ intros u;
      unfold moreKeysV1, moreKeysV2, moreKeysV21, moreKeysV22; cbn;
      rewrite <- app_assoc; reflexivity
    | reflexivity ].
  f_equal. unfold cci.with_SSHAuthorizedKeys. cbn. rewrite app_assoc. reflexivity.
Qed.

Lemma store_store d d' c :
  variantOf d = variantOf d' -> store d' (store d c) = store d' c.
Proof. destruct d, d'; cbn; intros Hv; try discriminate Hv; reflexivity. Qed.

Lemma variantOf_keysCopied name ks d : variantOf (keysCopied name ks d) = variantOf d.
Proof. destruct d; reflexivity. Qed.

Lemma sole_store d c : sole (variantOf d) c -> sole (variantOf d) (store d c).
Proof.
  intros H. sole_cases H.
  destruct d; (eapply sole_same_slots; [exact H|..]); cbn; try reflexivity;
    rewrite_slots; reflexivity.
Qed.

Lemma document_store_sole d c : sole (variantOf d) c -> document (store d c) = Some d.
Proof.
  intros H. sole_cases H. unfold document.
  destruct d; cbn; cbn in *; empty_slots; rewrite_none; reflexivity.
Qed.

(** X15: on a document that is edited in place CopyKeys composes: copying
    keys [k1] and then keys [k2] leaves the Conf that copying [k1 ++ k2]
    at once leaves. *)
Theorem CopyKeys_composes M E c v k1 k2 :
  sole v c ->
  v ∈ editedInPlace ->
  CopyKeys M E c (k1 ++ k2) = (c1 ← CopyKeys M E c k1; CopyKeys M E c1 k2).
Proof.
  intros H Hin.
  destruct (CopyKeys_result_in_place M E c v (k1 ++ k2)%list H Hin)
    as (d & Hd & Hv & H12).
  destruct (CopyKeys_result_in_place M E c v k1 H Hin) as (d1 & Hd1 & _ & H1).
  rewrite Hd in Hd1. injection Hd1 as <-.
  rewrite H12, H1. cbn [mbind Result_bind]. subst v.
  set (d1 := keysCopied (user c) (keysToStrings E k1) d).
  assert (Hv1 : variantOf d1 = variantOf d) by apply variantOf_keysCopied.
  assert (Hs1 : sole (variantOf d) (store d1 c)).
  { rewrite <- Hv1. apply sole_store. rewrite Hv1. exact H. }
  destruct (CopyKeys_result_in_place M E (store d1 c) (variantOf d) k2 Hs1 Hin)
    as (d2 & Hd2 & _ & H2).
  rewrite document_store_sole in Hd2 by (rewrite Hv1; exact H).
  injection Hd2 as <-.
  rewrite H2, user_store. subst d1.
  rewrite keysCopied_twice.
  rewrite store_store by (rewrite !variantOf_keysCopied; reflexivity).
  unfold keysToStrings. rewrite map_app. reflexivity.
Qed.

Lemma CopyKeys_composes_witness :
  CopyKeys Reference.merge Reference.externals Sample.confV22 [Sample.key; Sample.key]
  = (c1 ← CopyKeys Reference.merge Reference.externals Sample.confV22 [Sample.key];
     CopyKeys Reference.merge Reference.externals c1 [Sample.key]).
Proof.
  apply (CopyKeys_composes Reference.merge Reference.externals Sample.confV22 V2_2
           [Sample.key] [Sample.key] eq_refl).
  apply list_elem_of_In. simpl. auto.
Defined.

Lemma findUpdate_attachKeys {U} (view : U -> UserView) (nameOf : U -> string)
  (add : U -> U) (mk : U) name ks (us : list U) :
  (forall u, usr_name (view u) = nameOf u) ->
  (forall u, view (add u) = withKeys ks (view u)) ->
  map view (findUpdate (fun u => nameOf u = name) add mk us)
  = attachKeys name ks (view mk) (map view us).
Proof.
  intros Hname Hadd. unfold findUpdate.
  induction us as [|x l IH]; [reflexivity|].
  cbn [list_find map attachKeys]. rewrite Hname.
  destruct (decide (nameOf x = name)) as [Hx|Hx].
  - rewrite bool_decide_eq_true_2 by exact Hx. cbn. rewrite Hadd. reflexivity.
  - rewrite bool_decide_eq_false_2 by exact Hx.
    destruct (list_find _ l) as [[i u]|]; cbn; f_equal; exact IH.
Qed.

Lemma docUsers_keysCopied name ks d :
  variantOf d ∈ [LegacyV1; V2_0; V2_1; V2_2; V2_3] ->
  docUsers (keysCopied name ks d)
  = attachKeys name ks (freshUser (variantOf d) name ks) (docUsers d).
Proof.
  intros Hin. apply list_elem_of_In in Hin. cbn in Hin.
  destruct d; cbn in Hin; try (exfalso; intuition discriminate);
    cbn [keysCopied docUsers variantOf].
  - apply (findUpdate_attachKeys userV1 V1types.User_Name); intros u; reflexivity.
  - apply (findUpdate_attachKeys userV2 V2types.User_Name); intros u; reflexivity.
  - apply (findUpdate_attachKeys userV21 V21types.User_Name); intros u; reflexivity.
  - apply (findUpdate_attachKeys userV22 V22types.User_Name); intros u; reflexivity.
  - apply (findUpdate_attachKeys userV22 V22types.User_Name); intros u; reflexivity.
Qed.

(** X16: on a v1 or v2.x document CopyKeys appends the keys to the key list
    of the first passwd user named like the configured user, or appends a
    new user holding only the keys when there is none; files and units
    stay as they were. *)
Theorem CopyKeys_in_place M E c v keys :
  sole v c ->
  v ∈ [LegacyV1; V2_0; V2_1; V2_2; V2_3] ->
  exists c',
    CopyKeys M E c keys = Ok c'
    /\ users c'
       = attachKeys (user c) (keysToStrings E keys)
           (freshUser v (user c) (keysToStrings E keys)) (users c)
    /\ units c' = units c
    /\ fileEntries c' = fileEntries c.
Proof.
  intros H Hin.
  assert (Hin' : v ∈ editedInPlace).
  { apply list_elem_of_In in Hin. apply list_elem_of_In. cbn in *. tauto. }
  destruct (CopyKeys_result_in_place M E c v keys H Hin') as (d & Hd & Hv & Hc).
  eexists. split; [exact Hc|]. subst v.
  unfold users, units, fileEntries.
  rewrite document_store_sole
    by (rewrite variantOf_keysCopied; exact H).
  rewrite Hd. split; [|split].
  - apply docUsers_keysCopied. exact Hin.
  - destruct d; reflexivity.
  - destruct d; reflexivity.
Qed.

Lemma CopyKeys_in_place_witness :
  exists c',
    CopyKeys Reference.merge Reference.externals Sample.confV22 [Sample.key] = Ok c'
    /\ users c'
       = [ {| usr_name := "core"; usr_password := None;
              usr_keys := ["ssh-ed25519 AAAAC3Nza core@host"]; usr_groups := [] |} ].
Proof.
  destruct (CopyKeys_in_place Reference.merge Reference.externals Sample.confV22 V2_2
              [Sample.key] eq_refl) as (c' & Hc' & Hu & _).
  - apply list_elem_of_In. simpl. auto.
  - exists c'. split; [exact Hc'|]. rewrite Hu. reflexivity.
Defined.

(** ** Files *)

(** X17: the legacy routine keeps a single lazily created filesystem: a
    successful AddFile on a legacy v1 document leaves a first filesystem
    on the root device, creates it (ext4, holding only the new file) when
    the document had none, and otherwise leaves the number of filesystems
    and every filesystem but the first as they were. *)
Theorem AddFile_legacy_filesystem M E c path filesystem contents mode c' :
  sole LegacyV1 c ->
  AddFile M E c path filesystem contents mode = Ok c' ->
  exists fs0,
    legacyFilesystems c' = fs0 :: tail (legacyFilesystems c)
    /\ V1types.Filesystem_Device fs0 = ROOT
    /\ (legacyFilesystems c = [] -> V1types.Filesystem_Format fs0 = "ext4")
    /\ V1types.Filesystem_Files fs0
       = (match legacyFilesystems c with
          | [] => []
          | old0 :: _ => V1types.Filesystem_Files old0
          end
          ++ [ {| V1types.File_Path := path;
                  V1types.File_Contents := contents;
                  V1types.File_Mode := mode mod 2 ^ 32 |} ])%list.
Proof.
  intros H. sole_cases H. populated_slot old Hold.
  unfold AddFile. rewrite_slots. unfold addFileV1.
  rewrite Hold. cbn [deref mbind Result_bind].
  unfold legacyFilesystems at 2 3 4. rewrite Hold.
  destruct (V1types.Storage_Filesystems old) as [|old0 rest]; intros Hop;
    unfold legacyFilesystems.
  - injection Hop as <-. cbn. eexists. repeat split; reflexivity.
  - destruct (decide (V1types.Filesystem_Device old0 <> ROOT)) as [Hd|Hd].
    + rewrite bool_decide_eq_true_2 in Hop by exact Hd. discriminate Hop.
    + rewrite bool_decide_eq_false_2 in Hop by exact Hd. apply dec_stable in Hd.
      injection Hop as <-. cbn. eexists. split; [reflexivity|].
      split; [exact Hd|]. split; [discriminate|reflexivity].
Qed.

Lemma AddFile_legacy_filesystem_witness :
  exists c' fs0,
    AddFile Reference.merge Reference.externals
      (set_ignitionV1 (Some Reference.emptyV1) (newConf "core"))
      "/etc/hostname" "root" "host" 420 = Ok c'
    /\ legacyFilesystems c' = [fs0]
    /\ V1types.Filesystem_Device fs0 = ROOT.
Proof.
  eexists.
  match goal with
  | |- exists fs0, ?op = Ok ?c' /\ _ =>
      assert (Hop : op = Ok c') by (vm_compute; reflexivity)
  end.
  destruct (AddFile_legacy_filesystem Reference.merge Reference.externals
              (set_ignitionV1 (Some Reference.emptyV1) (newConf "core"))
              "/etc/hostname" "root" "host" 420 _ eq_refl Hop)
    as (fs0 & Hfs & Hdev & _).
  exists fs0. split; [exact Hop|]. split; [exact Hfs|exact Hdev].
Defined.

Lemma octal_of_pos_decodes p :
  OctalString.Raw.to_N ("0" ++ OctalString.Raw.of_pos p EmptyString) 0%N = N.pos p.
Proof.
  change (OctalString.Raw.to_N (OctalString.Raw.of_pos p EmptyString) 0%N = N.pos p).
  rewrite OctalString.Raw.to_N_of_pos. reflexivity.
Qed.

(** X18: a cloud-config file entry is owned by root and its permission
    string is the mode in octal behind a zero: for a positive mode its
    digits decode to the mode. *)
Theorem AddFile_cloudconfig_permissions M E c path filesystem contents mode :
  sole VCloudConfig c ->
  0 < mode ->
  exists c' cc' f,
    AddFile M E c path filesystem contents mode = Ok c'
    /\ cloudconfig c' = Some cc'
    /\ last (cci.WriteFiles cc') = Some f
    /\ cci.File_Path f = path
    /\ cci.File_Content f = contents
    /\ cci.File_Owner f = "root"
    /\ OctalString.Raw.to_N (cci.File_RawFilePermissions f) 0%N = Z.to_N mode.
Proof.
  intros H Hmode. sole_cases H. populated_slot old Hold.
  unfold AddFile. rewrite_slots. unfold addFileCloudConfig. rewrite Hold.
  cbn [deref mbind Result_bind].
  do 3 eexists. split; [reflexivity|]. split; [reflexivity|].
  split; [cbn; apply last_snoc|].
  cbn. repeat split.
  destruct mode as [|p|p]; try lia. cbn [Sprintf_sharp_o Z.to_N].
  apply octal_of_pos_decodes.
Qed.

Lemma AddFile_cloudconfig_permissions_witness :
  exists c' cc' f,
    AddFile Reference.merge Reference.externals
      (set_cloudconfig (Some Reference.emptyCloudConfig) (newConf "core"))
      "/etc/hostname" "root" "host" 420 = Ok c'
    /\ cloudconfig c' = Some cc'
    /\ last (cci.WriteFiles cc') = Some f
    /\ cci.File_RawFilePermissions f = "0644".
Proof.
  destruct (AddFile_cloudconfig_permissions Reference.merge Reference.externals
              (set_cloudconfig (Some Reference.emptyCloudConfig) (newConf "core"))
              "/etc/hostname" "root" "host" 420 eq_refl)
    as (c' & cc' & f & Hc' & Hcc & Hf & _); [lia|].
  exists c', cc', f. split; [exact Hc'|]. split; [exact Hcc|]. split; [exact Hf|].
  vm_compute in Hc'. injection Hc' as <-. injection Hcc as <-.
  vm_compute in Hf. injection Hf as <-. reflexivity.
Defined.

(** ** Validation *)

(** X19: ValidConfig is false for every Conf without an Ignition document
    (cloud-config, script, multipart, empty).  A v3.0 document is judged
    by the validator of the v3 library; every other Ignition document,
    v3.1, v3.2 and v3.3 included, is handed to the validator of the v2
    library. *)
Theorem ValidConfig_validator V c v :
  sole v c ->
  ValidConfig V c
  = match v, document c with
    | V3_0, Some (DocV3 x) =>
        negb (IsFatal (ign3validate_ValidateWithContext V x))
    | (LegacyV1 | V2_0 | V2_1 | V2_2 | V2_3 | V3_1 | V3_2 | V3_3), d =>
        negb (IsFatal (ignvalidate_ValidateWithoutSource V d))
    | _, _ => false
    end.
Proof.
  intros H. sole_cases H.
  destruct v; unfold ValidConfig, IsIgnition, getIgnitionValidateValue, document;
    rewrite_slots; cbn [orb negb];
    try populated_slot old Hold; empty_slots; rewrite_none; rewrite ?Hold;
    reflexivity.
Qed.

Lemma ValidConfig_validator_witness :
  ValidConfig MoreSamples.validators Sample.confV31 = false
  /\ ValidConfig MoreSamples.validators Sample.confV3 = true
  /\ ValidConfig MoreSamples.validators Sample.confScript = false.
Proof.
  split; [|split].
  - rewrite (ValidConfig_validator MoreSamples.validators Sample.confV31 V3_1 eq_refl).
    reflexivity.
  - rewrite (ValidConfig_validator MoreSamples.validators Sample.confV3 V3_0 eq_refl).
    reflexivity.
  - apply (ValidConfig_validator MoreSamples.validators Sample.confScript VScript
             eq_refl).
Defined.

(** ** Classification helpers *)

(** X20: isScript looks at the first two bytes only: it is true exactly
    when the payload, after the gzip step, begins with [#!]. *)
Theorem isScript_first_two_bytes G b :
  isScript G b = String.prefix "#!" (decompressIfGzipped G b).
Proof.
  unfold isScript, strings_HasPrefix.
  generalize (decompressIfGzipped G b). intros text.
  destruct text as [|a t]; [reflexivity|]. cbn [firstLine].
  destruct (decide (a = Ascii.ascii_of_nat 10)) as [->|Ha].
  - rewrite bool_decide_eq_true_2 by reflexivity. reflexivity.
  - rewrite bool_decide_eq_false_2 by exact Ha. cbn [String.prefix].
    destruct (Ascii.ascii_dec _ a); [|reflexivity].
    destruct t as [|a' t']; [reflexivity|]. cbn [firstLine].
    destruct (decide (a' = Ascii.ascii_of_nat 10)) as [->|Ha'].
    + rewrite bool_decide_eq_true_2 by reflexivity. reflexivity.
    + rewrite bool_decide_eq_false_2 by exact Ha'. cbn [String.prefix].
      destruct (Ascii.ascii_dec _ a'); [|reflexivity].
      destruct t'; [reflexivity|]. cbn [firstLine].
      destruct (bool_decide _); reflexivity.
Qed.

Lemma prefix_app pre s :
  String.prefix pre s = true <-> exists post, s = pre ++ post.
Proof.
  revert s. induction pre as [|a pre IH]; intros s.
  - split; [intros _; exists s; reflexivity|intros _; destruct s; reflexivity].
  - destruct s as [|b s]; cbn [String.prefix];
      [split; [discriminate|intros [post Hp]; discriminate Hp]|].
    destruct (Ascii.ascii_dec a b) as [->|Hab].
    + rewrite IH. split; intros [post Hp]; exists post;
        [subst s; reflexivity | cbn in Hp; injection Hp as ->; reflexivity].
    + split; [discriminate|]. intros [post Hp]. cbn in Hp. injection Hp as Hc _.
      congruence.
Qed.

(** X21: Contains is true exactly when the substring occurs somewhere in
    the raw text of the UserData. *)
Theorem Contains_occurs u substr :
  Contains u substr = true <-> exists pre post, ud_data u = pre ++ substr ++ post.
Proof.
  unfold Contains. generalize (ud_data u). intros s.
  induction s as [|a s IH]; cbn [strings_Contains].
  - destruct (String.prefix substr "") eqn:Hp.
    + split; [intros _|reflexivity].
      apply prefix_app in Hp as [post Hp]. exists "", post. exact Hp.
    + split; [discriminate|]. intros (pre & post & Hs).
      destruct pre; cbn in Hs; [|discriminate Hs].
      assert (String.prefix substr "" = true) by (apply prefix_app; eauto).
      congruence.
  - destruct (String.prefix substr (String.String a s)) eqn:Hp.
    + split; [intros _|reflexivity].
      apply prefix_app in Hp as [post Hp]. exists "", post. exact Hp.
    + rewrite IH. split.
      * intros (pre & post & Hs). exists (String.String a pre), post.
        subst s. reflexivity.
      * intros (pre & post & Hs). destruct pre as [|a' pre]; cbn in Hs.
        -- assert (String.prefix substr (String.String a s) = true)
             by (apply prefix_app; eauto).
           congruence.
        -- injection Hs as _ Hs. eauto.
Qed.

(** ** The architecture of the sysext test *)

Lemma beforeDash_spec s w :
  beforeDash w = w ->
  beforeDash s = w <-> s = w \/ exists rest, s = w ++ "-" ++ rest.
Proof.
  revert w. induction s as [|a t IH]; intros w Hw.
  - cbn [beforeDash]. split.
    + intros <-. left. reflexivity.
    + intros [<-|[rest Hr]]; [reflexivity|].
      destruct w; cbn in Hr; discriminate Hr.
  - cbn [beforeDash]. destruct (decide (a = Ascii.ascii_of_nat 45)) as [->|Ha].
    + rewrite bool_decide_eq_true_2 by reflexivity. split.
      * intros <-. right. exists t. reflexivity.
      * intros [<-|[rest Hr]].
        -- cbn in Hw. discriminate Hw.
        -- destruct w as [|b w]; [reflexivity|].
           cbn in Hr. injection Hr as <- _. cbn in Hw. discriminate Hw.
    + rewrite bool_decide_eq_false_2 by exact Ha.
      destruct w as [|b w].
      * split; [discriminate|].
        intros [Hs|[rest Hr]]; [discriminate Hs|].
        cbn in Hr. injection Hr as -> _. contradiction Ha. reflexivity.
      * assert (Hw' : beforeDash w = w /\ b <> Ascii.ascii_of_nat 45).
        { cbn [beforeDash] in Hw.
          destruct (decide (b = Ascii.ascii_of_nat 45)) as [Hb|Hb].
          - rewrite bool_decide_eq_true_2 in Hw by exact Hb. discriminate Hw.
          - rewrite bool_decide_eq_false_2 in Hw by exact Hb.
            injection Hw as Hw. split; assumption. }
        destruct Hw' as [Hw' _]. specialize (IH w Hw'). split.
        -- intros [= -> Hb]. apply IH in Hb as [->|[rest ->]].
           ++ left. reflexivity.
           ++ right. exists rest. reflexivity.
        -- intros [[= -> ->]|[rest Hr]].
           ++ f_equal. apply IH. left. reflexivity.
           ++ cbn in Hr. injection Hr as -> ->. f_equal. apply IH. right.
              exists rest. reflexivity.
Qed.

(** X22: the sysext test builds for aarch64 exactly when the board name is
    [arm64] or begins with [arm64-]; for every other board name,
    the empty one included, it builds for x86_64. *)
Theorem sysextArch_by_board board :
  (sysextArch board = "aarch64"
   <-> board = "arm64" \/ exists rest, board = "arm64-" ++ rest)
  /\ (sysextArch board = "aarch64" \/ sysextArch board = "x86_64").
Proof.
  unfold sysextArch.
  pose proof (beforeDash_spec board "arm64" eq_refl) as Hspec.
  destruct (decide (beforeDash board = "arm64")) as [Hb|Hb].
  - rewrite bool_decide_eq_true_2 by exact Hb. split; [|left; reflexivity].
    split; [intros _|reflexivity].
    apply Hspec in Hb as [->|[rest ->]]; [left|right; exists rest]; reflexivity.
  - rewrite bool_decide_eq_false_2 by exact Hb. split; [|right; reflexivity].
    split; [discriminate|]. intros Hc. exfalso. apply Hb. apply Hspec.
    destruct Hc as [->|[rest ->]]; [left|right; exists rest]; reflexivity.
Qed.
